(** * file-content-generator: test scaffold generation for Java classes

    A shallow embedding of [src/file-content-generator.ts] and the
    properties of the generated test scaffold.

    Texts are Rocq [string]s, a text standing for its UTF-8 bytes.  The
    templates of the generator are ASCII; the values interpolated into
    them (class names, types, parameter names) are arbitrary strings.
    The first character of a text is its first UTF-16 unit: the one to
    three bytes of a character of the Basic Multilingual Plane; its case
    mapping is the one of the Unicode standard.

    Indices of [indexOf] and [substring] are integers ([Z]); [indexOf]
    answers [-1] for a text that does not occur.  The indices count
    bytes where the source counts UTF-16 units.  The two counts name the
    same places of an ASCII path.  On a path with other characters they
    name the same places as long as [path] and [fsPath] are the same
    text and the characters that the constants [15] and [1] of
    [createPackageNameFromUri] step over are ASCII: the marker of the
    source tree and the slash after it, or the first fourteen characters
    of a path without marker, and the character before the file name. *)

From Stdlib Require Import Strings.String Strings.Ascii Strings.Byte.
From Stdlib Require Import Lists.List Bool.Bool Arith.Arith ZArith.ZArith Lia.
Import ListNotations.

Open Scope list_scope.
Open Scope string_scope.

(** ** String literals

    TypeScript literals use the escapes [\n] and [\t]; [lit] reads a
    literal written with these escapes.  [\q] stands for the double-quote
    character. *)

Definition NL : ascii := "010"%char.
Definition TAB : ascii := "009"%char.
Definition DQUOTE : ascii := "034"%char.

Fixpoint lit (s : string) : string :=
  match s with
  | EmptyString => EmptyString
  | String "\"%char (String c rest) =>
      let c' := if Ascii.eqb c "n"%char then NL
                else if Ascii.eqb c "t"%char then TAB
                else if Ascii.eqb c "q"%char then DQUOTE
                else c in
      String c' (lit rest)
  | String c rest => String c (lit rest)
  end.

(** ** The case mappings of the Unicode standard

    The characters of the Basic Multilingual Plane beyond ASCII whose
    lower-case or upper-case mapping differs from them, each with its
    mapping, both in UTF-8 (Unicode 14, with the unconditional mappings
    of more than one character, such as [SS] for the sharp s). *)

Module Unicode.

(** The characters with a lower-case mapping of their own. *)
Definition lowerPairs : list (list byte * list byte) :=
  [([xc3;x80],[xc3;xa0]); ([xc3;x81],[xc3;xa1]); ([xc3;x82],[xc3;xa2]); ([xc3;x83],[xc3;xa3]);
   ([xc3;x84],[xc3;xa4]); ([xc3;x85],[xc3;xa5]); ([xc3;x86],[xc3;xa6]); ([xc3;x87],[xc3;xa7]);
   ([xc3;x88],[xc3;xa8]); ([xc3;x89],[xc3;xa9]); ([xc3;x8a],[xc3;xaa]); ([xc3;x8b],[xc3;xab]);
   ([xc3;x8c],[xc3;xac]); ([xc3;x8d],[xc3;xad]); ([xc3;x8e],[xc3;xae]); ([xc3;x8f],[xc3;xaf]);
   ([xc3;x90],[xc3;xb0]); ([xc3;x91],[xc3;xb1]); ([xc3;x92],[xc3;xb2]); ([xc3;x93],[xc3;xb3]);
   ([xc3;x94],[xc3;xb4]); ([xc3;x95],[xc3;xb5]); ([xc3;x96],[xc3;xb6]); ([xc3;x98],[xc3;xb8]);
   ([xc3;x99],[xc3;xb9]); ([xc3;x9a],[xc3;xba]); ([xc3;x9b],[xc3;xbb]); ([xc3;x9c],[xc3;xbc]);
   ([xc3;x9d],[xc3;xbd]); ([xc3;x9e],[xc3;xbe]); ([xc4;x80],[xc4;x81]); ([xc4;x82],[xc4;x83]);
   ([xc4;x84],[xc4;x85]); ([xc4;x86],[xc4;x87]); ([xc4;x88],[xc4;x89]); ([xc4;x8a],[xc4;x8b]);
   ([xc4;x8c],[xc4;x8d]); ([xc4;x8e],[xc4;x8f]); ([xc4;x90],[xc4;x91]); ([xc4;x92],[xc4;x93]);
   ([xc4;x94],[xc4;x95]); ([xc4;x96],[xc4;x97]); ([xc4;x98],[xc4;x99]); ([xc4;x9a],[xc4;x9b]);
   ([xc4;x9c],[xc4;x9d]); ([xc4;x9e],[xc4;x9f]); ([xc4;xa0],[xc4;xa1]); ([xc4;xa2],[xc4;xa3]);
   ([xc4;xa4],[xc4;xa5]); ([xc4;xa6],[xc4;xa7]); ([xc4;xa8],[xc4;xa9]); ([xc4;xaa],[xc4;xab]);
   ([xc4;xac],[xc4;xad]); ([xc4;xae],[xc4;xaf]); ([xc4;xb0],[x69;xcc;x87]);
   ([xc4;xb2],[xc4;xb3]); ([xc4;xb4],[xc4;xb5]); ([xc4;xb6],[xc4;xb7]); ([xc4;xb9],[xc4;xba]);
   ([xc4;xbb],[xc4;xbc]); ([xc4;xbd],[xc4;xbe]); ([xc4;xbf],[xc5;x80]); ([xc5;x81],[xc5;x82]);
   ([xc5;x83],[xc5;x84]); ([xc5;x85],[xc5;x86]); ([xc5;x87],[xc5;x88]); ([xc5;x8a],[xc5;x8b]);
   ([xc5;x8c],[xc5;x8d]); ([xc5;x8e],[xc5;x8f]); ([xc5;x90],[xc5;x91]); ([xc5;x92],[xc5;x93]);
   ([xc5;x94],[xc5;x95]); ([xc5;x96],[xc5;x97]); ([xc5;x98],[xc5;x99]); ([xc5;x9a],[xc5;x9b]);
   ([xc5;x9c],[xc5;x9d]); ([xc5;x9e],[xc5;x9f]); ([xc5;xa0],[xc5;xa1]); ([xc5;xa2],[xc5;xa3]);
   ([xc5;xa4],[xc5;xa5]); ([xc5;xa6],[xc5;xa7]); ([xc5;xa8],[xc5;xa9]); ([xc5;xaa],[xc5;xab]);
   ([xc5;xac],[xc5;xad]); ([xc5;xae],[xc5;xaf]); ([xc5;xb0],[xc5;xb1]); ([xc5;xb2],[xc5;xb3]);
   ([xc5;xb4],[xc5;xb5]); ([xc5;xb6],[xc5;xb7]); ([xc5;xb8],[xc3;xbf]); ([xc5;xb9],[xc5;xba]);
   ([xc5;xbb],[xc5;xbc]); ([xc5;xbd],[xc5;xbe]); ([xc6;x81],[xc9;x93]); ([xc6;x82],[xc6;x83]);
   ([xc6;x84],[xc6;x85]); ([xc6;x86],[xc9;x94]); ([xc6;x87],[xc6;x88]); ([xc6;x89],[xc9;x96]);
   ([xc6;x8a],[xc9;x97]); ([xc6;x8b],[xc6;x8c]); ([xc6;x8e],[xc7;x9d]); ([xc6;x8f],[xc9;x99]);
   ([xc6;x90],[xc9;x9b]); ([xc6;x91],[xc6;x92]); ([xc6;x93],[xc9;xa0]); ([xc6;x94],[xc9;xa3]);
   ([xc6;x96],[xc9;xa9]); ([xc6;x97],[xc9;xa8]); ([xc6;x98],[xc6;x99]); ([xc6;x9c],[xc9;xaf]);
   ([xc6;x9d],[xc9;xb2]); ([xc6;x9f],[xc9;xb5]); ([xc6;xa0],[xc6;xa1]); ([xc6;xa2],[xc6;xa3]);
   ([xc6;xa4],[xc6;xa5]); ([xc6;xa6],[xca;x80]); ([xc6;xa7],[xc6;xa8]); ([xc6;xa9],[xca;x83]);
   ([xc6;xac],[xc6;xad]); ([xc6;xae],[xca;x88]); ([xc6;xaf],[xc6;xb0]); ([xc6;xb1],[xca;x8a]);
   ([xc6;xb2],[xca;x8b]); ([xc6;xb3],[xc6;xb4]); ([xc6;xb5],[xc6;xb6]); ([xc6;xb7],[xca;x92]);
   ([xc6;xb8],[xc6;xb9]); ([xc6;xbc],[xc6;xbd]); ([xc7;x84],[xc7;x86]); ([xc7;x85],[xc7;x86]);
   ([xc7;x87],[xc7;x89]); ([xc7;x88],[xc7;x89]); ([xc7;x8a],[xc7;x8c]); ([xc7;x8b],[xc7;x8c]);
   ([xc7;x8d],[xc7;x8e]); ([xc7;x8f],[xc7;x90]); ([xc7;x91],[xc7;x92]); ([xc7;x93],[xc7;x94]);
   ([xc7;x95],[xc7;x96]); ([xc7;x97],[xc7;x98]); ([xc7;x99],[xc7;x9a]); ([xc7;x9b],[xc7;x9c]);
   ([xc7;x9e],[xc7;x9f]); ([xc7;xa0],[xc7;xa1]); ([xc7;xa2],[xc7;xa3]); ([xc7;xa4],[xc7;xa5]);
   ([xc7;xa6],[xc7;xa7]); ([xc7;xa8],[xc7;xa9]); ([xc7;xaa],[xc7;xab]); ([xc7;xac],[xc7;xad]);
   ([xc7;xae],[xc7;xaf]); ([xc7;xb1],[xc7;xb3]); ([xc7;xb2],[xc7;xb3]); ([xc7;xb4],[xc7;xb5]);
   ([xc7;xb6],[xc6;x95]); ([xc7;xb7],[xc6;xbf]); ([xc7;xb8],[xc7;xb9]); ([xc7;xba],[xc7;xbb]);
   ([xc7;xbc],[xc7;xbd]); ([xc7;xbe],[xc7;xbf]); ([xc8;x80],[xc8;x81]); ([xc8;x82],[xc8;x83]);
   ([xc8;x84],[xc8;x85]); ([xc8;x86],[xc8;x87]); ([xc8;x88],[xc8;x89]); ([xc8;x8a],[xc8;x8b]);
   ([xc8;x8c],[xc8;x8d]); ([xc8;x8e],[xc8;x8f]); ([xc8;x90],[xc8;x91]); ([xc8;x92],[xc8;x93]);
   ([xc8;x94],[xc8;x95]); ([xc8;x96],[xc8;x97]); ([xc8;x98],[xc8;x99]); ([xc8;x9a],[xc8;x9b]);
   ([xc8;x9c],[xc8;x9d]); ([xc8;x9e],[xc8;x9f]); ([xc8;xa0],[xc6;x9e]); ([xc8;xa2],[xc8;xa3]);
   ([xc8;xa4],[xc8;xa5]); ([xc8;xa6],[xc8;xa7]); ([xc8;xa8],[xc8;xa9]); ([xc8;xaa],[xc8;xab]);
   ([xc8;xac],[xc8;xad]); ([xc8;xae],[xc8;xaf]); ([xc8;xb0],[xc8;xb1]); ([xc8;xb2],[xc8;xb3]);
   ([xc8;xba],[xe2;xb1;xa5]); ([xc8;xbb],[xc8;xbc]); ([xc8;xbd],[xc6;x9a]);
   ([xc8;xbe],[xe2;xb1;xa6]); ([xc9;x81],[xc9;x82]); ([xc9;x83],[xc6;x80]);
   ([xc9;x84],[xca;x89]); ([xc9;x85],[xca;x8c]); ([xc9;x86],[xc9;x87]); ([xc9;x88],[xc9;x89]);
   ([xc9;x8a],[xc9;x8b]); ([xc9;x8c],[xc9;x8d]); ([xc9;x8e],[xc9;x8f]); ([xcd;xb0],[xcd;xb1]);
   ([xcd;xb2],[xcd;xb3]); ([xcd;xb6],[xcd;xb7]); ([xcd;xbf],[xcf;xb3]); ([xce;x86],[xce;xac]);
   ([xce;x88],[xce;xad]); ([xce;x89],[xce;xae]); ([xce;x8a],[xce;xaf]); ([xce;x8c],[xcf;x8c]);
   ([xce;x8e],[xcf;x8d]); ([xce;x8f],[xcf;x8e]); ([xce;x91],[xce;xb1]); ([xce;x92],[xce;xb2]);
   ([xce;x93],[xce;xb3]); ([xce;x94],[xce;xb4]); ([xce;x95],[xce;xb5]); ([xce;x96],[xce;xb6]);
   ([xce;x97],[xce;xb7]); ([xce;x98],[xce;xb8]); ([xce;x99],[xce;xb9]); ([xce;x9a],[xce;xba]);
   ([xce;x9b],[xce;xbb]); ([xce;x9c],[xce;xbc]); ([xce;x9d],[xce;xbd]); ([xce;x9e],[xce;xbe]);
   ([xce;x9f],[xce;xbf]); ([xce;xa0],[xcf;x80]); ([xce;xa1],[xcf;x81]); ([xce;xa3],[xcf;x83]);
   ([xce;xa4],[xcf;x84]); ([xce;xa5],[xcf;x85]); ([xce;xa6],[xcf;x86]); ([xce;xa7],[xcf;x87]);
   ([xce;xa8],[xcf;x88]); ([xce;xa9],[xcf;x89]); ([xce;xaa],[xcf;x8a]); ([xce;xab],[xcf;x8b]);
   ([xcf;x8f],[xcf;x97]); ([xcf;x98],[xcf;x99]); ([xcf;x9a],[xcf;x9b]); ([xcf;x9c],[xcf;x9d]);
   ([xcf;x9e],[xcf;x9f]); ([xcf;xa0],[xcf;xa1]); ([xcf;xa2],[xcf;xa3]); ([xcf;xa4],[xcf;xa5]);
   ([xcf;xa6],[xcf;xa7]); ([xcf;xa8],[xcf;xa9]); ([xcf;xaa],[xcf;xab]); ([xcf;xac],[xcf;xad]);
   ([xcf;xae],[xcf;xaf]); ([xcf;xb4],[xce;xb8]); ([xcf;xb7],[xcf;xb8]); ([xcf;xb9],[xcf;xb2]);
   ([xcf;xba],[xcf;xbb]); ([xcf;xbd],[xcd;xbb]); ([xcf;xbe],[xcd;xbc]); ([xcf;xbf],[xcd;xbd]);
   ([xd0;x80],[xd1;x90]); ([xd0;x81],[xd1;x91]); ([xd0;x82],[xd1;x92]); ([xd0;x83],[xd1;x93]);
   ([xd0;x84],[xd1;x94]); ([xd0;x85],[xd1;x95]); ([xd0;x86],[xd1;x96]); ([xd0;x87],[xd1;x97]);
   ([xd0;x88],[xd1;x98]); ([xd0;x89],[xd1;x99]); ([xd0;x8a],[xd1;x9a]); ([xd0;x8b],[xd1;x9b]);
   ([xd0;x8c],[xd1;x9c]); ([xd0;x8d],[xd1;x9d]); ([xd0;x8e],[xd1;x9e]); ([xd0;x8f],[xd1;x9f]);
   ([xd0;x90],[xd0;xb0]); ([xd0;x91],[xd0;xb1]); ([xd0;x92],[xd0;xb2]); ([xd0;x93],[xd0;xb3]);
   ([xd0;x94],[xd0;xb4]); ([xd0;x95],[xd0;xb5]); ([xd0;x96],[xd0;xb6]); ([xd0;x97],[xd0;xb7]);
   ([xd0;x98],[xd0;xb8]); ([xd0;x99],[xd0;xb9]); ([xd0;x9a],[xd0;xba]); ([xd0;x9b],[xd0;xbb]);
   ([xd0;x9c],[xd0;xbc]); ([xd0;x9d],[xd0;xbd]); ([xd0;x9e],[xd0;xbe]); ([xd0;x9f],[xd0;xbf]);
   ([xd0;xa0],[xd1;x80]); ([xd0;xa1],[xd1;x81]); ([xd0;xa2],[xd1;x82]); ([xd0;xa3],[xd1;x83]);
   ([xd0;xa4],[xd1;x84]); ([xd0;xa5],[xd1;x85]); ([xd0;xa6],[xd1;x86]); ([xd0;xa7],[xd1;x87]);
   ([xd0;xa8],[xd1;x88]); ([xd0;xa9],[xd1;x89]); ([xd0;xaa],[xd1;x8a]); ([xd0;xab],[xd1;x8b]);
   ([xd0;xac],[xd1;x8c]); ([xd0;xad],[xd1;x8d]); ([xd0;xae],[xd1;x8e]); ([xd0;xaf],[xd1;x8f]);
   ([xd1;xa0],[xd1;xa1]); ([xd1;xa2],[xd1;xa3]); ([xd1;xa4],[xd1;xa5]); ([xd1;xa6],[xd1;xa7]);
   ([xd1;xa8],[xd1;xa9]); ([xd1;xaa],[xd1;xab]); ([xd1;xac],[xd1;xad]); ([xd1;xae],[xd1;xaf]);
   ([xd1;xb0],[xd1;xb1]); ([xd1;xb2],[xd1;xb3]); ([xd1;xb4],[xd1;xb5]); ([xd1;xb6],[xd1;xb7]);
   ([xd1;xb8],[xd1;xb9]); ([xd1;xba],[xd1;xbb]); ([xd1;xbc],[xd1;xbd]); ([xd1;xbe],[xd1;xbf]);
   ([xd2;x80],[xd2;x81]); ([xd2;x8a],[xd2;x8b]); ([xd2;x8c],[xd2;x8d]); ([xd2;x8e],[xd2;x8f]);
   ([xd2;x90],[xd2;x91]); ([xd2;x92],[xd2;x93]); ([xd2;x94],[xd2;x95]); ([xd2;x96],[xd2;x97]);
   ([xd2;x98],[xd2;x99]); ([xd2;x9a],[xd2;x9b]); ([xd2;x9c],[xd2;x9d]); ([xd2;x9e],[xd2;x9f]);
   ([xd2;xa0],[xd2;xa1]); ([xd2;xa2],[xd2;xa3]); ([xd2;xa4],[xd2;xa5]); ([xd2;xa6],[xd2;xa7]);
   ([xd2;xa8],[xd2;xa9]); ([xd2;xaa],[xd2;xab]); ([xd2;xac],[xd2;xad]); ([xd2;xae],[xd2;xaf]);
   ([xd2;xb0],[xd2;xb1]); ([xd2;xb2],[xd2;xb3]); ([xd2;xb4],[xd2;xb5]); ([xd2;xb6],[xd2;xb7]);
   ([xd2;xb8],[xd2;xb9]); ([xd2;xba],[xd2;xbb]); ([xd2;xbc],[xd2;xbd]); ([xd2;xbe],[xd2;xbf]);
   ([xd3;x80],[xd3;x8f]); ([xd3;x81],[xd3;x82]); ([xd3;x83],[xd3;x84]); ([xd3;x85],[xd3;x86]);
   ([xd3;x87],[xd3;x88]); ([xd3;x89],[xd3;x8a]); ([xd3;x8b],[xd3;x8c]); ([xd3;x8d],[xd3;x8e]);
   ([xd3;x90],[xd3;x91]); ([xd3;x92],[xd3;x93]); ([xd3;x94],[xd3;x95]); ([xd3;x96],[xd3;x97]);
   ([xd3;x98],[xd3;x99]); ([xd3;x9a],[xd3;x9b]); ([xd3;x9c],[xd3;x9d]); ([xd3;x9e],[xd3;x9f]);
   ([xd3;xa0],[xd3;xa1]); ([xd3;xa2],[xd3;xa3]); ([xd3;xa4],[xd3;xa5]); ([xd3;xa6],[xd3;xa7]);
   ([xd3;xa8],[xd3;xa9]); ([xd3;xaa],[xd3;xab]); ([xd3;xac],[xd3;xad]); ([xd3;xae],[xd3;xaf]);
   ([xd3;xb0],[xd3;xb1]); ([xd3;xb2],[xd3;xb3]); ([xd3;xb4],[xd3;xb5]); ([xd3;xb6],[xd3;xb7]);
   ([xd3;xb8],[xd3;xb9]); ([xd3;xba],[xd3;xbb]); ([xd3;xbc],[xd3;xbd]); ([xd3;xbe],[xd3;xbf]);
   ([xd4;x80],[xd4;x81]); ([xd4;x82],[xd4;x83]); ([xd4;x84],[xd4;x85]); ([xd4;x86],[xd4;x87]);
   ([xd4;x88],[xd4;x89]); ([xd4;x8a],[xd4;x8b]); ([xd4;x8c],[xd4;x8d]); ([xd4;x8e],[xd4;x8f]);
   ([xd4;x90],[xd4;x91]); ([xd4;x92],[xd4;x93]); ([xd4;x94],[xd4;x95]); ([xd4;x96],[xd4;x97]);
   ([xd4;x98],[xd4;x99]); ([xd4;x9a],[xd4;x9b]); ([xd4;x9c],[xd4;x9d]); ([xd4;x9e],[xd4;x9f]);
   ([xd4;xa0],[xd4;xa1]); ([xd4;xa2],[xd4;xa3]); ([xd4;xa4],[xd4;xa5]); ([xd4;xa6],[xd4;xa7]);
   ([xd4;xa8],[xd4;xa9]); ([xd4;xaa],[xd4;xab]); ([xd4;xac],[xd4;xad]); ([xd4;xae],[xd4;xaf]);
   ([xd4;xb1],[xd5;xa1]); ([xd4;xb2],[xd5;xa2]); ([xd4;xb3],[xd5;xa3]); ([xd4;xb4],[xd5;xa4]);
   ([xd4;xb5],[xd5;xa5]); ([xd4;xb6],[xd5;xa6]); ([xd4;xb7],[xd5;xa7]); ([xd4;xb8],[xd5;xa8]);
   ([xd4;xb9],[xd5;xa9]); ([xd4;xba],[xd5;xaa]); ([xd4;xbb],[xd5;xab]); ([xd4;xbc],[xd5;xac]);
   ([xd4;xbd],[xd5;xad]); ([xd4;xbe],[xd5;xae]); ([xd4;xbf],[xd5;xaf]); ([xd5;x80],[xd5;xb0]);
   ([xd5;x81],[xd5;xb1]); ([xd5;x82],[xd5;xb2]); ([xd5;x83],[xd5;xb3]); ([xd5;x84],[xd5;xb4]);
   ([xd5;x85],[xd5;xb5]); ([xd5;x86],[xd5;xb6]); ([xd5;x87],[xd5;xb7]); ([xd5;x88],[xd5;xb8]);
   ([xd5;x89],[xd5;xb9]); ([xd5;x8a],[xd5;xba]); ([xd5;x8b],[xd5;xbb]); ([xd5;x8c],[xd5;xbc]);
   ([xd5;x8d],[xd5;xbd]); ([xd5;x8e],[xd5;xbe]); ([xd5;x8f],[xd5;xbf]); ([xd5;x90],[xd6;x80]);
   ([xd5;x91],[xd6;x81]); ([xd5;x92],[xd6;x82]); ([xd5;x93],[xd6;x83]); ([xd5;x94],[xd6;x84]);
   ([xd5;x95],[xd6;x85]); ([xd5;x96],[xd6;x86]); ([xe1;x82;xa0],[xe2;xb4;x80]);
   ([xe1;x82;xa1],[xe2;xb4;x81]); ([xe1;x82;xa2],[xe2;xb4;x82]); ([xe1;x82;xa3],[xe2;xb4;x83]);
   ([xe1;x82;xa4],[xe2;xb4;x84]); ([xe1;x82;xa5],[xe2;xb4;x85]); ([xe1;x82;xa6],[xe2;xb4;x86]);
   ([xe1;x82;xa7],[xe2;xb4;x87]); ([xe1;x82;xa8],[xe2;xb4;x88]); ([xe1;x82;xa9],[xe2;xb4;x89]);
   ([xe1;x82;xaa],[xe2;xb4;x8a]); ([xe1;x82;xab],[xe2;xb4;x8b]); ([xe1;x82;xac],[xe2;xb4;x8c]);
   ([xe1;x82;xad],[xe2;xb4;x8d]); ([xe1;x82;xae],[xe2;xb4;x8e]); ([xe1;x82;xaf],[xe2;xb4;x8f]);
   ([xe1;x82;xb0],[xe2;xb4;x90]); ([xe1;x82;xb1],[xe2;xb4;x91]); ([xe1;x82;xb2],[xe2;xb4;x92]);
   ([xe1;x82;xb3],[xe2;xb4;x93]); ([xe1;x82;xb4],[xe2;xb4;x94]); ([xe1;x82;xb5],[xe2;xb4;x95]);
   ([xe1;x82;xb6],[xe2;xb4;x96]); ([xe1;x82;xb7],[xe2;xb4;x97]); ([xe1;x82;xb8],[xe2;xb4;x98]);
   ([xe1;x82;xb9],[xe2;xb4;x99]); ([xe1;x82;xba],[xe2;xb4;x9a]); ([xe1;x82;xbb],[xe2;xb4;x9b]);
   ([xe1;x82;xbc],[xe2;xb4;x9c]); ([xe1;x82;xbd],[xe2;xb4;x9d]); ([xe1;x82;xbe],[xe2;xb4;x9e]);
   ([xe1;x82;xbf],[xe2;xb4;x9f]); ([xe1;x83;x80],[xe2;xb4;xa0]); ([xe1;x83;x81],[xe2;xb4;xa1]);
   ([xe1;x83;x82],[xe2;xb4;xa2]); ([xe1;x83;x83],[xe2;xb4;xa3]); ([xe1;x83;x84],[xe2;xb4;xa4]);
   ([xe1;x83;x85],[xe2;xb4;xa5]); ([xe1;x83;x87],[xe2;xb4;xa7]); ([xe1;x83;x8d],[xe2;xb4;xad]);
   ([xe1;x8e;xa0],[xea;xad;xb0]); ([xe1;x8e;xa1],[xea;xad;xb1]); ([xe1;x8e;xa2],[xea;xad;xb2]);
   ([xe1;x8e;xa3],[xea;xad;xb3]); ([xe1;x8e;xa4],[xea;xad;xb4]); ([xe1;x8e;xa5],[xea;xad;xb5]);
   ([xe1;x8e;xa6],[xea;xad;xb6]); ([xe1;x8e;xa7],[xea;xad;xb7]); ([xe1;x8e;xa8],[xea;xad;xb8]);
   ([xe1;x8e;xa9],[xea;xad;xb9]); ([xe1;x8e;xaa],[xea;xad;xba]); ([xe1;x8e;xab],[xea;xad;xbb]);
   ([xe1;x8e;xac],[xea;xad;xbc]); ([xe1;x8e;xad],[xea;xad;xbd]); ([xe1;x8e;xae],[xea;xad;xbe]);
   ([xe1;x8e;xaf],[xea;xad;xbf]); ([xe1;x8e;xb0],[xea;xae;x80]); ([xe1;x8e;xb1],[xea;xae;x81]);
   ([xe1;x8e;xb2],[xea;xae;x82]); ([xe1;x8e;xb3],[xea;xae;x83]); ([xe1;x8e;xb4],[xea;xae;x84]);
   ([xe1;x8e;xb5],[xea;xae;x85]); ([xe1;x8e;xb6],[xea;xae;x86]); ([xe1;x8e;xb7],[xea;xae;x87]);
   ([xe1;x8e;xb8],[xea;xae;x88]); ([xe1;x8e;xb9],[xea;xae;x89]); ([xe1;x8e;xba],[xea;xae;x8a]);
   ([xe1;x8e;xbb],[xea;xae;x8b]); ([xe1;x8e;xbc],[xea;xae;x8c]); ([xe1;x8e;xbd],[xea;xae;x8d]);
   ([xe1;x8e;xbe],[xea;xae;x8e]); ([xe1;x8e;xbf],[xea;xae;x8f]); ([xe1;x8f;x80],[xea;xae;x90]);
   ([xe1;x8f;x81],[xea;xae;x91]); ([xe1;x8f;x82],[xea;xae;x92]); ([xe1;x8f;x83],[xea;xae;x93]);
   ([xe1;x8f;x84],[xea;xae;x94]); ([xe1;x8f;x85],[xea;xae;x95]); ([xe1;x8f;x86],[xea;xae;x96]);
   ([xe1;x8f;x87],[xea;xae;x97]); ([xe1;x8f;x88],[xea;xae;x98]); ([xe1;x8f;x89],[xea;xae;x99]);
   ([xe1;x8f;x8a],[xea;xae;x9a]); ([xe1;x8f;x8b],[xea;xae;x9b]); ([xe1;x8f;x8c],[xea;xae;x9c]);
   ([xe1;x8f;x8d],[xea;xae;x9d]); ([xe1;x8f;x8e],[xea;xae;x9e]); ([xe1;x8f;x8f],[xea;xae;x9f]);
   ([xe1;x8f;x90],[xea;xae;xa0]); ([xe1;x8f;x91],[xea;xae;xa1]); ([xe1;x8f;x92],[xea;xae;xa2]);
   ([xe1;x8f;x93],[xea;xae;xa3]); ([xe1;x8f;x94],[xea;xae;xa4]); ([xe1;x8f;x95],[xea;xae;xa5]);
   ([xe1;x8f;x96],[xea;xae;xa6]); ([xe1;x8f;x97],[xea;xae;xa7]); ([xe1;x8f;x98],[xea;xae;xa8]);
   ([xe1;x8f;x99],[xea;xae;xa9]); ([xe1;x8f;x9a],[xea;xae;xaa]); ([xe1;x8f;x9b],[xea;xae;xab]);
   ([xe1;x8f;x9c],[xea;xae;xac]); ([xe1;x8f;x9d],[xea;xae;xad]); ([xe1;x8f;x9e],[xea;xae;xae]);
   ([xe1;x8f;x9f],[xea;xae;xaf]); ([xe1;x8f;xa0],[xea;xae;xb0]); ([xe1;x8f;xa1],[xea;xae;xb1]);
   ([xe1;x8f;xa2],[xea;xae;xb2]); ([xe1;x8f;xa3],[xea;xae;xb3]); ([xe1;x8f;xa4],[xea;xae;xb4]);
   ([xe1;x8f;xa5],[xea;xae;xb5]); ([xe1;x8f;xa6],[xea;xae;xb6]); ([xe1;x8f;xa7],[xea;xae;xb7]);
   ([xe1;x8f;xa8],[xea;xae;xb8]); ([xe1;x8f;xa9],[xea;xae;xb9]); ([xe1;x8f;xaa],[xea;xae;xba]);
   ([xe1;x8f;xab],[xea;xae;xbb]); ([xe1;x8f;xac],[xea;xae;xbc]); ([xe1;x8f;xad],[xea;xae;xbd]);
   ([xe1;x8f;xae],[xea;xae;xbe]); ([xe1;x8f;xaf],[xea;xae;xbf]); ([xe1;x8f;xb0],[xe1;x8f;xb8]);
   ([xe1;x8f;xb1],[xe1;x8f;xb9]); ([xe1;x8f;xb2],[xe1;x8f;xba]); ([xe1;x8f;xb3],[xe1;x8f;xbb]);
   ([xe1;x8f;xb4],[xe1;x8f;xbc]); ([xe1;x8f;xb5],[xe1;x8f;xbd]); ([xe1;xb2;x90],[xe1;x83;x90]);
   ([xe1;xb2;x91],[xe1;x83;x91]); ([xe1;xb2;x92],[xe1;x83;x92]); ([xe1;xb2;x93],[xe1;x83;x93]);
   ([xe1;xb2;x94],[xe1;x83;x94]); ([xe1;xb2;x95],[xe1;x83;x95]); ([xe1;xb2;x96],[xe1;x83;x96]);
   ([xe1;xb2;x97],[xe1;x83;x97]); ([xe1;xb2;x98],[xe1;x83;x98]); ([xe1;xb2;x99],[xe1;x83;x99]);
   ([xe1;xb2;x9a],[xe1;x83;x9a]); ([xe1;xb2;x9b],[xe1;x83;x9b]); ([xe1;xb2;x9c],[xe1;x83;x9c]);
   ([xe1;xb2;x9d],[xe1;x83;x9d]); ([xe1;xb2;x9e],[xe1;x83;x9e]); ([xe1;xb2;x9f],[xe1;x83;x9f]);
   ([xe1;xb2;xa0],[xe1;x83;xa0]); ([xe1;xb2;xa1],[xe1;x83;xa1]); ([xe1;xb2;xa2],[xe1;x83;xa2]);
   ([xe1;xb2;xa3],[xe1;x83;xa3]); ([xe1;xb2;xa4],[xe1;x83;xa4]); ([xe1;xb2;xa5],[xe1;x83;xa5]);
   ([xe1;xb2;xa6],[xe1;x83;xa6]); ([xe1;xb2;xa7],[xe1;x83;xa7]); ([xe1;xb2;xa8],[xe1;x83;xa8]);
   ([xe1;xb2;xa9],[xe1;x83;xa9]); ([xe1;xb2;xaa],[xe1;x83;xaa]); ([xe1;xb2;xab],[xe1;x83;xab]);
   ([xe1;xb2;xac],[xe1;x83;xac]); ([xe1;xb2;xad],[xe1;x83;xad]); ([xe1;xb2;xae],[xe1;x83;xae]);
   ([xe1;xb2;xaf],[xe1;x83;xaf]); ([xe1;xb2;xb0],[xe1;x83;xb0]); ([xe1;xb2;xb1],[xe1;x83;xb1]);
   ([xe1;xb2;xb2],[xe1;x83;xb2]); ([xe1;xb2;xb3],[xe1;x83;xb3]); ([xe1;xb2;xb4],[xe1;x83;xb4]);
   ([xe1;xb2;xb5],[xe1;x83;xb5]); ([xe1;xb2;xb6],[xe1;x83;xb6]); ([xe1;xb2;xb7],[xe1;x83;xb7]);
   ([xe1;xb2;xb8],[xe1;x83;xb8]); ([xe1;xb2;xb9],[xe1;x83;xb9]); ([xe1;xb2;xba],[xe1;x83;xba]);
   ([xe1;xb2;xbd],[xe1;x83;xbd]); ([xe1;xb2;xbe],[xe1;x83;xbe]); ([xe1;xb2;xbf],[xe1;x83;xbf]);
   ([xe1;xb8;x80],[xe1;xb8;x81]); ([xe1;xb8;x82],[xe1;xb8;x83]); ([xe1;xb8;x84],[xe1;xb8;x85]);
   ([xe1;xb8;x86],[xe1;xb8;x87]); ([xe1;xb8;x88],[xe1;xb8;x89]); ([xe1;xb8;x8a],[xe1;xb8;x8b]);
   ([xe1;xb8;x8c],[xe1;xb8;x8d]); ([xe1;xb8;x8e],[xe1;xb8;x8f]); ([xe1;xb8;x90],[xe1;xb8;x91]);
   ([xe1;xb8;x92],[xe1;xb8;x93]); ([xe1;xb8;x94],[xe1;xb8;x95]); ([xe1;xb8;x96],[xe1;xb8;x97]);
   ([xe1;xb8;x98],[xe1;xb8;x99]); ([xe1;xb8;x9a],[xe1;xb8;x9b]); ([xe1;xb8;x9c],[xe1;xb8;x9d]);
   ([xe1;xb8;x9e],[xe1;xb8;x9f]); ([xe1;xb8;xa0],[xe1;xb8;xa1]); ([xe1;xb8;xa2],[xe1;xb8;xa3]);
   ([xe1;xb8;xa4],[xe1;xb8;xa5]); ([xe1;xb8;xa6],[xe1;xb8;xa7]); ([xe1;xb8;xa8],[xe1;xb8;xa9]);
   ([xe1;xb8;xaa],[xe1;xb8;xab]); ([xe1;xb8;xac],[xe1;xb8;xad]); ([xe1;xb8;xae],[xe1;xb8;xaf]);
   ([xe1;xb8;xb0],[xe1;xb8;xb1]); ([xe1;xb8;xb2],[xe1;xb8;xb3]); ([xe1;xb8;xb4],[xe1;xb8;xb5]);
   ([xe1;xb8;xb6],[xe1;xb8;xb7]); ([xe1;xb8;xb8],[xe1;xb8;xb9]); ([xe1;xb8;xba],[xe1;xb8;xbb]);
   ([xe1;xb8;xbc],[xe1;xb8;xbd]); ([xe1;xb8;xbe],[xe1;xb8;xbf]); ([xe1;xb9;x80],[xe1;xb9;x81]);
   ([xe1;xb9;x82],[xe1;xb9;x83]); ([xe1;xb9;x84],[xe1;xb9;x85]); ([xe1;xb9;x86],[xe1;xb9;x87]);
   ([xe1;xb9;x88],[xe1;xb9;x89]); ([xe1;xb9;x8a],[xe1;xb9;x8b]); ([xe1;xb9;x8c],[xe1;xb9;x8d]);
   ([xe1;xb9;x8e],[xe1;xb9;x8f]); ([xe1;xb9;x90],[xe1;xb9;x91]); ([xe1;xb9;x92],[xe1;xb9;x93]);
   ([xe1;xb9;x94],[xe1;xb9;x95]); ([xe1;xb9;x96],[xe1;xb9;x97]); ([xe1;xb9;x98],[xe1;xb9;x99]);
   ([xe1;xb9;x9a],[xe1;xb9;x9b]); ([xe1;xb9;x9c],[xe1;xb9;x9d]); ([xe1;xb9;x9e],[xe1;xb9;x9f]);
   ([xe1;xb9;xa0],[xe1;xb9;xa1]); ([xe1;xb9;xa2],[xe1;xb9;xa3]); ([xe1;xb9;xa4],[xe1;xb9;xa5]);
   ([xe1;xb9;xa6],[xe1;xb9;xa7]); ([xe1;xb9;xa8],[xe1;xb9;xa9]); ([xe1;xb9;xaa],[xe1;xb9;xab]);
   ([xe1;xb9;xac],[xe1;xb9;xad]); ([xe1;xb9;xae],[xe1;xb9;xaf]); ([xe1;xb9;xb0],[xe1;xb9;xb1]);
   ([xe1;xb9;xb2],[xe1;xb9;xb3]); ([xe1;xb9;xb4],[xe1;xb9;xb5]); ([xe1;xb9;xb6],[xe1;xb9;xb7]);
   ([xe1;xb9;xb8],[xe1;xb9;xb9]); ([xe1;xb9;xba],[xe1;xb9;xbb]); ([xe1;xb9;xbc],[xe1;xb9;xbd]);
   ([xe1;xb9;xbe],[xe1;xb9;xbf]); ([xe1;xba;x80],[xe1;xba;x81]); ([xe1;xba;x82],[xe1;xba;x83]);
   ([xe1;xba;x84],[xe1;xba;x85]); ([xe1;xba;x86],[xe1;xba;x87]); ([xe1;xba;x88],[xe1;xba;x89]);
   ([xe1;xba;x8a],[xe1;xba;x8b]); ([xe1;xba;x8c],[xe1;xba;x8d]); ([xe1;xba;x8e],[xe1;xba;x8f]);
   ([xe1;xba;x90],[xe1;xba;x91]); ([xe1;xba;x92],[xe1;xba;x93]); ([xe1;xba;x94],[xe1;xba;x95]);
   ([xe1;xba;x9e],[xc3;x9f]); ([xe1;xba;xa0],[xe1;xba;xa1]); ([xe1;xba;xa2],[xe1;xba;xa3]);
   ([xe1;xba;xa4],[xe1;xba;xa5]); ([xe1;xba;xa6],[xe1;xba;xa7]); ([xe1;xba;xa8],[xe1;xba;xa9]);
   ([xe1;xba;xaa],[xe1;xba;xab]); ([xe1;xba;xac],[xe1;xba;xad]); ([xe1;xba;xae],[xe1;xba;xaf]);
   ([xe1;xba;xb0],[xe1;xba;xb1]); ([xe1;xba;xb2],[xe1;xba;xb3]); ([xe1;xba;xb4],[xe1;xba;xb5]);
   ([xe1;xba;xb6],[xe1;xba;xb7]); ([xe1;xba;xb8],[xe1;xba;xb9]); ([xe1;xba;xba],[xe1;xba;xbb]);
   ([xe1;xba;xbc],[xe1;xba;xbd]); ([xe1;xba;xbe],[xe1;xba;xbf]); ([xe1;xbb;x80],[xe1;xbb;x81]);
   ([xe1;xbb;x82],[xe1;xbb;x83]); ([xe1;xbb;x84],[xe1;xbb;x85]); ([xe1;xbb;x86],[xe1;xbb;x87]);
   ([xe1;xbb;x88],[xe1;xbb;x89]); ([xe1;xbb;x8a],[xe1;xbb;x8b]); ([xe1;xbb;x8c],[xe1;xbb;x8d]);
   ([xe1;xbb;x8e],[xe1;xbb;x8f]); ([xe1;xbb;x90],[xe1;xbb;x91]); ([xe1;xbb;x92],[xe1;xbb;x93]);
   ([xe1;xbb;x94],[xe1;xbb;x95]); ([xe1;xbb;x96],[xe1;xbb;x97]); ([xe1;xbb;x98],[xe1;xbb;x99]);
   ([xe1;xbb;x9a],[xe1;xbb;x9b]); ([xe1;xbb;x9c],[xe1;xbb;x9d]); ([xe1;xbb;x9e],[xe1;xbb;x9f]);
   ([xe1;xbb;xa0],[xe1;xbb;xa1]); ([xe1;xbb;xa2],[xe1;xbb;xa3]); ([xe1;xbb;xa4],[xe1;xbb;xa5]);
   ([xe1;xbb;xa6],[xe1;xbb;xa7]); ([xe1;xbb;xa8],[xe1;xbb;xa9]); ([xe1;xbb;xaa],[xe1;xbb;xab]);
   ([xe1;xbb;xac],[xe1;xbb;xad]); ([xe1;xbb;xae],[xe1;xbb;xaf]); ([xe1;xbb;xb0],[xe1;xbb;xb1]);
   ([xe1;xbb;xb2],[xe1;xbb;xb3]); ([xe1;xbb;xb4],[xe1;xbb;xb5]); ([xe1;xbb;xb6],[xe1;xbb;xb7]);
   ([xe1;xbb;xb8],[xe1;xbb;xb9]); ([xe1;xbb;xba],[xe1;xbb;xbb]); ([xe1;xbb;xbc],[xe1;xbb;xbd]);
   ([xe1;xbb;xbe],[xe1;xbb;xbf]); ([xe1;xbc;x88],[xe1;xbc;x80]); ([xe1;xbc;x89],[xe1;xbc;x81]);
   ([xe1;xbc;x8a],[xe1;xbc;x82]); ([xe1;xbc;x8b],[xe1;xbc;x83]); ([xe1;xbc;x8c],[xe1;xbc;x84]);
   ([xe1;xbc;x8d],[xe1;xbc;x85]); ([xe1;xbc;x8e],[xe1;xbc;x86]); ([xe1;xbc;x8f],[xe1;xbc;x87]);
   ([xe1;xbc;x98],[xe1;xbc;x90]); ([xe1;xbc;x99],[xe1;xbc;x91]); ([xe1;xbc;x9a],[xe1;xbc;x92]);
   ([xe1;xbc;x9b],[xe1;xbc;x93]); ([xe1;xbc;x9c],[xe1;xbc;x94]); ([xe1;xbc;x9d],[xe1;xbc;x95]);
   ([xe1;xbc;xa8],[xe1;xbc;xa0]); ([xe1;xbc;xa9],[xe1;xbc;xa1]); ([xe1;xbc;xaa],[xe1;xbc;xa2]);
   ([xe1;xbc;xab],[xe1;xbc;xa3]); ([xe1;xbc;xac],[xe1;xbc;xa4]); ([xe1;xbc;xad],[xe1;xbc;xa5]);
   ([xe1;xbc;xae],[xe1;xbc;xa6]); ([xe1;xbc;xaf],[xe1;xbc;xa7]); ([xe1;xbc;xb8],[xe1;xbc;xb0]);
   ([xe1;xbc;xb9],[xe1;xbc;xb1]); ([xe1;xbc;xba],[xe1;xbc;xb2]); ([xe1;xbc;xbb],[xe1;xbc;xb3]);
   ([xe1;xbc;xbc],[xe1;xbc;xb4]); ([xe1;xbc;xbd],[xe1;xbc;xb5]); ([xe1;xbc;xbe],[xe1;xbc;xb6]);
   ([xe1;xbc;xbf],[xe1;xbc;xb7]); ([xe1;xbd;x88],[xe1;xbd;x80]); ([xe1;xbd;x89],[xe1;xbd;x81]);
   ([xe1;xbd;x8a],[xe1;xbd;x82]); ([xe1;xbd;x8b],[xe1;xbd;x83]); ([xe1;xbd;x8c],[xe1;xbd;x84]);
   ([xe1;xbd;x8d],[xe1;xbd;x85]); ([xe1;xbd;x99],[xe1;xbd;x91]); ([xe1;xbd;x9b],[xe1;xbd;x93]);
   ([xe1;xbd;x9d],[xe1;xbd;x95]); ([xe1;xbd;x9f],[xe1;xbd;x97]); ([xe1;xbd;xa8],[xe1;xbd;xa0]);
   ([xe1;xbd;xa9],[xe1;xbd;xa1]); ([xe1;xbd;xaa],[xe1;xbd;xa2]); ([xe1;xbd;xab],[xe1;xbd;xa3]);
   ([xe1;xbd;xac],[xe1;xbd;xa4]); ([xe1;xbd;xad],[xe1;xbd;xa5]); ([xe1;xbd;xae],[xe1;xbd;xa6]);
   ([xe1;xbd;xaf],[xe1;xbd;xa7]); ([xe1;xbe;x88],[xe1;xbe;x80]); ([xe1;xbe;x89],[xe1;xbe;x81]);
   ([xe1;xbe;x8a],[xe1;xbe;x82]); ([xe1;xbe;x8b],[xe1;xbe;x83]); ([xe1;xbe;x8c],[xe1;xbe;x84]);
   ([xe1;xbe;x8d],[xe1;xbe;x85]); ([xe1;xbe;x8e],[xe1;xbe;x86]); ([xe1;xbe;x8f],[xe1;xbe;x87]);
   ([xe1;xbe;x98],[xe1;xbe;x90]); ([xe1;xbe;x99],[xe1;xbe;x91]); ([xe1;xbe;x9a],[xe1;xbe;x92]);
   ([xe1;xbe;x9b],[xe1;xbe;x93]); ([xe1;xbe;x9c],[xe1;xbe;x94]); ([xe1;xbe;x9d],[xe1;xbe;x95]);
   ([xe1;xbe;x9e],[xe1;xbe;x96]); ([xe1;xbe;x9f],[xe1;xbe;x97]); ([xe1;xbe;xa8],[xe1;xbe;xa0]);
   ([xe1;xbe;xa9],[xe1;xbe;xa1]); ([xe1;xbe;xaa],[xe1;xbe;xa2]); ([xe1;xbe;xab],[xe1;xbe;xa3]);
   ([xe1;xbe;xac],[xe1;xbe;xa4]); ([xe1;xbe;xad],[xe1;xbe;xa5]); ([xe1;xbe;xae],[xe1;xbe;xa6]);
   ([xe1;xbe;xaf],[xe1;xbe;xa7]); ([xe1;xbe;xb8],[xe1;xbe;xb0]); ([xe1;xbe;xb9],[xe1;xbe;xb1]);
   ([xe1;xbe;xba],[xe1;xbd;xb0]); ([xe1;xbe;xbb],[xe1;xbd;xb1]); ([xe1;xbe;xbc],[xe1;xbe;xb3]);
   ([xe1;xbf;x88],[xe1;xbd;xb2]); ([xe1;xbf;x89],[xe1;xbd;xb3]); ([xe1;xbf;x8a],[xe1;xbd;xb4]);
   ([xe1;xbf;x8b],[xe1;xbd;xb5]); ([xe1;xbf;x8c],[xe1;xbf;x83]); ([xe1;xbf;x98],[xe1;xbf;x90]);
   ([xe1;xbf;x99],[xe1;xbf;x91]); ([xe1;xbf;x9a],[xe1;xbd;xb6]); ([xe1;xbf;x9b],[xe1;xbd;xb7]);
   ([xe1;xbf;xa8],[xe1;xbf;xa0]); ([xe1;xbf;xa9],[xe1;xbf;xa1]); ([xe1;xbf;xaa],[xe1;xbd;xba]);
   ([xe1;xbf;xab],[xe1;xbd;xbb]); ([xe1;xbf;xac],[xe1;xbf;xa5]); ([xe1;xbf;xb8],[xe1;xbd;xb8]);
   ([xe1;xbf;xb9],[xe1;xbd;xb9]); ([xe1;xbf;xba],[xe1;xbd;xbc]); ([xe1;xbf;xbb],[xe1;xbd;xbd]);
   ([xe1;xbf;xbc],[xe1;xbf;xb3]); ([xe2;x84;xa6],[xcf;x89]); ([xe2;x84;xaa],[x6b]);
   ([xe2;x84;xab],[xc3;xa5]); ([xe2;x84;xb2],[xe2;x85;x8e]); ([xe2;x85;xa0],[xe2;x85;xb0]);
   ([xe2;x85;xa1],[xe2;x85;xb1]); ([xe2;x85;xa2],[xe2;x85;xb2]); ([xe2;x85;xa3],[xe2;x85;xb3]);
   ([xe2;x85;xa4],[xe2;x85;xb4]); ([xe2;x85;xa5],[xe2;x85;xb5]); ([xe2;x85;xa6],[xe2;x85;xb6]);
   ([xe2;x85;xa7],[xe2;x85;xb7]); ([xe2;x85;xa8],[xe2;x85;xb8]); ([xe2;x85;xa9],[xe2;x85;xb9]);
   ([xe2;x85;xaa],[xe2;x85;xba]); ([xe2;x85;xab],[xe2;x85;xbb]); ([xe2;x85;xac],[xe2;x85;xbc]);
   ([xe2;x85;xad],[xe2;x85;xbd]); ([xe2;x85;xae],[xe2;x85;xbe]); ([xe2;x85;xaf],[xe2;x85;xbf]);
   ([xe2;x86;x83],[xe2;x86;x84]); ([xe2;x92;xb6],[xe2;x93;x90]); ([xe2;x92;xb7],[xe2;x93;x91]);
   ([xe2;x92;xb8],[xe2;x93;x92]); ([xe2;x92;xb9],[xe2;x93;x93]); ([xe2;x92;xba],[xe2;x93;x94]);
   ([xe2;x92;xbb],[xe2;x93;x95]); ([xe2;x92;xbc],[xe2;x93;x96]); ([xe2;x92;xbd],[xe2;x93;x97]);
   ([xe2;x92;xbe],[xe2;x93;x98]); ([xe2;x92;xbf],[xe2;x93;x99]); ([xe2;x93;x80],[xe2;x93;x9a]);
   ([xe2;x93;x81],[xe2;x93;x9b]); ([xe2;x93;x82],[xe2;x93;x9c]); ([xe2;x93;x83],[xe2;x93;x9d]);
   ([xe2;x93;x84],[xe2;x93;x9e]); ([xe2;x93;x85],[xe2;x93;x9f]); ([xe2;x93;x86],[xe2;x93;xa0]);
   ([xe2;x93;x87],[xe2;x93;xa1]); ([xe2;x93;x88],[xe2;x93;xa2]); ([xe2;x93;x89],[xe2;x93;xa3]);
   ([xe2;x93;x8a],[xe2;x93;xa4]); ([xe2;x93;x8b],[xe2;x93;xa5]); ([xe2;x93;x8c],[xe2;x93;xa6]);
   ([xe2;x93;x8d],[xe2;x93;xa7]); ([xe2;x93;x8e],[xe2;x93;xa8]); ([xe2;x93;x8f],[xe2;x93;xa9]);
   ([xe2;xb0;x80],[xe2;xb0;xb0]); ([xe2;xb0;x81],[xe2;xb0;xb1]); ([xe2;xb0;x82],[xe2;xb0;xb2]);
   ([xe2;xb0;x83],[xe2;xb0;xb3]); ([xe2;xb0;x84],[xe2;xb0;xb4]); ([xe2;xb0;x85],[xe2;xb0;xb5]);
   ([xe2;xb0;x86],[xe2;xb0;xb6]); ([xe2;xb0;x87],[xe2;xb0;xb7]); ([xe2;xb0;x88],[xe2;xb0;xb8]);
   ([xe2;xb0;x89],[xe2;xb0;xb9]); ([xe2;xb0;x8a],[xe2;xb0;xba]); ([xe2;xb0;x8b],[xe2;xb0;xbb]);
   ([xe2;xb0;x8c],[xe2;xb0;xbc]); ([xe2;xb0;x8d],[xe2;xb0;xbd]); ([xe2;xb0;x8e],[xe2;xb0;xbe]);
   ([xe2;xb0;x8f],[xe2;xb0;xbf]); ([xe2;xb0;x90],[xe2;xb1;x80]); ([xe2;xb0;x91],[xe2;xb1;x81]);
   ([xe2;xb0;x92],[xe2;xb1;x82]); ([xe2;xb0;x93],[xe2;xb1;x83]); ([xe2;xb0;x94],[xe2;xb1;x84]);
   ([xe2;xb0;x95],[xe2;xb1;x85]); ([xe2;xb0;x96],[xe2;xb1;x86]); ([xe2;xb0;x97],[xe2;xb1;x87]);
   ([xe2;xb0;x98],[xe2;xb1;x88]); ([xe2;xb0;x99],[xe2;xb1;x89]); ([xe2;xb0;x9a],[xe2;xb1;x8a]);
   ([xe2;xb0;x9b],[xe2;xb1;x8b]); ([xe2;xb0;x9c],[xe2;xb1;x8c]); ([xe2;xb0;x9d],[xe2;xb1;x8d]);
   ([xe2;xb0;x9e],[xe2;xb1;x8e]); ([xe2;xb0;x9f],[xe2;xb1;x8f]); ([xe2;xb0;xa0],[xe2;xb1;x90]);
   ([xe2;xb0;xa1],[xe2;xb1;x91]); ([xe2;xb0;xa2],[xe2;xb1;x92]); ([xe2;xb0;xa3],[xe2;xb1;x93]);
   ([xe2;xb0;xa4],[xe2;xb1;x94]); ([xe2;xb0;xa5],[xe2;xb1;x95]); ([xe2;xb0;xa6],[xe2;xb1;x96]);
   ([xe2;xb0;xa7],[xe2;xb1;x97]); ([xe2;xb0;xa8],[xe2;xb1;x98]); ([xe2;xb0;xa9],[xe2;xb1;x99]);
   ([xe2;xb0;xaa],[xe2;xb1;x9a]); ([xe2;xb0;xab],[xe2;xb1;x9b]); ([xe2;xb0;xac],[xe2;xb1;x9c]);
   ([xe2;xb0;xad],[xe2;xb1;x9d]); ([xe2;xb0;xae],[xe2;xb1;x9e]); ([xe2;xb0;xaf],[xe2;xb1;x9f]);
   ([xe2;xb1;xa0],[xe2;xb1;xa1]); ([xe2;xb1;xa2],[xc9;xab]); ([xe2;xb1;xa3],[xe1;xb5;xbd]);
   ([xe2;xb1;xa4],[xc9;xbd]); ([xe2;xb1;xa7],[xe2;xb1;xa8]); ([xe2;xb1;xa9],[xe2;xb1;xaa]);
   ([xe2;xb1;xab],[xe2;xb1;xac]); ([xe2;xb1;xad],[xc9;x91]); ([xe2;xb1;xae],[xc9;xb1]);
   ([xe2;xb1;xaf],[xc9;x90]); ([xe2;xb1;xb0],[xc9;x92]); ([xe2;xb1;xb2],[xe2;xb1;xb3]);
   ([xe2;xb1;xb5],[xe2;xb1;xb6]); ([xe2;xb1;xbe],[xc8;xbf]); ([xe2;xb1;xbf],[xc9;x80]);
   ([xe2;xb2;x80],[xe2;xb2;x81]); ([xe2;xb2;x82],[xe2;xb2;x83]); ([xe2;xb2;x84],[xe2;xb2;x85]);
   ([xe2;xb2;x86],[xe2;xb2;x87]); ([xe2;xb2;x88],[xe2;xb2;x89]); ([xe2;xb2;x8a],[xe2;xb2;x8b]);
   ([xe2;xb2;x8c],[xe2;xb2;x8d]); ([xe2;xb2;x8e],[xe2;xb2;x8f]); ([xe2;xb2;x90],[xe2;xb2;x91]);
   ([xe2;xb2;x92],[xe2;xb2;x93]); ([xe2;xb2;x94],[xe2;xb2;x95]); ([xe2;xb2;x96],[xe2;xb2;x97]);
   ([xe2;xb2;x98],[xe2;xb2;x99]); ([xe2;xb2;x9a],[xe2;xb2;x9b]); ([xe2;xb2;x9c],[xe2;xb2;x9d]);
   ([xe2;xb2;x9e],[xe2;xb2;x9f]); ([xe2;xb2;xa0],[xe2;xb2;xa1]); ([xe2;xb2;xa2],[xe2;xb2;xa3]);
   ([xe2;xb2;xa4],[xe2;xb2;xa5]); ([xe2;xb2;xa6],[xe2;xb2;xa7]); ([xe2;xb2;xa8],[xe2;xb2;xa9]);
   ([xe2;xb2;xaa],[xe2;xb2;xab]); ([xe2;xb2;xac],[xe2;xb2;xad]); ([xe2;xb2;xae],[xe2;xb2;xaf]);
   ([xe2;xb2;xb0],[xe2;xb2;xb1]); ([xe2;xb2;xb2],[xe2;xb2;xb3]); ([xe2;xb2;xb4],[xe2;xb2;xb5]);
   ([xe2;xb2;xb6],[xe2;xb2;xb7]); ([xe2;xb2;xb8],[xe2;xb2;xb9]); ([xe2;xb2;xba],[xe2;xb2;xbb]);
   ([xe2;xb2;xbc],[xe2;xb2;xbd]); ([xe2;xb2;xbe],[xe2;xb2;xbf]); ([xe2;xb3;x80],[xe2;xb3;x81]);
   ([xe2;xb3;x82],[xe2;xb3;x83]); ([xe2;xb3;x84],[xe2;xb3;x85]); ([xe2;xb3;x86],[xe2;xb3;x87]);
   ([xe2;xb3;x88],[xe2;xb3;x89]); ([xe2;xb3;x8a],[xe2;xb3;x8b]); ([xe2;xb3;x8c],[xe2;xb3;x8d]);
   ([xe2;xb3;x8e],[xe2;xb3;x8f]); ([xe2;xb3;x90],[xe2;xb3;x91]); ([xe2;xb3;x92],[xe2;xb3;x93]);
   ([xe2;xb3;x94],[xe2;xb3;x95]); ([xe2;xb3;x96],[xe2;xb3;x97]); ([xe2;xb3;x98],[xe2;xb3;x99]);
   ([xe2;xb3;x9a],[xe2;xb3;x9b]); ([xe2;xb3;x9c],[xe2;xb3;x9d]); ([xe2;xb3;x9e],[xe2;xb3;x9f]);
   ([xe2;xb3;xa0],[xe2;xb3;xa1]); ([xe2;xb3;xa2],[xe2;xb3;xa3]); ([xe2;xb3;xab],[xe2;xb3;xac]);
   ([xe2;xb3;xad],[xe2;xb3;xae]); ([xe2;xb3;xb2],[xe2;xb3;xb3]); ([xea;x99;x80],[xea;x99;x81]);
   ([xea;x99;x82],[xea;x99;x83]); ([xea;x99;x84],[xea;x99;x85]); ([xea;x99;x86],[xea;x99;x87]);
   ([xea;x99;x88],[xea;x99;x89]); ([xea;x99;x8a],[xea;x99;x8b]); ([xea;x99;x8c],[xea;x99;x8d]);
   ([xea;x99;x8e],[xea;x99;x8f]); ([xea;x99;x90],[xea;x99;x91]); ([xea;x99;x92],[xea;x99;x93]);
   ([xea;x99;x94],[xea;x99;x95]); ([xea;x99;x96],[xea;x99;x97]); ([xea;x99;x98],[xea;x99;x99]);
   ([xea;x99;x9a],[xea;x99;x9b]); ([xea;x99;x9c],[xea;x99;x9d]); ([xea;x99;x9e],[xea;x99;x9f]);
   ([xea;x99;xa0],[xea;x99;xa1]); ([xea;x99;xa2],[xea;x99;xa3]); ([xea;x99;xa4],[xea;x99;xa5]);
   ([xea;x99;xa6],[xea;x99;xa7]); ([xea;x99;xa8],[xea;x99;xa9]); ([xea;x99;xaa],[xea;x99;xab]);
   ([xea;x99;xac],[xea;x99;xad]); ([xea;x9a;x80],[xea;x9a;x81]); ([xea;x9a;x82],[xea;x9a;x83]);
   ([xea;x9a;x84],[xea;x9a;x85]); ([xea;x9a;x86],[xea;x9a;x87]); ([xea;x9a;x88],[xea;x9a;x89]);
   ([xea;x9a;x8a],[xea;x9a;x8b]); ([xea;x9a;x8c],[xea;x9a;x8d]); ([xea;x9a;x8e],[xea;x9a;x8f]);
   ([xea;x9a;x90],[xea;x9a;x91]); ([xea;x9a;x92],[xea;x9a;x93]); ([xea;x9a;x94],[xea;x9a;x95]);
   ([xea;x9a;x96],[xea;x9a;x97]); ([xea;x9a;x98],[xea;x9a;x99]); ([xea;x9a;x9a],[xea;x9a;x9b]);
   ([xea;x9c;xa2],[xea;x9c;xa3]); ([xea;x9c;xa4],[xea;x9c;xa5]); ([xea;x9c;xa6],[xea;x9c;xa7]);
   ([xea;x9c;xa8],[xea;x9c;xa9]); ([xea;x9c;xaa],[xea;x9c;xab]); ([xea;x9c;xac],[xea;x9c;xad]);
   ([xea;x9c;xae],[xea;x9c;xaf]); ([xea;x9c;xb2],[xea;x9c;xb3]); ([xea;x9c;xb4],[xea;x9c;xb5]);
   ([xea;x9c;xb6],[xea;x9c;xb7]); ([xea;x9c;xb8],[xea;x9c;xb9]); ([xea;x9c;xba],[xea;x9c;xbb]);
   ([xea;x9c;xbc],[xea;x9c;xbd]); ([xea;x9c;xbe],[xea;x9c;xbf]); ([xea;x9d;x80],[xea;x9d;x81]);
   ([xea;x9d;x82],[xea;x9d;x83]); ([xea;x9d;x84],[xea;x9d;x85]); ([xea;x9d;x86],[xea;x9d;x87]);
   ([xea;x9d;x88],[xea;x9d;x89]); ([xea;x9d;x8a],[xea;x9d;x8b]); ([xea;x9d;x8c],[xea;x9d;x8d]);
   ([xea;x9d;x8e],[xea;x9d;x8f]); ([xea;x9d;x90],[xea;x9d;x91]); ([xea;x9d;x92],[xea;x9d;x93]);
   ([xea;x9d;x94],[xea;x9d;x95]); ([xea;x9d;x96],[xea;x9d;x97]); ([xea;x9d;x98],[xea;x9d;x99]);
   ([xea;x9d;x9a],[xea;x9d;x9b]); ([xea;x9d;x9c],[xea;x9d;x9d]); ([xea;x9d;x9e],[xea;x9d;x9f]);
   ([xea;x9d;xa0],[xea;x9d;xa1]); ([xea;x9d;xa2],[xea;x9d;xa3]); ([xea;x9d;xa4],[xea;x9d;xa5]);
   ([xea;x9d;xa6],[xea;x9d;xa7]); ([xea;x9d;xa8],[xea;x9d;xa9]); ([xea;x9d;xaa],[xea;x9d;xab]);
   ([xea;x9d;xac],[xea;x9d;xad]); ([xea;x9d;xae],[xea;x9d;xaf]); ([xea;x9d;xb9],[xea;x9d;xba]);
   ([xea;x9d;xbb],[xea;x9d;xbc]); ([xea;x9d;xbd],[xe1;xb5;xb9]); ([xea;x9d;xbe],[xea;x9d;xbf]);
   ([xea;x9e;x80],[xea;x9e;x81]); ([xea;x9e;x82],[xea;x9e;x83]); ([xea;x9e;x84],[xea;x9e;x85]);
   ([xea;x9e;x86],[xea;x9e;x87]); ([xea;x9e;x8b],[xea;x9e;x8c]); ([xea;x9e;x8d],[xc9;xa5]);
   ([xea;x9e;x90],[xea;x9e;x91]); ([xea;x9e;x92],[xea;x9e;x93]); ([xea;x9e;x96],[xea;x9e;x97]);
   ([xea;x9e;x98],[xea;x9e;x99]); ([xea;x9e;x9a],[xea;x9e;x9b]); ([xea;x9e;x9c],[xea;x9e;x9d]);
   ([xea;x9e;x9e],[xea;x9e;x9f]); ([xea;x9e;xa0],[xea;x9e;xa1]); ([xea;x9e;xa2],[xea;x9e;xa3]);
   ([xea;x9e;xa4],[xea;x9e;xa5]); ([xea;x9e;xa6],[xea;x9e;xa7]); ([xea;x9e;xa8],[xea;x9e;xa9]);
   ([xea;x9e;xaa],[xc9;xa6]); ([xea;x9e;xab],[xc9;x9c]); ([xea;x9e;xac],[xc9;xa1]);
   ([xea;x9e;xad],[xc9;xac]); ([xea;x9e;xae],[xc9;xaa]); ([xea;x9e;xb0],[xca;x9e]);
   ([xea;x9e;xb1],[xca;x87]); ([xea;x9e;xb2],[xca;x9d]); ([xea;x9e;xb3],[xea;xad;x93]);
   ([xea;x9e;xb4],[xea;x9e;xb5]); ([xea;x9e;xb6],[xea;x9e;xb7]); ([xea;x9e;xb8],[xea;x9e;xb9]);
   ([xea;x9e;xba],[xea;x9e;xbb]); ([xea;x9e;xbc],[xea;x9e;xbd]); ([xea;x9e;xbe],[xea;x9e;xbf]);
   ([xea;x9f;x80],[xea;x9f;x81]); ([xea;x9f;x82],[xea;x9f;x83]); ([xea;x9f;x84],[xea;x9e;x94]);
   ([xea;x9f;x85],[xca;x82]); ([xea;x9f;x86],[xe1;xb6;x8e]); ([xea;x9f;x87],[xea;x9f;x88]);
   ([xea;x9f;x89],[xea;x9f;x8a]); ([xea;x9f;x90],[xea;x9f;x91]); ([xea;x9f;x96],[xea;x9f;x97]);
   ([xea;x9f;x98],[xea;x9f;x99]); ([xea;x9f;xb5],[xea;x9f;xb6]); ([xef;xbc;xa1],[xef;xbd;x81]);
   ([xef;xbc;xa2],[xef;xbd;x82]); ([xef;xbc;xa3],[xef;xbd;x83]); ([xef;xbc;xa4],[xef;xbd;x84]);
   ([xef;xbc;xa5],[xef;xbd;x85]); ([xef;xbc;xa6],[xef;xbd;x86]); ([xef;xbc;xa7],[xef;xbd;x87]);
   ([xef;xbc;xa8],[xef;xbd;x88]); ([xef;xbc;xa9],[xef;xbd;x89]); ([xef;xbc;xaa],[xef;xbd;x8a]);
   ([xef;xbc;xab],[xef;xbd;x8b]); ([xef;xbc;xac],[xef;xbd;x8c]); ([xef;xbc;xad],[xef;xbd;x8d]);
   ([xef;xbc;xae],[xef;xbd;x8e]); ([xef;xbc;xaf],[xef;xbd;x8f]); ([xef;xbc;xb0],[xef;xbd;x90]);
   ([xef;xbc;xb1],[xef;xbd;x91]); ([xef;xbc;xb2],[xef;xbd;x92]); ([xef;xbc;xb3],[xef;xbd;x93]);
   ([xef;xbc;xb4],[xef;xbd;x94]); ([xef;xbc;xb5],[xef;xbd;x95]); ([xef;xbc;xb6],[xef;xbd;x96]);
   ([xef;xbc;xb7],[xef;xbd;x97]); ([xef;xbc;xb8],[xef;xbd;x98]); ([xef;xbc;xb9],[xef;xbd;x99]);
   ([xef;xbc;xba],[xef;xbd;x9a])].

(** The characters with an upper-case mapping of their own. *)
Definition upperPairs : list (list byte * list byte) :=
  [([xc2;xb5],[xce;x9c]); ([xc3;x9f],[x53;x53]); ([xc3;xa0],[xc3;x80]); ([xc3;xa1],[xc3;x81]);
   ([xc3;xa2],[xc3;x82]); ([xc3;xa3],[xc3;x83]); ([xc3;xa4],[xc3;x84]); ([xc3;xa5],[xc3;x85]);
   ([xc3;xa6],[xc3;x86]); ([xc3;xa7],[xc3;x87]); ([xc3;xa8],[xc3;x88]); ([xc3;xa9],[xc3;x89]);
   ([xc3;xaa],[xc3;x8a]); ([xc3;xab],[xc3;x8b]); ([xc3;xac],[xc3;x8c]); ([xc3;xad],[xc3;x8d]);
   ([xc3;xae],[xc3;x8e]); ([xc3;xaf],[xc3;x8f]); ([xc3;xb0],[xc3;x90]); ([xc3;xb1],[xc3;x91]);
   ([xc3;xb2],[xc3;x92]); ([xc3;xb3],[xc3;x93]); ([xc3;xb4],[xc3;x94]); ([xc3;xb5],[xc3;x95]);
   ([xc3;xb6],[xc3;x96]); ([xc3;xb8],[xc3;x98]); ([xc3;xb9],[xc3;x99]); ([xc3;xba],[xc3;x9a]);
   ([xc3;xbb],[xc3;x9b]); ([xc3;xbc],[xc3;x9c]); ([xc3;xbd],[xc3;x9d]); ([xc3;xbe],[xc3;x9e]);
   ([xc3;xbf],[xc5;xb8]); ([xc4;x81],[xc4;x80]); ([xc4;x83],[xc4;x82]); ([xc4;x85],[xc4;x84]);
   ([xc4;x87],[xc4;x86]); ([xc4;x89],[xc4;x88]); ([xc4;x8b],[xc4;x8a]); ([xc4;x8d],[xc4;x8c]);
   ([xc4;x8f],[xc4;x8e]); ([xc4;x91],[xc4;x90]); ([xc4;x93],[xc4;x92]); ([xc4;x95],[xc4;x94]);
   ([xc4;x97],[xc4;x96]); ([xc4;x99],[xc4;x98]); ([xc4;x9b],[xc4;x9a]); ([xc4;x9d],[xc4;x9c]);
   ([xc4;x9f],[xc4;x9e]); ([xc4;xa1],[xc4;xa0]); ([xc4;xa3],[xc4;xa2]); ([xc4;xa5],[xc4;xa4]);
   ([xc4;xa7],[xc4;xa6]); ([xc4;xa9],[xc4;xa8]); ([xc4;xab],[xc4;xaa]); ([xc4;xad],[xc4;xac]);
   ([xc4;xaf],[xc4;xae]); ([xc4;xb1],[x49]); ([xc4;xb3],[xc4;xb2]); ([xc4;xb5],[xc4;xb4]);
   ([xc4;xb7],[xc4;xb6]); ([xc4;xba],[xc4;xb9]); ([xc4;xbc],[xc4;xbb]); ([xc4;xbe],[xc4;xbd]);
   ([xc5;x80],[xc4;xbf]); ([xc5;x82],[xc5;x81]); ([xc5;x84],[xc5;x83]); ([xc5;x86],[xc5;x85]);
   ([xc5;x88],[xc5;x87]); ([xc5;x89],[xca;xbc;x4e]); ([xc5;x8b],[xc5;x8a]);
   ([xc5;x8d],[xc5;x8c]); ([xc5;x8f],[xc5;x8e]); ([xc5;x91],[xc5;x90]); ([xc5;x93],[xc5;x92]);
   ([xc5;x95],[xc5;x94]); ([xc5;x97],[xc5;x96]); ([xc5;x99],[xc5;x98]); ([xc5;x9b],[xc5;x9a]);
   ([xc5;x9d],[xc5;x9c]); ([xc5;x9f],[xc5;x9e]); ([xc5;xa1],[xc5;xa0]); ([xc5;xa3],[xc5;xa2]);
   ([xc5;xa5],[xc5;xa4]); ([xc5;xa7],[xc5;xa6]); ([xc5;xa9],[xc5;xa8]); ([xc5;xab],[xc5;xaa]);
   ([xc5;xad],[xc5;xac]); ([xc5;xaf],[xc5;xae]); ([xc5;xb1],[xc5;xb0]); ([xc5;xb3],[xc5;xb2]);
   ([xc5;xb5],[xc5;xb4]); ([xc5;xb7],[xc5;xb6]); ([xc5;xba],[xc5;xb9]); ([xc5;xbc],[xc5;xbb]);
   ([xc5;xbe],[xc5;xbd]); ([xc5;xbf],[x53]); ([xc6;x80],[xc9;x83]); ([xc6;x83],[xc6;x82]);
   ([xc6;x85],[xc6;x84]); ([xc6;x88],[xc6;x87]); ([xc6;x8c],[xc6;x8b]); ([xc6;x92],[xc6;x91]);
   ([xc6;x95],[xc7;xb6]); ([xc6;x99],[xc6;x98]); ([xc6;x9a],[xc8;xbd]); ([xc6;x9e],[xc8;xa0]);
   ([xc6;xa1],[xc6;xa0]); ([xc6;xa3],[xc6;xa2]); ([xc6;xa5],[xc6;xa4]); ([xc6;xa8],[xc6;xa7]);
   ([xc6;xad],[xc6;xac]); ([xc6;xb0],[xc6;xaf]); ([xc6;xb4],[xc6;xb3]); ([xc6;xb6],[xc6;xb5]);
   ([xc6;xb9],[xc6;xb8]); ([xc6;xbd],[xc6;xbc]); ([xc6;xbf],[xc7;xb7]); ([xc7;x85],[xc7;x84]);
   ([xc7;x86],[xc7;x84]); ([xc7;x88],[xc7;x87]); ([xc7;x89],[xc7;x87]); ([xc7;x8b],[xc7;x8a]);
   ([xc7;x8c],[xc7;x8a]); ([xc7;x8e],[xc7;x8d]); ([xc7;x90],[xc7;x8f]); ([xc7;x92],[xc7;x91]);
   ([xc7;x94],[xc7;x93]); ([xc7;x96],[xc7;x95]); ([xc7;x98],[xc7;x97]); ([xc7;x9a],[xc7;x99]);
   ([xc7;x9c],[xc7;x9b]); ([xc7;x9d],[xc6;x8e]); ([xc7;x9f],[xc7;x9e]); ([xc7;xa1],[xc7;xa0]);
   ([xc7;xa3],[xc7;xa2]); ([xc7;xa5],[xc7;xa4]); ([xc7;xa7],[xc7;xa6]); ([xc7;xa9],[xc7;xa8]);
   ([xc7;xab],[xc7;xaa]); ([xc7;xad],[xc7;xac]); ([xc7;xaf],[xc7;xae]);
   ([xc7;xb0],[x4a;xcc;x8c]); ([xc7;xb2],[xc7;xb1]); ([xc7;xb3],[xc7;xb1]);
   ([xc7;xb5],[xc7;xb4]); ([xc7;xb9],[xc7;xb8]); ([xc7;xbb],[xc7;xba]); ([xc7;xbd],[xc7;xbc]);
   ([xc7;xbf],[xc7;xbe]); ([xc8;x81],[xc8;x80]); ([xc8;x83],[xc8;x82]); ([xc8;x85],[xc8;x84]);
   ([xc8;x87],[xc8;x86]); ([xc8;x89],[xc8;x88]); ([xc8;x8b],[xc8;x8a]); ([xc8;x8d],[xc8;x8c]);
   ([xc8;x8f],[xc8;x8e]); ([xc8;x91],[xc8;x90]); ([xc8;x93],[xc8;x92]); ([xc8;x95],[xc8;x94]);
   ([xc8;x97],[xc8;x96]); ([xc8;x99],[xc8;x98]); ([xc8;x9b],[xc8;x9a]); ([xc8;x9d],[xc8;x9c]);
   ([xc8;x9f],[xc8;x9e]); ([xc8;xa3],[xc8;xa2]); ([xc8;xa5],[xc8;xa4]); ([xc8;xa7],[xc8;xa6]);
   ([xc8;xa9],[xc8;xa8]); ([xc8;xab],[xc8;xaa]); ([xc8;xad],[xc8;xac]); ([xc8;xaf],[xc8;xae]);
   ([xc8;xb1],[xc8;xb0]); ([xc8;xb3],[xc8;xb2]); ([xc8;xbc],[xc8;xbb]);
   ([xc8;xbf],[xe2;xb1;xbe]); ([xc9;x80],[xe2;xb1;xbf]); ([xc9;x82],[xc9;x81]);
   ([xc9;x87],[xc9;x86]); ([xc9;x89],[xc9;x88]); ([xc9;x8b],[xc9;x8a]); ([xc9;x8d],[xc9;x8c]);
   ([xc9;x8f],[xc9;x8e]); ([xc9;x90],[xe2;xb1;xaf]); ([xc9;x91],[xe2;xb1;xad]);
   ([xc9;x92],[xe2;xb1;xb0]); ([xc9;x93],[xc6;x81]); ([xc9;x94],[xc6;x86]);
   ([xc9;x96],[xc6;x89]); ([xc9;x97],[xc6;x8a]); ([xc9;x99],[xc6;x8f]); ([xc9;x9b],[xc6;x90]);
   ([xc9;x9c],[xea;x9e;xab]); ([xc9;xa0],[xc6;x93]); ([xc9;xa1],[xea;x9e;xac]);
   ([xc9;xa3],[xc6;x94]); ([xc9;xa5],[xea;x9e;x8d]); ([xc9;xa6],[xea;x9e;xaa]);
   ([xc9;xa8],[xc6;x97]); ([xc9;xa9],[xc6;x96]); ([xc9;xaa],[xea;x9e;xae]);
   ([xc9;xab],[xe2;xb1;xa2]); ([xc9;xac],[xea;x9e;xad]); ([xc9;xaf],[xc6;x9c]);
   ([xc9;xb1],[xe2;xb1;xae]); ([xc9;xb2],[xc6;x9d]); ([xc9;xb5],[xc6;x9f]);
   ([xc9;xbd],[xe2;xb1;xa4]); ([xca;x80],[xc6;xa6]); ([xca;x82],[xea;x9f;x85]);
   ([xca;x83],[xc6;xa9]); ([xca;x87],[xea;x9e;xb1]); ([xca;x88],[xc6;xae]);
   ([xca;x89],[xc9;x84]); ([xca;x8a],[xc6;xb1]); ([xca;x8b],[xc6;xb2]); ([xca;x8c],[xc9;x85]);
   ([xca;x92],[xc6;xb7]); ([xca;x9d],[xea;x9e;xb2]); ([xca;x9e],[xea;x9e;xb0]);
   ([xcd;x85],[xce;x99]); ([xcd;xb1],[xcd;xb0]); ([xcd;xb3],[xcd;xb2]); ([xcd;xb7],[xcd;xb6]);
   ([xcd;xbb],[xcf;xbd]); ([xcd;xbc],[xcf;xbe]); ([xcd;xbd],[xcf;xbf]);
   ([xce;x90],[xce;x99;xcc;x88;xcc;x81]); ([xce;xac],[xce;x86]); ([xce;xad],[xce;x88]);
   ([xce;xae],[xce;x89]); ([xce;xaf],[xce;x8a]); ([xce;xb0],[xce;xa5;xcc;x88;xcc;x81]);
   ([xce;xb1],[xce;x91]); ([xce;xb2],[xce;x92]); ([xce;xb3],[xce;x93]); ([xce;xb4],[xce;x94]);
   ([xce;xb5],[xce;x95]); ([xce;xb6],[xce;x96]); ([xce;xb7],[xce;x97]); ([xce;xb8],[xce;x98]);
   ([xce;xb9],[xce;x99]); ([xce;xba],[xce;x9a]); ([xce;xbb],[xce;x9b]); ([xce;xbc],[xce;x9c]);
   ([xce;xbd],[xce;x9d]); ([xce;xbe],[xce;x9e]); ([xce;xbf],[xce;x9f]); ([xcf;x80],[xce;xa0]);
   ([xcf;x81],[xce;xa1]); ([xcf;x82],[xce;xa3]); ([xcf;x83],[xce;xa3]); ([xcf;x84],[xce;xa4]);
   ([xcf;x85],[xce;xa5]); ([xcf;x86],[xce;xa6]); ([xcf;x87],[xce;xa7]); ([xcf;x88],[xce;xa8]);
   ([xcf;x89],[xce;xa9]); ([xcf;x8a],[xce;xaa]); ([xcf;x8b],[xce;xab]); ([xcf;x8c],[xce;x8c]);
   ([xcf;x8d],[xce;x8e]); ([xcf;x8e],[xce;x8f]); ([xcf;x90],[xce;x92]); ([xcf;x91],[xce;x98]);
   ([xcf;x95],[xce;xa6]); ([xcf;x96],[xce;xa0]); ([xcf;x97],[xcf;x8f]); ([xcf;x99],[xcf;x98]);
   ([xcf;x9b],[xcf;x9a]); ([xcf;x9d],[xcf;x9c]); ([xcf;x9f],[xcf;x9e]); ([xcf;xa1],[xcf;xa0]);
   ([xcf;xa3],[xcf;xa2]); ([xcf;xa5],[xcf;xa4]); ([xcf;xa7],[xcf;xa6]); ([xcf;xa9],[xcf;xa8]);
   ([xcf;xab],[xcf;xaa]); ([xcf;xad],[xcf;xac]); ([xcf;xaf],[xcf;xae]); ([xcf;xb0],[xce;x9a]);
   ([xcf;xb1],[xce;xa1]); ([xcf;xb2],[xcf;xb9]); ([xcf;xb3],[xcd;xbf]); ([xcf;xb5],[xce;x95]);
   ([xcf;xb8],[xcf;xb7]); ([xcf;xbb],[xcf;xba]); ([xd0;xb0],[xd0;x90]); ([xd0;xb1],[xd0;x91]);
   ([xd0;xb2],[xd0;x92]); ([xd0;xb3],[xd0;x93]); ([xd0;xb4],[xd0;x94]); ([xd0;xb5],[xd0;x95]);
   ([xd0;xb6],[xd0;x96]); ([xd0;xb7],[xd0;x97]); ([xd0;xb8],[xd0;x98]); ([xd0;xb9],[xd0;x99]);
   ([xd0;xba],[xd0;x9a]); ([xd0;xbb],[xd0;x9b]); ([xd0;xbc],[xd0;x9c]); ([xd0;xbd],[xd0;x9d]);
   ([xd0;xbe],[xd0;x9e]); ([xd0;xbf],[xd0;x9f]); ([xd1;x80],[xd0;xa0]); ([xd1;x81],[xd0;xa1]);
   ([xd1;x82],[xd0;xa2]); ([xd1;x83],[xd0;xa3]); ([xd1;x84],[xd0;xa4]); ([xd1;x85],[xd0;xa5]);
   ([xd1;x86],[xd0;xa6]); ([xd1;x87],[xd0;xa7]); ([xd1;x88],[xd0;xa8]); ([xd1;x89],[xd0;xa9]);
   ([xd1;x8a],[xd0;xaa]); ([xd1;x8b],[xd0;xab]); ([xd1;x8c],[xd0;xac]); ([xd1;x8d],[xd0;xad]);
   ([xd1;x8e],[xd0;xae]); ([xd1;x8f],[xd0;xaf]); ([xd1;x90],[xd0;x80]); ([xd1;x91],[xd0;x81]);
   ([xd1;x92],[xd0;x82]); ([xd1;x93],[xd0;x83]); ([xd1;x94],[xd0;x84]); ([xd1;x95],[xd0;x85]);
   ([xd1;x96],[xd0;x86]); ([xd1;x97],[xd0;x87]); ([xd1;x98],[xd0;x88]); ([xd1;x99],[xd0;x89]);
   ([xd1;x9a],[xd0;x8a]); ([xd1;x9b],[xd0;x8b]); ([xd1;x9c],[xd0;x8c]); ([xd1;x9d],[xd0;x8d]);
   ([xd1;x9e],[xd0;x8e]); ([xd1;x9f],[xd0;x8f]); ([xd1;xa1],[xd1;xa0]); ([xd1;xa3],[xd1;xa2]);
   ([xd1;xa5],[xd1;xa4]); ([xd1;xa7],[xd1;xa6]); ([xd1;xa9],[xd1;xa8]); ([xd1;xab],[xd1;xaa]);
   ([xd1;xad],[xd1;xac]); ([xd1;xaf],[xd1;xae]); ([xd1;xb1],[xd1;xb0]); ([xd1;xb3],[xd1;xb2]);
   ([xd1;xb5],[xd1;xb4]); ([xd1;xb7],[xd1;xb6]); ([xd1;xb9],[xd1;xb8]); ([xd1;xbb],[xd1;xba]);
   ([xd1;xbd],[xd1;xbc]); ([xd1;xbf],[xd1;xbe]); ([xd2;x81],[xd2;x80]); ([xd2;x8b],[xd2;x8a]);
   ([xd2;x8d],[xd2;x8c]); ([xd2;x8f],[xd2;x8e]); ([xd2;x91],[xd2;x90]); ([xd2;x93],[xd2;x92]);
   ([xd2;x95],[xd2;x94]); ([xd2;x97],[xd2;x96]); ([xd2;x99],[xd2;x98]); ([xd2;x9b],[xd2;x9a]);
   ([xd2;x9d],[xd2;x9c]); ([xd2;x9f],[xd2;x9e]); ([xd2;xa1],[xd2;xa0]); ([xd2;xa3],[xd2;xa2]);
   ([xd2;xa5],[xd2;xa4]); ([xd2;xa7],[xd2;xa6]); ([xd2;xa9],[xd2;xa8]); ([xd2;xab],[xd2;xaa]);
   ([xd2;xad],[xd2;xac]); ([xd2;xaf],[xd2;xae]); ([xd2;xb1],[xd2;xb0]); ([xd2;xb3],[xd2;xb2]);
   ([xd2;xb5],[xd2;xb4]); ([xd2;xb7],[xd2;xb6]); ([xd2;xb9],[xd2;xb8]); ([xd2;xbb],[xd2;xba]);
   ([xd2;xbd],[xd2;xbc]); ([xd2;xbf],[xd2;xbe]); ([xd3;x82],[xd3;x81]); ([xd3;x84],[xd3;x83]);
   ([xd3;x86],[xd3;x85]); ([xd3;x88],[xd3;x87]); ([xd3;x8a],[xd3;x89]); ([xd3;x8c],[xd3;x8b]);
   ([xd3;x8e],[xd3;x8d]); ([xd3;x8f],[xd3;x80]); ([xd3;x91],[xd3;x90]); ([xd3;x93],[xd3;x92]);
   ([xd3;x95],[xd3;x94]); ([xd3;x97],[xd3;x96]); ([xd3;x99],[xd3;x98]); ([xd3;x9b],[xd3;x9a]);
   ([xd3;x9d],[xd3;x9c]); ([xd3;x9f],[xd3;x9e]); ([xd3;xa1],[xd3;xa0]); ([xd3;xa3],[xd3;xa2]);
   ([xd3;xa5],[xd3;xa4]); ([xd3;xa7],[xd3;xa6]); ([xd3;xa9],[xd3;xa8]); ([xd3;xab],[xd3;xaa]);
   ([xd3;xad],[xd3;xac]); ([xd3;xaf],[xd3;xae]); ([xd3;xb1],[xd3;xb0]); ([xd3;xb3],[xd3;xb2]);
   ([xd3;xb5],[xd3;xb4]); ([xd3;xb7],[xd3;xb6]); ([xd3;xb9],[xd3;xb8]); ([xd3;xbb],[xd3;xba]);
   ([xd3;xbd],[xd3;xbc]); ([xd3;xbf],[xd3;xbe]); ([xd4;x81],[xd4;x80]); ([xd4;x83],[xd4;x82]);
   ([xd4;x85],[xd4;x84]); ([xd4;x87],[xd4;x86]); ([xd4;x89],[xd4;x88]); ([xd4;x8b],[xd4;x8a]);
   ([xd4;x8d],[xd4;x8c]); ([xd4;x8f],[xd4;x8e]); ([xd4;x91],[xd4;x90]); ([xd4;x93],[xd4;x92]);
   ([xd4;x95],[xd4;x94]); ([xd4;x97],[xd4;x96]); ([xd4;x99],[xd4;x98]); ([xd4;x9b],[xd4;x9a]);
   ([xd4;x9d],[xd4;x9c]); ([xd4;x9f],[xd4;x9e]); ([xd4;xa1],[xd4;xa0]); ([xd4;xa3],[xd4;xa2]);
   ([xd4;xa5],[xd4;xa4]); ([xd4;xa7],[xd4;xa6]); ([xd4;xa9],[xd4;xa8]); ([xd4;xab],[xd4;xaa]);
   ([xd4;xad],[xd4;xac]); ([xd4;xaf],[xd4;xae]); ([xd5;xa1],[xd4;xb1]); ([xd5;xa2],[xd4;xb2]);
   ([xd5;xa3],[xd4;xb3]); ([xd5;xa4],[xd4;xb4]); ([xd5;xa5],[xd4;xb5]); ([xd5;xa6],[xd4;xb6]);
   ([xd5;xa7],[xd4;xb7]); ([xd5;xa8],[xd4;xb8]); ([xd5;xa9],[xd4;xb9]); ([xd5;xaa],[xd4;xba]);
   ([xd5;xab],[xd4;xbb]); ([xd5;xac],[xd4;xbc]); ([xd5;xad],[xd4;xbd]); ([xd5;xae],[xd4;xbe]);
   ([xd5;xaf],[xd4;xbf]); ([xd5;xb0],[xd5;x80]); ([xd5;xb1],[xd5;x81]); ([xd5;xb2],[xd5;x82]);
   ([xd5;xb3],[xd5;x83]); ([xd5;xb4],[xd5;x84]); ([xd5;xb5],[xd5;x85]); ([xd5;xb6],[xd5;x86]);
   ([xd5;xb7],[xd5;x87]); ([xd5;xb8],[xd5;x88]); ([xd5;xb9],[xd5;x89]); ([xd5;xba],[xd5;x8a]);
   ([xd5;xbb],[xd5;x8b]); ([xd5;xbc],[xd5;x8c]); ([xd5;xbd],[xd5;x8d]); ([xd5;xbe],[xd5;x8e]);
   ([xd5;xbf],[xd5;x8f]); ([xd6;x80],[xd5;x90]); ([xd6;x81],[xd5;x91]); ([xd6;x82],[xd5;x92]);
   ([xd6;x83],[xd5;x93]); ([xd6;x84],[xd5;x94]); ([xd6;x85],[xd5;x95]); ([xd6;x86],[xd5;x96]);
   ([xd6;x87],[xd4;xb5;xd5;x92]); ([xe1;x83;x90],[xe1;xb2;x90]); ([xe1;x83;x91],[xe1;xb2;x91]);
   ([xe1;x83;x92],[xe1;xb2;x92]); ([xe1;x83;x93],[xe1;xb2;x93]); ([xe1;x83;x94],[xe1;xb2;x94]);
   ([xe1;x83;x95],[xe1;xb2;x95]); ([xe1;x83;x96],[xe1;xb2;x96]); ([xe1;x83;x97],[xe1;xb2;x97]);
   ([xe1;x83;x98],[xe1;xb2;x98]); ([xe1;x83;x99],[xe1;xb2;x99]); ([xe1;x83;x9a],[xe1;xb2;x9a]);
   ([xe1;x83;x9b],[xe1;xb2;x9b]); ([xe1;x83;x9c],[xe1;xb2;x9c]); ([xe1;x83;x9d],[xe1;xb2;x9d]);
   ([xe1;x83;x9e],[xe1;xb2;x9e]); ([xe1;x83;x9f],[xe1;xb2;x9f]); ([xe1;x83;xa0],[xe1;xb2;xa0]);
   ([xe1;x83;xa1],[xe1;xb2;xa1]); ([xe1;x83;xa2],[xe1;xb2;xa2]); ([xe1;x83;xa3],[xe1;xb2;xa3]);
   ([xe1;x83;xa4],[xe1;xb2;xa4]); ([xe1;x83;xa5],[xe1;xb2;xa5]); ([xe1;x83;xa6],[xe1;xb2;xa6]);
   ([xe1;x83;xa7],[xe1;xb2;xa7]); ([xe1;x83;xa8],[xe1;xb2;xa8]); ([xe1;x83;xa9],[xe1;xb2;xa9]);
   ([xe1;x83;xaa],[xe1;xb2;xaa]); ([xe1;x83;xab],[xe1;xb2;xab]); ([xe1;x83;xac],[xe1;xb2;xac]);
   ([xe1;x83;xad],[xe1;xb2;xad]); ([xe1;x83;xae],[xe1;xb2;xae]); ([xe1;x83;xaf],[xe1;xb2;xaf]);
   ([xe1;x83;xb0],[xe1;xb2;xb0]); ([xe1;x83;xb1],[xe1;xb2;xb1]); ([xe1;x83;xb2],[xe1;xb2;xb2]);
   ([xe1;x83;xb3],[xe1;xb2;xb3]); ([xe1;x83;xb4],[xe1;xb2;xb4]); ([xe1;x83;xb5],[xe1;xb2;xb5]);
   ([xe1;x83;xb6],[xe1;xb2;xb6]); ([xe1;x83;xb7],[xe1;xb2;xb7]); ([xe1;x83;xb8],[xe1;xb2;xb8]);
   ([xe1;x83;xb9],[xe1;xb2;xb9]); ([xe1;x83;xba],[xe1;xb2;xba]); ([xe1;x83;xbd],[xe1;xb2;xbd]);
   ([xe1;x83;xbe],[xe1;xb2;xbe]); ([xe1;x83;xbf],[xe1;xb2;xbf]); ([xe1;x8f;xb8],[xe1;x8f;xb0]);
   ([xe1;x8f;xb9],[xe1;x8f;xb1]); ([xe1;x8f;xba],[xe1;x8f;xb2]); ([xe1;x8f;xbb],[xe1;x8f;xb3]);
   ([xe1;x8f;xbc],[xe1;x8f;xb4]); ([xe1;x8f;xbd],[xe1;x8f;xb5]); ([xe1;xb2;x80],[xd0;x92]);
   ([xe1;xb2;x81],[xd0;x94]); ([xe1;xb2;x82],[xd0;x9e]); ([xe1;xb2;x83],[xd0;xa1]);
   ([xe1;xb2;x84],[xd0;xa2]); ([xe1;xb2;x85],[xd0;xa2]); ([xe1;xb2;x86],[xd0;xaa]);
   ([xe1;xb2;x87],[xd1;xa2]); ([xe1;xb2;x88],[xea;x99;x8a]); ([xe1;xb5;xb9],[xea;x9d;xbd]);
   ([xe1;xb5;xbd],[xe2;xb1;xa3]); ([xe1;xb6;x8e],[xea;x9f;x86]); ([xe1;xb8;x81],[xe1;xb8;x80]);
   ([xe1;xb8;x83],[xe1;xb8;x82]); ([xe1;xb8;x85],[xe1;xb8;x84]); ([xe1;xb8;x87],[xe1;xb8;x86]);
   ([xe1;xb8;x89],[xe1;xb8;x88]); ([xe1;xb8;x8b],[xe1;xb8;x8a]); ([xe1;xb8;x8d],[xe1;xb8;x8c]);
   ([xe1;xb8;x8f],[xe1;xb8;x8e]); ([xe1;xb8;x91],[xe1;xb8;x90]); ([xe1;xb8;x93],[xe1;xb8;x92]);
   ([xe1;xb8;x95],[xe1;xb8;x94]); ([xe1;xb8;x97],[xe1;xb8;x96]); ([xe1;xb8;x99],[xe1;xb8;x98]);
   ([xe1;xb8;x9b],[xe1;xb8;x9a]); ([xe1;xb8;x9d],[xe1;xb8;x9c]); ([xe1;xb8;x9f],[xe1;xb8;x9e]);
   ([xe1;xb8;xa1],[xe1;xb8;xa0]); ([xe1;xb8;xa3],[xe1;xb8;xa2]); ([xe1;xb8;xa5],[xe1;xb8;xa4]);
   ([xe1;xb8;xa7],[xe1;xb8;xa6]); ([xe1;xb8;xa9],[xe1;xb8;xa8]); ([xe1;xb8;xab],[xe1;xb8;xaa]);
   ([xe1;xb8;xad],[xe1;xb8;xac]); ([xe1;xb8;xaf],[xe1;xb8;xae]); ([xe1;xb8;xb1],[xe1;xb8;xb0]);
   ([xe1;xb8;xb3],[xe1;xb8;xb2]); ([xe1;xb8;xb5],[xe1;xb8;xb4]); ([xe1;xb8;xb7],[xe1;xb8;xb6]);
   ([xe1;xb8;xb9],[xe1;xb8;xb8]); ([xe1;xb8;xbb],[xe1;xb8;xba]); ([xe1;xb8;xbd],[xe1;xb8;xbc]);
   ([xe1;xb8;xbf],[xe1;xb8;xbe]); ([xe1;xb9;x81],[xe1;xb9;x80]); ([xe1;xb9;x83],[xe1;xb9;x82]);
   ([xe1;xb9;x85],[xe1;xb9;x84]); ([xe1;xb9;x87],[xe1;xb9;x86]); ([xe1;xb9;x89],[xe1;xb9;x88]);
   ([xe1;xb9;x8b],[xe1;xb9;x8a]); ([xe1;xb9;x8d],[xe1;xb9;x8c]); ([xe1;xb9;x8f],[xe1;xb9;x8e]);
   ([xe1;xb9;x91],[xe1;xb9;x90]); ([xe1;xb9;x93],[xe1;xb9;x92]); ([xe1;xb9;x95],[xe1;xb9;x94]);
   ([xe1;xb9;x97],[xe1;xb9;x96]); ([xe1;xb9;x99],[xe1;xb9;x98]); ([xe1;xb9;x9b],[xe1;xb9;x9a]);
   ([xe1;xb9;x9d],[xe1;xb9;x9c]); ([xe1;xb9;x9f],[xe1;xb9;x9e]); ([xe1;xb9;xa1],[xe1;xb9;xa0]);
   ([xe1;xb9;xa3],[xe1;xb9;xa2]); ([xe1;xb9;xa5],[xe1;xb9;xa4]); ([xe1;xb9;xa7],[xe1;xb9;xa6]);
   ([xe1;xb9;xa9],[xe1;xb9;xa8]); ([xe1;xb9;xab],[xe1;xb9;xaa]); ([xe1;xb9;xad],[xe1;xb9;xac]);
   ([xe1;xb9;xaf],[xe1;xb9;xae]); ([xe1;xb9;xb1],[xe1;xb9;xb0]); ([xe1;xb9;xb3],[xe1;xb9;xb2]);
   ([xe1;xb9;xb5],[xe1;xb9;xb4]); ([xe1;xb9;xb7],[xe1;xb9;xb6]); ([xe1;xb9;xb9],[xe1;xb9;xb8]);
   ([xe1;xb9;xbb],[xe1;xb9;xba]); ([xe1;xb9;xbd],[xe1;xb9;xbc]); ([xe1;xb9;xbf],[xe1;xb9;xbe]);
   ([xe1;xba;x81],[xe1;xba;x80]); ([xe1;xba;x83],[xe1;xba;x82]); ([xe1;xba;x85],[xe1;xba;x84]);
   ([xe1;xba;x87],[xe1;xba;x86]); ([xe1;xba;x89],[xe1;xba;x88]); ([xe1;xba;x8b],[xe1;xba;x8a]);
   ([xe1;xba;x8d],[xe1;xba;x8c]); ([xe1;xba;x8f],[xe1;xba;x8e]); ([xe1;xba;x91],[xe1;xba;x90]);
   ([xe1;xba;x93],[xe1;xba;x92]); ([xe1;xba;x95],[xe1;xba;x94]); ([xe1;xba;x96],[x48;xcc;xb1]);
   ([xe1;xba;x97],[x54;xcc;x88]); ([xe1;xba;x98],[x57;xcc;x8a]); ([xe1;xba;x99],[x59;xcc;x8a]);
   ([xe1;xba;x9a],[x41;xca;xbe]); ([xe1;xba;x9b],[xe1;xb9;xa0]); ([xe1;xba;xa1],[xe1;xba;xa0]);
   ([xe1;xba;xa3],[xe1;xba;xa2]); ([xe1;xba;xa5],[xe1;xba;xa4]); ([xe1;xba;xa7],[xe1;xba;xa6]);
   ([xe1;xba;xa9],[xe1;xba;xa8]); ([xe1;xba;xab],[xe1;xba;xaa]); ([xe1;xba;xad],[xe1;xba;xac]);
   ([xe1;xba;xaf],[xe1;xba;xae]); ([xe1;xba;xb1],[xe1;xba;xb0]); ([xe1;xba;xb3],[xe1;xba;xb2]);
   ([xe1;xba;xb5],[xe1;xba;xb4]); ([xe1;xba;xb7],[xe1;xba;xb6]); ([xe1;xba;xb9],[xe1;xba;xb8]);
   ([xe1;xba;xbb],[xe1;xba;xba]); ([xe1;xba;xbd],[xe1;xba;xbc]); ([xe1;xba;xbf],[xe1;xba;xbe]);
   ([xe1;xbb;x81],[xe1;xbb;x80]); ([xe1;xbb;x83],[xe1;xbb;x82]); ([xe1;xbb;x85],[xe1;xbb;x84]);
   ([xe1;xbb;x87],[xe1;xbb;x86]); ([xe1;xbb;x89],[xe1;xbb;x88]); ([xe1;xbb;x8b],[xe1;xbb;x8a]);
   ([xe1;xbb;x8d],[xe1;xbb;x8c]); ([xe1;xbb;x8f],[xe1;xbb;x8e]); ([xe1;xbb;x91],[xe1;xbb;x90]);
   ([xe1;xbb;x93],[xe1;xbb;x92]); ([xe1;xbb;x95],[xe1;xbb;x94]); ([xe1;xbb;x97],[xe1;xbb;x96]);
   ([xe1;xbb;x99],[xe1;xbb;x98]); ([xe1;xbb;x9b],[xe1;xbb;x9a]); ([xe1;xbb;x9d],[xe1;xbb;x9c]);
   ([xe1;xbb;x9f],[xe1;xbb;x9e]); ([xe1;xbb;xa1],[xe1;xbb;xa0]); ([xe1;xbb;xa3],[xe1;xbb;xa2]);
   ([xe1;xbb;xa5],[xe1;xbb;xa4]); ([xe1;xbb;xa7],[xe1;xbb;xa6]); ([xe1;xbb;xa9],[xe1;xbb;xa8]);
   ([xe1;xbb;xab],[xe1;xbb;xaa]); ([xe1;xbb;xad],[xe1;xbb;xac]); ([xe1;xbb;xaf],[xe1;xbb;xae]);
   ([xe1;xbb;xb1],[xe1;xbb;xb0]); ([xe1;xbb;xb3],[xe1;xbb;xb2]); ([xe1;xbb;xb5],[xe1;xbb;xb4]);
   ([xe1;xbb;xb7],[xe1;xbb;xb6]); ([xe1;xbb;xb9],[xe1;xbb;xb8]); ([xe1;xbb;xbb],[xe1;xbb;xba]);
   ([xe1;xbb;xbd],[xe1;xbb;xbc]); ([xe1;xbb;xbf],[xe1;xbb;xbe]); ([xe1;xbc;x80],[xe1;xbc;x88]);
   ([xe1;xbc;x81],[xe1;xbc;x89]); ([xe1;xbc;x82],[xe1;xbc;x8a]); ([xe1;xbc;x83],[xe1;xbc;x8b]);
   ([xe1;xbc;x84],[xe1;xbc;x8c]); ([xe1;xbc;x85],[xe1;xbc;x8d]); ([xe1;xbc;x86],[xe1;xbc;x8e]);
   ([xe1;xbc;x87],[xe1;xbc;x8f]); ([xe1;xbc;x90],[xe1;xbc;x98]); ([xe1;xbc;x91],[xe1;xbc;x99]);
   ([xe1;xbc;x92],[xe1;xbc;x9a]); ([xe1;xbc;x93],[xe1;xbc;x9b]); ([xe1;xbc;x94],[xe1;xbc;x9c]);
   ([xe1;xbc;x95],[xe1;xbc;x9d]); ([xe1;xbc;xa0],[xe1;xbc;xa8]); ([xe1;xbc;xa1],[xe1;xbc;xa9]);
   ([xe1;xbc;xa2],[xe1;xbc;xaa]); ([xe1;xbc;xa3],[xe1;xbc;xab]); ([xe1;xbc;xa4],[xe1;xbc;xac]);
   ([xe1;xbc;xa5],[xe1;xbc;xad]); ([xe1;xbc;xa6],[xe1;xbc;xae]); ([xe1;xbc;xa7],[xe1;xbc;xaf]);
   ([xe1;xbc;xb0],[xe1;xbc;xb8]); ([xe1;xbc;xb1],[xe1;xbc;xb9]); ([xe1;xbc;xb2],[xe1;xbc;xba]);
   ([xe1;xbc;xb3],[xe1;xbc;xbb]); ([xe1;xbc;xb4],[xe1;xbc;xbc]); ([xe1;xbc;xb5],[xe1;xbc;xbd]);
   ([xe1;xbc;xb6],[xe1;xbc;xbe]); ([xe1;xbc;xb7],[xe1;xbc;xbf]); ([xe1;xbd;x80],[xe1;xbd;x88]);
   ([xe1;xbd;x81],[xe1;xbd;x89]); ([xe1;xbd;x82],[xe1;xbd;x8a]); ([xe1;xbd;x83],[xe1;xbd;x8b]);
   ([xe1;xbd;x84],[xe1;xbd;x8c]); ([xe1;xbd;x85],[xe1;xbd;x8d]);
   ([xe1;xbd;x90],[xce;xa5;xcc;x93]); ([xe1;xbd;x91],[xe1;xbd;x99]);
   ([xe1;xbd;x92],[xce;xa5;xcc;x93;xcc;x80]); ([xe1;xbd;x93],[xe1;xbd;x9b]);
   ([xe1;xbd;x94],[xce;xa5;xcc;x93;xcc;x81]); ([xe1;xbd;x95],[xe1;xbd;x9d]);
   ([xe1;xbd;x96],[xce;xa5;xcc;x93;xcd;x82]); ([xe1;xbd;x97],[xe1;xbd;x9f]);
   ([xe1;xbd;xa0],[xe1;xbd;xa8]); ([xe1;xbd;xa1],[xe1;xbd;xa9]); ([xe1;xbd;xa2],[xe1;xbd;xaa]);
   ([xe1;xbd;xa3],[xe1;xbd;xab]); ([xe1;xbd;xa4],[xe1;xbd;xac]); ([xe1;xbd;xa5],[xe1;xbd;xad]);
   ([xe1;xbd;xa6],[xe1;xbd;xae]); ([xe1;xbd;xa7],[xe1;xbd;xaf]); ([xe1;xbd;xb0],[xe1;xbe;xba]);
   ([xe1;xbd;xb1],[xe1;xbe;xbb]); ([xe1;xbd;xb2],[xe1;xbf;x88]); ([xe1;xbd;xb3],[xe1;xbf;x89]);
   ([xe1;xbd;xb4],[xe1;xbf;x8a]); ([xe1;xbd;xb5],[xe1;xbf;x8b]); ([xe1;xbd;xb6],[xe1;xbf;x9a]);
   ([xe1;xbd;xb7],[xe1;xbf;x9b]); ([xe1;xbd;xb8],[xe1;xbf;xb8]); ([xe1;xbd;xb9],[xe1;xbf;xb9]);
   ([xe1;xbd;xba],[xe1;xbf;xaa]); ([xe1;xbd;xbb],[xe1;xbf;xab]); ([xe1;xbd;xbc],[xe1;xbf;xba]);
   ([xe1;xbd;xbd],[xe1;xbf;xbb]); ([xe1;xbe;x80],[xe1;xbc;x88;xce;x99]);
   ([xe1;xbe;x81],[xe1;xbc;x89;xce;x99]); ([xe1;xbe;x82],[xe1;xbc;x8a;xce;x99]);
   ([xe1;xbe;x83],[xe1;xbc;x8b;xce;x99]); ([xe1;xbe;x84],[xe1;xbc;x8c;xce;x99]);
   ([xe1;xbe;x85],[xe1;xbc;x8d;xce;x99]); ([xe1;xbe;x86],[xe1;xbc;x8e;xce;x99]);
   ([xe1;xbe;x87],[xe1;xbc;x8f;xce;x99]); ([xe1;xbe;x88],[xe1;xbc;x88;xce;x99]);
   ([xe1;xbe;x89],[xe1;xbc;x89;xce;x99]); ([xe1;xbe;x8a],[xe1;xbc;x8a;xce;x99]);
   ([xe1;xbe;x8b],[xe1;xbc;x8b;xce;x99]); ([xe1;xbe;x8c],[xe1;xbc;x8c;xce;x99]);
   ([xe1;xbe;x8d],[xe1;xbc;x8d;xce;x99]); ([xe1;xbe;x8e],[xe1;xbc;x8e;xce;x99]);
   ([xe1;xbe;x8f],[xe1;xbc;x8f;xce;x99]); ([xe1;xbe;x90],[xe1;xbc;xa8;xce;x99]);
   ([xe1;xbe;x91],[xe1;xbc;xa9;xce;x99]); ([xe1;xbe;x92],[xe1;xbc;xaa;xce;x99]);
   ([xe1;xbe;x93],[xe1;xbc;xab;xce;x99]); ([xe1;xbe;x94],[xe1;xbc;xac;xce;x99]);
   ([xe1;xbe;x95],[xe1;xbc;xad;xce;x99]); ([xe1;xbe;x96],[xe1;xbc;xae;xce;x99]);
   ([xe1;xbe;x97],[xe1;xbc;xaf;xce;x99]); ([xe1;xbe;x98],[xe1;xbc;xa8;xce;x99]);
   ([xe1;xbe;x99],[xe1;xbc;xa9;xce;x99]); ([xe1;xbe;x9a],[xe1;xbc;xaa;xce;x99]);
   ([xe1;xbe;x9b],[xe1;xbc;xab;xce;x99]); ([xe1;xbe;x9c],[xe1;xbc;xac;xce;x99]);
   ([xe1;xbe;x9d],[xe1;xbc;xad;xce;x99]); ([xe1;xbe;x9e],[xe1;xbc;xae;xce;x99]);
   ([xe1;xbe;x9f],[xe1;xbc;xaf;xce;x99]); ([xe1;xbe;xa0],[xe1;xbd;xa8;xce;x99]);
   ([xe1;xbe;xa1],[xe1;xbd;xa9;xce;x99]); ([xe1;xbe;xa2],[xe1;xbd;xaa;xce;x99]);
   ([xe1;xbe;xa3],[xe1;xbd;xab;xce;x99]); ([xe1;xbe;xa4],[xe1;xbd;xac;xce;x99]);
   ([xe1;xbe;xa5],[xe1;xbd;xad;xce;x99]); ([xe1;xbe;xa6],[xe1;xbd;xae;xce;x99]);
   ([xe1;xbe;xa7],[xe1;xbd;xaf;xce;x99]); ([xe1;xbe;xa8],[xe1;xbd;xa8;xce;x99]);
   ([xe1;xbe;xa9],[xe1;xbd;xa9;xce;x99]); ([xe1;xbe;xaa],[xe1;xbd;xaa;xce;x99]);
   ([xe1;xbe;xab],[xe1;xbd;xab;xce;x99]); ([xe1;xbe;xac],[xe1;xbd;xac;xce;x99]);
   ([xe1;xbe;xad],[xe1;xbd;xad;xce;x99]); ([xe1;xbe;xae],[xe1;xbd;xae;xce;x99]);
   ([xe1;xbe;xaf],[xe1;xbd;xaf;xce;x99]); ([xe1;xbe;xb0],[xe1;xbe;xb8]);
   ([xe1;xbe;xb1],[xe1;xbe;xb9]); ([xe1;xbe;xb2],[xe1;xbe;xba;xce;x99]);
   ([xe1;xbe;xb3],[xce;x91;xce;x99]); ([xe1;xbe;xb4],[xce;x86;xce;x99]);
   ([xe1;xbe;xb6],[xce;x91;xcd;x82]); ([xe1;xbe;xb7],[xce;x91;xcd;x82;xce;x99]);
   ([xe1;xbe;xbc],[xce;x91;xce;x99]); ([xe1;xbe;xbe],[xce;x99]);
   ([xe1;xbf;x82],[xe1;xbf;x8a;xce;x99]); ([xe1;xbf;x83],[xce;x97;xce;x99]);
   ([xe1;xbf;x84],[xce;x89;xce;x99]); ([xe1;xbf;x86],[xce;x97;xcd;x82]);
   ([xe1;xbf;x87],[xce;x97;xcd;x82;xce;x99]); ([xe1;xbf;x8c],[xce;x97;xce;x99]);
   ([xe1;xbf;x90],[xe1;xbf;x98]); ([xe1;xbf;x91],[xe1;xbf;x99]);
   ([xe1;xbf;x92],[xce;x99;xcc;x88;xcc;x80]); ([xe1;xbf;x93],[xce;x99;xcc;x88;xcc;x81]);
   ([xe1;xbf;x96],[xce;x99;xcd;x82]); ([xe1;xbf;x97],[xce;x99;xcc;x88;xcd;x82]);
   ([xe1;xbf;xa0],[xe1;xbf;xa8]); ([xe1;xbf;xa1],[xe1;xbf;xa9]);
   ([xe1;xbf;xa2],[xce;xa5;xcc;x88;xcc;x80]); ([xe1;xbf;xa3],[xce;xa5;xcc;x88;xcc;x81]);
   ([xe1;xbf;xa4],[xce;xa1;xcc;x93]); ([xe1;xbf;xa5],[xe1;xbf;xac]);
   ([xe1;xbf;xa6],[xce;xa5;xcd;x82]); ([xe1;xbf;xa7],[xce;xa5;xcc;x88;xcd;x82]);
   ([xe1;xbf;xb2],[xe1;xbf;xba;xce;x99]); ([xe1;xbf;xb3],[xce;xa9;xce;x99]);
   ([xe1;xbf;xb4],[xce;x8f;xce;x99]); ([xe1;xbf;xb6],[xce;xa9;xcd;x82]);
   ([xe1;xbf;xb7],[xce;xa9;xcd;x82;xce;x99]); ([xe1;xbf;xbc],[xce;xa9;xce;x99]);
   ([xe2;x85;x8e],[xe2;x84;xb2]); ([xe2;x85;xb0],[xe2;x85;xa0]); ([xe2;x85;xb1],[xe2;x85;xa1]);
   ([xe2;x85;xb2],[xe2;x85;xa2]); ([xe2;x85;xb3],[xe2;x85;xa3]); ([xe2;x85;xb4],[xe2;x85;xa4]);
   ([xe2;x85;xb5],[xe2;x85;xa5]); ([xe2;x85;xb6],[xe2;x85;xa6]); ([xe2;x85;xb7],[xe2;x85;xa7]);
   ([xe2;x85;xb8],[xe2;x85;xa8]); ([xe2;x85;xb9],[xe2;x85;xa9]); ([xe2;x85;xba],[xe2;x85;xaa]);
   ([xe2;x85;xbb],[xe2;x85;xab]); ([xe2;x85;xbc],[xe2;x85;xac]); ([xe2;x85;xbd],[xe2;x85;xad]);
   ([xe2;x85;xbe],[xe2;x85;xae]); ([xe2;x85;xbf],[xe2;x85;xaf]); ([xe2;x86;x84],[xe2;x86;x83]);
   ([xe2;x93;x90],[xe2;x92;xb6]); ([xe2;x93;x91],[xe2;x92;xb7]); ([xe2;x93;x92],[xe2;x92;xb8]);
   ([xe2;x93;x93],[xe2;x92;xb9]); ([xe2;x93;x94],[xe2;x92;xba]); ([xe2;x93;x95],[xe2;x92;xbb]);
   ([xe2;x93;x96],[xe2;x92;xbc]); ([xe2;x93;x97],[xe2;x92;xbd]); ([xe2;x93;x98],[xe2;x92;xbe]);
   ([xe2;x93;x99],[xe2;x92;xbf]); ([xe2;x93;x9a],[xe2;x93;x80]); ([xe2;x93;x9b],[xe2;x93;x81]);
   ([xe2;x93;x9c],[xe2;x93;x82]); ([xe2;x93;x9d],[xe2;x93;x83]); ([xe2;x93;x9e],[xe2;x93;x84]);
   ([xe2;x93;x9f],[xe2;x93;x85]); ([xe2;x93;xa0],[xe2;x93;x86]); ([xe2;x93;xa1],[xe2;x93;x87]);
   ([xe2;x93;xa2],[xe2;x93;x88]); ([xe2;x93;xa3],[xe2;x93;x89]); ([xe2;x93;xa4],[xe2;x93;x8a]);
   ([xe2;x93;xa5],[xe2;x93;x8b]); ([xe2;x93;xa6],[xe2;x93;x8c]); ([xe2;x93;xa7],[xe2;x93;x8d]);
   ([xe2;x93;xa8],[xe2;x93;x8e]); ([xe2;x93;xa9],[xe2;x93;x8f]); ([xe2;xb0;xb0],[xe2;xb0;x80]);
   ([xe2;xb0;xb1],[xe2;xb0;x81]); ([xe2;xb0;xb2],[xe2;xb0;x82]); ([xe2;xb0;xb3],[xe2;xb0;x83]);
   ([xe2;xb0;xb4],[xe2;xb0;x84]); ([xe2;xb0;xb5],[xe2;xb0;x85]); ([xe2;xb0;xb6],[xe2;xb0;x86]);
   ([xe2;xb0;xb7],[xe2;xb0;x87]); ([xe2;xb0;xb8],[xe2;xb0;x88]); ([xe2;xb0;xb9],[xe2;xb0;x89]);
   ([xe2;xb0;xba],[xe2;xb0;x8a]); ([xe2;xb0;xbb],[xe2;xb0;x8b]); ([xe2;xb0;xbc],[xe2;xb0;x8c]);
   ([xe2;xb0;xbd],[xe2;xb0;x8d]); ([xe2;xb0;xbe],[xe2;xb0;x8e]); ([xe2;xb0;xbf],[xe2;xb0;x8f]);
   ([xe2;xb1;x80],[xe2;xb0;x90]); ([xe2;xb1;x81],[xe2;xb0;x91]); ([xe2;xb1;x82],[xe2;xb0;x92]);
   ([xe2;xb1;x83],[xe2;xb0;x93]); ([xe2;xb1;x84],[xe2;xb0;x94]); ([xe2;xb1;x85],[xe2;xb0;x95]);
   ([xe2;xb1;x86],[xe2;xb0;x96]); ([xe2;xb1;x87],[xe2;xb0;x97]); ([xe2;xb1;x88],[xe2;xb0;x98]);
   ([xe2;xb1;x89],[xe2;xb0;x99]); ([xe2;xb1;x8a],[xe2;xb0;x9a]); ([xe2;xb1;x8b],[xe2;xb0;x9b]);
   ([xe2;xb1;x8c],[xe2;xb0;x9c]); ([xe2;xb1;x8d],[xe2;xb0;x9d]); ([xe2;xb1;x8e],[xe2;xb0;x9e]);
   ([xe2;xb1;x8f],[xe2;xb0;x9f]); ([xe2;xb1;x90],[xe2;xb0;xa0]); ([xe2;xb1;x91],[xe2;xb0;xa1]);
   ([xe2;xb1;x92],[xe2;xb0;xa2]); ([xe2;xb1;x93],[xe2;xb0;xa3]); ([xe2;xb1;x94],[xe2;xb0;xa4]);
   ([xe2;xb1;x95],[xe2;xb0;xa5]); ([xe2;xb1;x96],[xe2;xb0;xa6]); ([xe2;xb1;x97],[xe2;xb0;xa7]);
   ([xe2;xb1;x98],[xe2;xb0;xa8]); ([xe2;xb1;x99],[xe2;xb0;xa9]); ([xe2;xb1;x9a],[xe2;xb0;xaa]);
   ([xe2;xb1;x9b],[xe2;xb0;xab]); ([xe2;xb1;x9c],[xe2;xb0;xac]); ([xe2;xb1;x9d],[xe2;xb0;xad]);
   ([xe2;xb1;x9e],[xe2;xb0;xae]); ([xe2;xb1;x9f],[xe2;xb0;xaf]); ([xe2;xb1;xa1],[xe2;xb1;xa0]);
   ([xe2;xb1;xa5],[xc8;xba]); ([xe2;xb1;xa6],[xc8;xbe]); ([xe2;xb1;xa8],[xe2;xb1;xa7]);
   ([xe2;xb1;xaa],[xe2;xb1;xa9]); ([xe2;xb1;xac],[xe2;xb1;xab]); ([xe2;xb1;xb3],[xe2;xb1;xb2]);
   ([xe2;xb1;xb6],[xe2;xb1;xb5]); ([xe2;xb2;x81],[xe2;xb2;x80]); ([xe2;xb2;x83],[xe2;xb2;x82]);
   ([xe2;xb2;x85],[xe2;xb2;x84]); ([xe2;xb2;x87],[xe2;xb2;x86]); ([xe2;xb2;x89],[xe2;xb2;x88]);
   ([xe2;xb2;x8b],[xe2;xb2;x8a]); ([xe2;xb2;x8d],[xe2;xb2;x8c]); ([xe2;xb2;x8f],[xe2;xb2;x8e]);
   ([xe2;xb2;x91],[xe2;xb2;x90]); ([xe2;xb2;x93],[xe2;xb2;x92]); ([xe2;xb2;x95],[xe2;xb2;x94]);
   ([xe2;xb2;x97],[xe2;xb2;x96]); ([xe2;xb2;x99],[xe2;xb2;x98]); ([xe2;xb2;x9b],[xe2;xb2;x9a]);
   ([xe2;xb2;x9d],[xe2;xb2;x9c]); ([xe2;xb2;x9f],[xe2;xb2;x9e]); ([xe2;xb2;xa1],[xe2;xb2;xa0]);
   ([xe2;xb2;xa3],[xe2;xb2;xa2]); ([xe2;xb2;xa5],[xe2;xb2;xa4]); ([xe2;xb2;xa7],[xe2;xb2;xa6]);
   ([xe2;xb2;xa9],[xe2;xb2;xa8]); ([xe2;xb2;xab],[xe2;xb2;xaa]); ([xe2;xb2;xad],[xe2;xb2;xac]);
   ([xe2;xb2;xaf],[xe2;xb2;xae]); ([xe2;xb2;xb1],[xe2;xb2;xb0]); ([xe2;xb2;xb3],[xe2;xb2;xb2]);
   ([xe2;xb2;xb5],[xe2;xb2;xb4]); ([xe2;xb2;xb7],[xe2;xb2;xb6]); ([xe2;xb2;xb9],[xe2;xb2;xb8]);
   ([xe2;xb2;xbb],[xe2;xb2;xba]); ([xe2;xb2;xbd],[xe2;xb2;xbc]); ([xe2;xb2;xbf],[xe2;xb2;xbe]);
   ([xe2;xb3;x81],[xe2;xb3;x80]); ([xe2;xb3;x83],[xe2;xb3;x82]); ([xe2;xb3;x85],[xe2;xb3;x84]);
   ([xe2;xb3;x87],[xe2;xb3;x86]); ([xe2;xb3;x89],[xe2;xb3;x88]); ([xe2;xb3;x8b],[xe2;xb3;x8a]);
   ([xe2;xb3;x8d],[xe2;xb3;x8c]); ([xe2;xb3;x8f],[xe2;xb3;x8e]); ([xe2;xb3;x91],[xe2;xb3;x90]);
   ([xe2;xb3;x93],[xe2;xb3;x92]); ([xe2;xb3;x95],[xe2;xb3;x94]); ([xe2;xb3;x97],[xe2;xb3;x96]);
   ([xe2;xb3;x99],[xe2;xb3;x98]); ([xe2;xb3;x9b],[xe2;xb3;x9a]); ([xe2;xb3;x9d],[xe2;xb3;x9c]);
   ([xe2;xb3;x9f],[xe2;xb3;x9e]); ([xe2;xb3;xa1],[xe2;xb3;xa0]); ([xe2;xb3;xa3],[xe2;xb3;xa2]);
   ([xe2;xb3;xac],[xe2;xb3;xab]); ([xe2;xb3;xae],[xe2;xb3;xad]); ([xe2;xb3;xb3],[xe2;xb3;xb2]);
   ([xe2;xb4;x80],[xe1;x82;xa0]); ([xe2;xb4;x81],[xe1;x82;xa1]); ([xe2;xb4;x82],[xe1;x82;xa2]);
   ([xe2;xb4;x83],[xe1;x82;xa3]); ([xe2;xb4;x84],[xe1;x82;xa4]); ([xe2;xb4;x85],[xe1;x82;xa5]);
   ([xe2;xb4;x86],[xe1;x82;xa6]); ([xe2;xb4;x87],[xe1;x82;xa7]); ([xe2;xb4;x88],[xe1;x82;xa8]);
   ([xe2;xb4;x89],[xe1;x82;xa9]); ([xe2;xb4;x8a],[xe1;x82;xaa]); ([xe2;xb4;x8b],[xe1;x82;xab]);
   ([xe2;xb4;x8c],[xe1;x82;xac]); ([xe2;xb4;x8d],[xe1;x82;xad]); ([xe2;xb4;x8e],[xe1;x82;xae]);
   ([xe2;xb4;x8f],[xe1;x82;xaf]); ([xe2;xb4;x90],[xe1;x82;xb0]); ([xe2;xb4;x91],[xe1;x82;xb1]);
   ([xe2;xb4;x92],[xe1;x82;xb2]); ([xe2;xb4;x93],[xe1;x82;xb3]); ([xe2;xb4;x94],[xe1;x82;xb4]);
   ([xe2;xb4;x95],[xe1;x82;xb5]); ([xe2;xb4;x96],[xe1;x82;xb6]); ([xe2;xb4;x97],[xe1;x82;xb7]);
   ([xe2;xb4;x98],[xe1;x82;xb8]); ([xe2;xb4;x99],[xe1;x82;xb9]); ([xe2;xb4;x9a],[xe1;x82;xba]);
   ([xe2;xb4;x9b],[xe1;x82;xbb]); ([xe2;xb4;x9c],[xe1;x82;xbc]); ([xe2;xb4;x9d],[xe1;x82;xbd]);
   ([xe2;xb4;x9e],[xe1;x82;xbe]); ([xe2;xb4;x9f],[xe1;x82;xbf]); ([xe2;xb4;xa0],[xe1;x83;x80]);
   ([xe2;xb4;xa1],[xe1;x83;x81]); ([xe2;xb4;xa2],[xe1;x83;x82]); ([xe2;xb4;xa3],[xe1;x83;x83]);
   ([xe2;xb4;xa4],[xe1;x83;x84]); ([xe2;xb4;xa5],[xe1;x83;x85]); ([xe2;xb4;xa7],[xe1;x83;x87]);
   ([xe2;xb4;xad],[xe1;x83;x8d]); ([xea;x99;x81],[xea;x99;x80]); ([xea;x99;x83],[xea;x99;x82]);
   ([xea;x99;x85],[xea;x99;x84]); ([xea;x99;x87],[xea;x99;x86]); ([xea;x99;x89],[xea;x99;x88]);
   ([xea;x99;x8b],[xea;x99;x8a]); ([xea;x99;x8d],[xea;x99;x8c]); ([xea;x99;x8f],[xea;x99;x8e]);
   ([xea;x99;x91],[xea;x99;x90]); ([xea;x99;x93],[xea;x99;x92]); ([xea;x99;x95],[xea;x99;x94]);
   ([xea;x99;x97],[xea;x99;x96]); ([xea;x99;x99],[xea;x99;x98]); ([xea;x99;x9b],[xea;x99;x9a]);
   ([xea;x99;x9d],[xea;x99;x9c]); ([xea;x99;x9f],[xea;x99;x9e]); ([xea;x99;xa1],[xea;x99;xa0]);
   ([xea;x99;xa3],[xea;x99;xa2]); ([xea;x99;xa5],[xea;x99;xa4]); ([xea;x99;xa7],[xea;x99;xa6]);
   ([xea;x99;xa9],[xea;x99;xa8]); ([xea;x99;xab],[xea;x99;xaa]); ([xea;x99;xad],[xea;x99;xac]);
   ([xea;x9a;x81],[xea;x9a;x80]); ([xea;x9a;x83],[xea;x9a;x82]); ([xea;x9a;x85],[xea;x9a;x84]);
   ([xea;x9a;x87],[xea;x9a;x86]); ([xea;x9a;x89],[xea;x9a;x88]); ([xea;x9a;x8b],[xea;x9a;x8a]);
   ([xea;x9a;x8d],[xea;x9a;x8c]); ([xea;x9a;x8f],[xea;x9a;x8e]); ([xea;x9a;x91],[xea;x9a;x90]);
   ([xea;x9a;x93],[xea;x9a;x92]); ([xea;x9a;x95],[xea;x9a;x94]); ([xea;x9a;x97],[xea;x9a;x96]);
   ([xea;x9a;x99],[xea;x9a;x98]); ([xea;x9a;x9b],[xea;x9a;x9a]); ([xea;x9c;xa3],[xea;x9c;xa2]);
   ([xea;x9c;xa5],[xea;x9c;xa4]); ([xea;x9c;xa7],[xea;x9c;xa6]); ([xea;x9c;xa9],[xea;x9c;xa8]);
   ([xea;x9c;xab],[xea;x9c;xaa]); ([xea;x9c;xad],[xea;x9c;xac]); ([xea;x9c;xaf],[xea;x9c;xae]);
   ([xea;x9c;xb3],[xea;x9c;xb2]); ([xea;x9c;xb5],[xea;x9c;xb4]); ([xea;x9c;xb7],[xea;x9c;xb6]);
   ([xea;x9c;xb9],[xea;x9c;xb8]); ([xea;x9c;xbb],[xea;x9c;xba]); ([xea;x9c;xbd],[xea;x9c;xbc]);
   ([xea;x9c;xbf],[xea;x9c;xbe]); ([xea;x9d;x81],[xea;x9d;x80]); ([xea;x9d;x83],[xea;x9d;x82]);
   ([xea;x9d;x85],[xea;x9d;x84]); ([xea;x9d;x87],[xea;x9d;x86]); ([xea;x9d;x89],[xea;x9d;x88]);
   ([xea;x9d;x8b],[xea;x9d;x8a]); ([xea;x9d;x8d],[xea;x9d;x8c]); ([xea;x9d;x8f],[xea;x9d;x8e]);
   ([xea;x9d;x91],[xea;x9d;x90]); ([xea;x9d;x93],[xea;x9d;x92]); ([xea;x9d;x95],[xea;x9d;x94]);
   ([xea;x9d;x97],[xea;x9d;x96]); ([xea;x9d;x99],[xea;x9d;x98]); ([xea;x9d;x9b],[xea;x9d;x9a]);
   ([xea;x9d;x9d],[xea;x9d;x9c]); ([xea;x9d;x9f],[xea;x9d;x9e]); ([xea;x9d;xa1],[xea;x9d;xa0]);
   ([xea;x9d;xa3],[xea;x9d;xa2]); ([xea;x9d;xa5],[xea;x9d;xa4]); ([xea;x9d;xa7],[xea;x9d;xa6]);
   ([xea;x9d;xa9],[xea;x9d;xa8]); ([xea;x9d;xab],[xea;x9d;xaa]); ([xea;x9d;xad],[xea;x9d;xac]);
   ([xea;x9d;xaf],[xea;x9d;xae]); ([xea;x9d;xba],[xea;x9d;xb9]); ([xea;x9d;xbc],[xea;x9d;xbb]);
   ([xea;x9d;xbf],[xea;x9d;xbe]); ([xea;x9e;x81],[xea;x9e;x80]); ([xea;x9e;x83],[xea;x9e;x82]);
   ([xea;x9e;x85],[xea;x9e;x84]); ([xea;x9e;x87],[xea;x9e;x86]); ([xea;x9e;x8c],[xea;x9e;x8b]);
   ([xea;x9e;x91],[xea;x9e;x90]); ([xea;x9e;x93],[xea;x9e;x92]); ([xea;x9e;x94],[xea;x9f;x84]);
   ([xea;x9e;x97],[xea;x9e;x96]); ([xea;x9e;x99],[xea;x9e;x98]); ([xea;x9e;x9b],[xea;x9e;x9a]);
   ([xea;x9e;x9d],[xea;x9e;x9c]); ([xea;x9e;x9f],[xea;x9e;x9e]); ([xea;x9e;xa1],[xea;x9e;xa0]);
   ([xea;x9e;xa3],[xea;x9e;xa2]); ([xea;x9e;xa5],[xea;x9e;xa4]); ([xea;x9e;xa7],[xea;x9e;xa6]);
   ([xea;x9e;xa9],[xea;x9e;xa8]); ([xea;x9e;xb5],[xea;x9e;xb4]); ([xea;x9e;xb7],[xea;x9e;xb6]);
   ([xea;x9e;xb9],[xea;x9e;xb8]); ([xea;x9e;xbb],[xea;x9e;xba]); ([xea;x9e;xbd],[xea;x9e;xbc]);
   ([xea;x9e;xbf],[xea;x9e;xbe]); ([xea;x9f;x81],[xea;x9f;x80]); ([xea;x9f;x83],[xea;x9f;x82]);
   ([xea;x9f;x88],[xea;x9f;x87]); ([xea;x9f;x8a],[xea;x9f;x89]); ([xea;x9f;x91],[xea;x9f;x90]);
   ([xea;x9f;x97],[xea;x9f;x96]); ([xea;x9f;x99],[xea;x9f;x98]); ([xea;x9f;xb6],[xea;x9f;xb5]);
   ([xea;xad;x93],[xea;x9e;xb3]); ([xea;xad;xb0],[xe1;x8e;xa0]); ([xea;xad;xb1],[xe1;x8e;xa1]);
   ([xea;xad;xb2],[xe1;x8e;xa2]); ([xea;xad;xb3],[xe1;x8e;xa3]); ([xea;xad;xb4],[xe1;x8e;xa4]);
   ([xea;xad;xb5],[xe1;x8e;xa5]); ([xea;xad;xb6],[xe1;x8e;xa6]); ([xea;xad;xb7],[xe1;x8e;xa7]);
   ([xea;xad;xb8],[xe1;x8e;xa8]); ([xea;xad;xb9],[xe1;x8e;xa9]); ([xea;xad;xba],[xe1;x8e;xaa]);
   ([xea;xad;xbb],[xe1;x8e;xab]); ([xea;xad;xbc],[xe1;x8e;xac]); ([xea;xad;xbd],[xe1;x8e;xad]);
   ([xea;xad;xbe],[xe1;x8e;xae]); ([xea;xad;xbf],[xe1;x8e;xaf]); ([xea;xae;x80],[xe1;x8e;xb0]);
   ([xea;xae;x81],[xe1;x8e;xb1]); ([xea;xae;x82],[xe1;x8e;xb2]); ([xea;xae;x83],[xe1;x8e;xb3]);
   ([xea;xae;x84],[xe1;x8e;xb4]); ([xea;xae;x85],[xe1;x8e;xb5]); ([xea;xae;x86],[xe1;x8e;xb6]);
   ([xea;xae;x87],[xe1;x8e;xb7]); ([xea;xae;x88],[xe1;x8e;xb8]); ([xea;xae;x89],[xe1;x8e;xb9]);
   ([xea;xae;x8a],[xe1;x8e;xba]); ([xea;xae;x8b],[xe1;x8e;xbb]); ([xea;xae;x8c],[xe1;x8e;xbc]);
   ([xea;xae;x8d],[xe1;x8e;xbd]); ([xea;xae;x8e],[xe1;x8e;xbe]); ([xea;xae;x8f],[xe1;x8e;xbf]);
   ([xea;xae;x90],[xe1;x8f;x80]); ([xea;xae;x91],[xe1;x8f;x81]); ([xea;xae;x92],[xe1;x8f;x82]);
   ([xea;xae;x93],[xe1;x8f;x83]); ([xea;xae;x94],[xe1;x8f;x84]); ([xea;xae;x95],[xe1;x8f;x85]);
   ([xea;xae;x96],[xe1;x8f;x86]); ([xea;xae;x97],[xe1;x8f;x87]); ([xea;xae;x98],[xe1;x8f;x88]);
   ([xea;xae;x99],[xe1;x8f;x89]); ([xea;xae;x9a],[xe1;x8f;x8a]); ([xea;xae;x9b],[xe1;x8f;x8b]);
   ([xea;xae;x9c],[xe1;x8f;x8c]); ([xea;xae;x9d],[xe1;x8f;x8d]); ([xea;xae;x9e],[xe1;x8f;x8e]);
   ([xea;xae;x9f],[xe1;x8f;x8f]); ([xea;xae;xa0],[xe1;x8f;x90]); ([xea;xae;xa1],[xe1;x8f;x91]);
   ([xea;xae;xa2],[xe1;x8f;x92]); ([xea;xae;xa3],[xe1;x8f;x93]); ([xea;xae;xa4],[xe1;x8f;x94]);
   ([xea;xae;xa5],[xe1;x8f;x95]); ([xea;xae;xa6],[xe1;x8f;x96]); ([xea;xae;xa7],[xe1;x8f;x97]);
   ([xea;xae;xa8],[xe1;x8f;x98]); ([xea;xae;xa9],[xe1;x8f;x99]); ([xea;xae;xaa],[xe1;x8f;x9a]);
   ([xea;xae;xab],[xe1;x8f;x9b]); ([xea;xae;xac],[xe1;x8f;x9c]); ([xea;xae;xad],[xe1;x8f;x9d]);
   ([xea;xae;xae],[xe1;x8f;x9e]); ([xea;xae;xaf],[xe1;x8f;x9f]); ([xea;xae;xb0],[xe1;x8f;xa0]);
   ([xea;xae;xb1],[xe1;x8f;xa1]); ([xea;xae;xb2],[xe1;x8f;xa2]); ([xea;xae;xb3],[xe1;x8f;xa3]);
   ([xea;xae;xb4],[xe1;x8f;xa4]); ([xea;xae;xb5],[xe1;x8f;xa5]); ([xea;xae;xb6],[xe1;x8f;xa6]);
   ([xea;xae;xb7],[xe1;x8f;xa7]); ([xea;xae;xb8],[xe1;x8f;xa8]); ([xea;xae;xb9],[xe1;x8f;xa9]);
   ([xea;xae;xba],[xe1;x8f;xaa]); ([xea;xae;xbb],[xe1;x8f;xab]); ([xea;xae;xbc],[xe1;x8f;xac]);
   ([xea;xae;xbd],[xe1;x8f;xad]); ([xea;xae;xbe],[xe1;x8f;xae]); ([xea;xae;xbf],[xe1;x8f;xaf]);
   ([xef;xac;x80],[x46;x46]); ([xef;xac;x81],[x46;x49]); ([xef;xac;x82],[x46;x4c]);
   ([xef;xac;x83],[x46;x46;x49]); ([xef;xac;x84],[x46;x46;x4c]); ([xef;xac;x85],[x53;x54]);
   ([xef;xac;x86],[x53;x54]); ([xef;xac;x93],[xd5;x84;xd5;x86]);
   ([xef;xac;x94],[xd5;x84;xd4;xb5]); ([xef;xac;x95],[xd5;x84;xd4;xbb]);
   ([xef;xac;x96],[xd5;x8e;xd5;x86]); ([xef;xac;x97],[xd5;x84;xd4;xbd]);
   ([xef;xbd;x81],[xef;xbc;xa1]); ([xef;xbd;x82],[xef;xbc;xa2]); ([xef;xbd;x83],[xef;xbc;xa3]);
   ([xef;xbd;x84],[xef;xbc;xa4]); ([xef;xbd;x85],[xef;xbc;xa5]); ([xef;xbd;x86],[xef;xbc;xa6]);
   ([xef;xbd;x87],[xef;xbc;xa7]); ([xef;xbd;x88],[xef;xbc;xa8]); ([xef;xbd;x89],[xef;xbc;xa9]);
   ([xef;xbd;x8a],[xef;xbc;xaa]); ([xef;xbd;x8b],[xef;xbc;xab]); ([xef;xbd;x8c],[xef;xbc;xac]);
   ([xef;xbd;x8d],[xef;xbc;xad]); ([xef;xbd;x8e],[xef;xbc;xae]); ([xef;xbd;x8f],[xef;xbc;xaf]);
   ([xef;xbd;x90],[xef;xbc;xb0]); ([xef;xbd;x91],[xef;xbc;xb1]); ([xef;xbd;x92],[xef;xbc;xb2]);
   ([xef;xbd;x93],[xef;xbc;xb3]); ([xef;xbd;x94],[xef;xbc;xb4]); ([xef;xbd;x95],[xef;xbc;xb5]);
   ([xef;xbd;x96],[xef;xbc;xb6]); ([xef;xbd;x97],[xef;xbc;xb7]); ([xef;xbd;x98],[xef;xbc;xb8]);
   ([xef;xbd;x99],[xef;xbc;xb9]); ([xef;xbd;x9a],[xef;xbc;xba])].

Fixpoint lookup (u : string) (pairs : list (list byte * list byte)) : option string :=
  match pairs with
  | [] => None
  | (k, v) :: rest =>
      if u =? string_of_list_byte k then Some (string_of_list_byte v) else lookup u rest
  end.

End Unicode.

(** ** The JavaScript string primitives the generator uses *)

Module JS.

(** [s.startsWith(pat)] *)
Fixpoint startsWith (s pat : string) {struct pat} : bool :=
  match pat with
  | EmptyString => true
  | String a pat' =>
      match s with
      | EmptyString => false
      | String b s' => Ascii.eqb a b && startsWith s' pat'
      end
  end.

(** The first [n] bytes of a text, and the text without them. *)
Fixpoint take (n : nat) (s : string) : string :=
  match n with
  | O => EmptyString
  | S n' =>
      match s with
      | EmptyString => EmptyString
      | String c s' => String c (take n' s')
      end
  end.

Fixpoint skip (n : nat) (s : string) : string :=
  match n with
  | O => s
  | S n' =>
      match s with
      | EmptyString => EmptyString
      | String _ s' => skip n' s'
      end
  end.

(** The number of bytes of the character that a byte opens: one for an
    ASCII character, two or three for the other characters of the Basic
    Multilingual Plane, four beyond it. *)
Definition unitWidth (lead : ascii) : nat :=
  if (nat_of_ascii lead <? 192)%nat then 1
  else if (nat_of_ascii lead <? 224)%nat then 2
  else if (nat_of_ascii lead <? 240)%nat then 3
  else 4.

(** The first UTF-16 unit of a text and the text after it.  A character
    beyond the Basic Multilingual Plane is two units, the halves of a
    surrogate pair; a half has no UTF-8 form and no case mapping, and the
    four bytes of the character are kept together as the first unit. *)
Definition firstUnit (s : string) : string :=
  match s with
  | EmptyString => EmptyString
  | String c s' => String c (take (unitWidth c - 1) s')
  end.

Definition afterFirstUnit (s : string) : string :=
  match s with
  | EmptyString => EmptyString
  | String c s' => skip (unitWidth c - 1) s'
  end.

(** [s.charAt(i)]: the unit at index [i], the empty string out of
    range. *)
Fixpoint charAt (s : string) (i : nat) : string :=
  match i with
  | O => firstUnit s
  | S i' => charAt (afterFirstUnit s) i'
  end.

(** [s.slice(start)] for a non-negative [start]. *)
Fixpoint slice (s : string) (start : nat) : string :=
  match start with
  | O => s
  | S start' => slice (afterFirstUnit s) start'
  end.

Definition is_lower (c : ascii) : bool :=
  ((nat_of_ascii "a"%char <=? nat_of_ascii c) && (nat_of_ascii c <=? nat_of_ascii "z"%char))%nat.

Definition is_upper (c : ascii) : bool :=
  ((nat_of_ascii "A"%char <=? nat_of_ascii c) && (nat_of_ascii c <=? nat_of_ascii "Z"%char))%nat.

Definition upper_char (c : ascii) : ascii :=
  if is_lower c then ascii_of_nat (nat_of_ascii c - 32) else c.

Definition lower_char (c : ascii) : ascii :=
  if is_upper c then ascii_of_nat (nat_of_ascii c + 32) else c.

Fixpoint map_chars (f : ascii -> ascii) (s : string) : string :=
  match s with
  | EmptyString => EmptyString
  | String c s' => String (f c) (map_chars f s')
  end.

(** The case mappings of one unit: the ASCII letters change case, a
    character of the tables gets its mapping, every other unit is kept. *)
Definition upperUnit (u : string) : string :=
  match u with
  | EmptyString => EmptyString
  | String c EmptyString => String (upper_char c) EmptyString
  | _ =>
      match Unicode.lookup u Unicode.upperPairs with
      | Some v => v
      | None => u
      end
  end.

Definition lowerUnit (u : string) : string :=
  match u with
  | EmptyString => EmptyString
  | String c EmptyString => String (lower_char c) EmptyString
  | _ =>
      match Unicode.lookup u Unicode.lowerPairs with
      | Some v => v
      | None => u
      end
  end.

Fixpoint mapUnits (f : string -> string) (fuel : nat) (s : string) : string :=
  match fuel with
  | O => EmptyString
  | S fuel' =>
      match s with
      | EmptyString => EmptyString
      | String _ _ => f (firstUnit s) ++ mapUnits f fuel' (afterFirstUnit s)
      end
  end.

(** [s.toUpperCase()] and [s.toLowerCase()], unit by unit; the generator
    calls them on the text of one unit that [charAt] returns.  The
    source leaves the half of a surrogate pair as it is, and so are the
    four bytes of a character beyond the Basic Multilingual Plane
    here. *)
Definition toUpperCase (s : string) : string := mapUnits upperUnit (String.length s) s.
Definition toLowerCase (s : string) : string := mapUnits lowerUnit (String.length s) s.

(** [s.indexOf(pat)]: the index of the first occurrence, [-1] if there is
    none. *)
Fixpoint indexOf_from (pos : nat) (s pat : string) : Z :=
  if startsWith s pat then Z.of_nat pos
  else match s with
       | EmptyString => (-1)%Z
       | String _ s' => indexOf_from (S pos) s' pat
       end.

Definition indexOf (s pat : string) : Z := indexOf_from 0 s pat.

(** [s.substring(start, end)]: both indices are clamped to
    [0 .. s.length] and swapped when [start > end]. *)
Definition clamp (len : nat) (i : Z) : nat :=
  Nat.min (Z.to_nat i) len.

Definition substring (s : string) (start end_ : Z) : string :=
  let a := clamp (String.length s) start in
  let b := clamp (String.length s) end_ in
  let lo := Nat.min a b in
  let hi := Nat.max a b in
  String.substring lo (hi - lo) s.

(** [s.replace(/\//g, '.')] *)
Definition replace_slashes (s : string) : string :=
  map_chars (fun c => if Ascii.eqb c "/"%char then "."%char else c) s.

(** A value interpolated into a template literal: an absent value
    ([undefined]) is rendered as the text [undefined]. *)
Definition interpolate (v : option string) : string :=
  match v with
  | Some s => s
  | None => "undefined"
  end.

(** [Buffer.from(text, 'utf8')] and [buffer.toString('utf8')] on a text
    given by its bytes. *)
Definition Buffer := list byte.
Definition Buffer_from (text : string) : Buffer := list_byte_of_string text.
Definition Buffer_toString (b : Buffer) : string := string_of_list_byte b.

End JS.

(** ** The path helpers of Node's [posix] module

    [basename] is the last non-empty segment of a path; [extname] is the
    part of that segment from its last dot on, empty when the segment has
    no dot after its first character or is [..]. *)

Module Posix.

Fixpoint basename_scan (s cur last : string) : string :=
  match s with
  | EmptyString => if (String.length cur =? 0)%nat then last else cur
  | String c s' =>
      if Ascii.eqb c "/"%char
      then basename_scan s' "" (if (String.length cur =? 0)%nat then last else cur)
      else basename_scan s' (cur ++ String c "") last
  end.

Definition basename (path : string) : string := basename_scan path "" "".

Fixpoint last_dot_suffix (s : string) : option string :=
  match s with
  | EmptyString => None
  | String c s' =>
      match last_dot_suffix s' with
      | Some e => Some e
      | None => if Ascii.eqb c "."%char then Some s else None
      end
  end.

Definition extname (path : string) : string :=
  match basename path with
  | EmptyString => ""
  | String c rest =>
      if String c rest =? ".." then ""
      else match last_dot_suffix rest with
           | Some e => e
           | None => ""
           end
  end.

End Posix.

(** ** Data model *)

(** Modelled from the spec: the declarations of [types.ts] (the shape of a
    class descriptor, of a method signature and of a parameter).  The two
    sequences of a descriptor, its generic clause and the parameters of a
    method may be absent ([undefined]); the generator tests the sequences
    for presence before it reads them. *)
Record JavaParameter : Type := mkParameter {
  paramType : string;
  paramName : string
}.

Record JavaMethod : Type := mkMethod {
  methodName : string;
  returnType : string;
  parameters : option (list JavaParameter)
}.

Record JavaClass : Type := mkClass {
  className : string;
  accessModifier : string;
  classParameters : option string;
  constructorParameters : option (list JavaParameter);
  publicMethods : option (list JavaMethod)
}.

(** The two views of a [vscode.Uri] the generator reads. *)
Record Uri : Type := mkUri {
  path : string;
  fsPath : string
}.

(** [xs && xs.length > 0] *)
Definition nonEmpty {A : Type} (xs : option (list A)) : bool :=
  match xs with
  | Some (_ :: _) => true
  | _ => false
  end.

(** The elements a [for (const x of xs)] loop visits. *)
Definition elements {A : Type} (xs : option (list A)) : list A :=
  match xs with
  | Some l => l
  | None => []
  end.

(** [s.length] as a condition. *)
Definition hasLength (s : string) : bool := negb (String.length s =? 0)%nat.

(** ** The generator *)

Definition capitalizeFirstLetter (s : string) : string :=
  JS.toUpperCase (JS.charAt s 0) ++ JS.slice s 1.

Definition lowercaseFirstLetter (s : string) : string :=
  JS.toLowerCase (JS.charAt s 0) ++ JS.slice s 1.

Definition generateEmptyClassContent (packageName className : string) : JS.Buffer :=
  let classContent := "" in
  let classContent :=
    if hasLength packageName
    then "package " ++ packageName ++ lit ";\n\n"
    else classContent in
  let classContent := classContent ++ "public class " ++ className ++ lit " {\n\t\n}" in
  JS.Buffer_from classContent.

Definition createPackageNameFromUri (uri : Uri) (filename : option string) (isTest : bool) : string :=
  let pathPrefix := if isTest then "/src/test/java" else "/src/main/java" in
  let startIndex := (JS.indexOf (fsPath uri) pathPrefix + 15)%Z in
  let endIndex := Z.of_nat (String.length (path uri)) in
  let extension := Posix.extname (path uri) in
  if hasLength extension then
    let filename :=
      match filename with
      | Some f => if hasLength f then f else Posix.basename (path uri)
      | None => Posix.basename (path uri)
      end in
    let endIndex := (JS.indexOf (fsPath uri) filename - 1)%Z in
    if (startIndex >=? endIndex)%Z then ""
    else JS.replace_slashes (JS.substring (fsPath uri) startIndex endIndex)
  else JS.replace_slashes (JS.substring (fsPath uri) startIndex endIndex).

(** The body of the loop over the constructor parameters; the state is
    the pair of [constructorArgs] and [testClassContent]. *)
Definition constructorParameterStep (st : string * string) (param : JavaParameter) : string * string :=
  let '(constructorArgs, testClassContent) := st in
  let attributeName := lowercaseFirstLetter (paramName param) in
  let constructorArgs :=
    if hasLength constructorArgs
    then constructorArgs ++ ", " ++ attributeName
    else attributeName in
  (constructorArgs,
   testClassContent ++ lit "\t@Mock\n\tprivate " ++ paramType param ++ " " ++ attributeName ++ lit ";\n").

(** The body of the loop over the parameters of a method; the state is
    the pair of [methodArgs] and [testClassContent]. *)
Definition methodParameterStep (st : string * string) (param : JavaParameter) : string * string :=
  let '(methodArgs, testClassContent) := st in
  let testClassContent :=
    testClassContent ++ lit "\t\t" ++ paramType param ++ " " ++ paramName param ++ lit ";\n" in
  let methodArgs :=
    if hasLength methodArgs
    then methodArgs ++ ", " ++ paramName param
    else paramName param in
  (methodArgs, testClassContent).

(** The body of the loop over the public methods. *)
Definition publicMethodStep (varName : string) (testClassContent : string) (method : JavaMethod) : string :=
  let testClassContent :=
    testClassContent ++ lit "\n\t@Test\n\tpublic void should"
      ++ capitalizeFirstLetter (methodName method) ++ lit "() {\n" in
  let '(methodArgs, testClassContent) :=
    if nonEmpty (parameters method) then
      let testClassContent := testClassContent ++ lit "\t\t// TODO: initialize args\n" in
      let '(methodArgs, testClassContent) :=
        fold_left methodParameterStep (elements (parameters method)) ("", testClassContent) in
      (methodArgs, testClassContent ++ lit "\n")
    else ("", testClassContent) in
  let testClassContent :=
    if negb (returnType method =? "void")
    then testClassContent ++ lit "\t\t" ++ returnType method ++ " actualValue = "
    else testClassContent ++ lit "\t\t" in
  testClassContent ++ varName ++ "." ++ methodName method ++ "(" ++ methodArgs
    ++ lit ");\n\n\t\t// TODO: assert scenario\n\t}\n".

Definition createTestClass (javaClass : JavaClass) : string :=
  let varName := lowercaseFirstLetter (className javaClass) in
  let testClassContent :=
    lit "\n@RunWith(MockitoJUnitRunner.class)\n" ++ accessModifier javaClass
      ++ "class " ++ className javaClass ++ lit "Test {\n" in
  let '(constructorArgs, testClassContent) :=
    if nonEmpty (constructorParameters javaClass)
    then fold_left constructorParameterStep (elements (constructorParameters javaClass))
           ("", testClassContent)
    else ("", testClassContent) in
  let testClassContent :=
    testClassContent ++ lit "\n\tprivate " ++ className javaClass
      ++ JS.interpolate (classParameters javaClass) ++ " " ++ varName
      ++ lit ";\n\n\t@Before\n\tpublic void setup() {\n\t\tthis." ++ varName
      ++ " = new " ++ className javaClass ++ JS.interpolate (classParameters javaClass)
      ++ "(" ++ constructorArgs ++ lit ");\n\t}\n" in
  let testClassContent :=
    if nonEmpty (publicMethods javaClass)
    then fold_left (publicMethodStep varName) (elements (publicMethods javaClass)) testClassContent
    else testClassContent
           ++ lit "\t@Test\n\tpublic void shouldCompile() {\n\t\tassertThat(\qActual value\q, is(\qExpected value\q));\n\t}\n" in
  testClassContent ++ lit "}\n".

Definition createDefaultTestClass (javaClassName testClassName : string) : string :=
  lit "\npublic class " ++ testClassName
    ++ lit " {\n\tprivate " ++ javaClassName
    ++ lit " cut;\n\n\t@Before\n\tpublic void setup() {\n\t\tthis.cut = new " ++ javaClassName
    ++ lit "();\n\t}\n\n\t@Test\n\tpublic void shouldCompile() {\n\t\tassertThat(\qActual value\q, is(\qExpected value\q));\n\t}\n}".

Definition createDefaultImports : string :=
  lit "\n\nimport static org.hamcrest.Matchers.*;\nimport static org.junit.Assert.assertEquals;\nimport static org.junit.Assert.assertThat;\nimport static org.mockito.Mockito.*;\nimport org.hamcrest.CoreMatchers;\nimport org.junit.After;\nimport org.junit.Before;\nimport org.junit.Test;\nimport org.junit.runner.RunWith;\nimport org.mockito.ArgumentCaptor;\nimport org.mockito.Mock;\nimport org.mockito.junit.MockitoJUnitRunner;\n".

Definition generateTestClassPackageDeclaration (testFileUri : Uri) (testClassName : string) : string :=
  let packageName := createPackageNameFromUri testFileUri (Some testClassName) true in
  if negb (hasLength packageName) then ""
  else "package " ++ packageName ++ ";".

Definition generateTargetTestClassPackageImport (javaFileUri : Uri) (javaClassName : string) : string :=
  let packageName := createPackageNameFromUri javaFileUri (Some javaClassName) false in
  if negb (hasLength packageName) then ""
  else "import " ++ packageName ++ "." ++ javaClassName ++ ";".

(** The selection of the class to render, inside
    [generateTestClassFileContent]: the first descriptor whose modifier
    starts with [public]; if there is none, the first descriptor of the
    array, whose [accessModifier] is overwritten in place.  The result is
    the selected descriptor with the array as the selection leaves it. *)
Definition isPublic (c : JavaClass) : bool := JS.startsWith (accessModifier c) "public".

Definition setAccessModifier (c : JavaClass) (m : string) : JavaClass :=
  mkClass (className c) m (classParameters c) (constructorParameters c) (publicMethods c).

Definition selectPublicClass (javaClasses : list JavaClass) : option (JavaClass * list JavaClass) :=
  match find isPublic javaClasses with
  | Some publicClass => Some (publicClass, javaClasses)
  | None =>
      match javaClasses with
      | first :: others =>
          let publicClass := setAccessModifier first "public " in
          Some (publicClass, publicClass :: others)
      | [] => None
      end
  end.

Section Generation.

(** The class parser is a collaborator: it maps a file to the
    descriptors of the classes declared there. *)
Variable parseJavaClassesFromFile : Uri -> option (list JavaClass).

(** The result is the buffer together with the descriptor array as the
    call leaves it. *)
Definition generateTestClassFileContent
    (javaFileUri : Uri) (javaClassName : string)
    (testFileUri : Uri) (testClassName : string)
  : JS.Buffer * option (list JavaClass) :=
  let packageDeclaration := generateTestClassPackageDeclaration testFileUri testClassName in
  let javaClasses := parseJavaClassesFromFile javaFileUri in
  let fileContent := packageDeclaration ++ createDefaultImports in
  if nonEmpty javaClasses then
    match selectPublicClass (elements javaClasses) with
    | Some (publicClass, javaClasses') =>
        (JS.Buffer_from (fileContent ++ createTestClass publicClass), Some javaClasses')
    | None => (JS.Buffer_from fileContent, javaClasses)
    end
  else
    (JS.Buffer_from (fileContent ++ createDefaultTestClass javaClassName testClassName),
     javaClasses).

End Generation.

(** ** The location of the test file *)

(** [s.replace(pat, rep)] for a text [pat] and a replacement without
    [$]: the first occurrence of [pat] is replaced. *)
Fixpoint replaceFirst (s pat rep : string) : string :=
  if JS.startsWith s pat then rep ++ JS.skip (String.length pat) s
  else match s with
       | EmptyString => EmptyString
       | String c s' => String c (replaceFirst s' pat rep)
       end.

(** [posix.join] and [posix.normalize] of Node.  A path is cut into the
    segments between its slashes; empty segments and [.] are dropped, and
    [..] removes the segment before it, or is kept at the head of a
    relative path that has no segment left to remove. *)
Module PosixPath.

Fixpoint segments_scan (s cur : string) : list string :=
  match s with
  | EmptyString => [cur]
  | String c s' =>
      if Ascii.eqb c "/"%char
      then cur :: segments_scan s' ""
      else segments_scan s' (cur ++ String c "")
  end.

Definition segments (path : string) : list string := segments_scan path "".

Definition normalizeStep (allowAboveRoot : bool) (res : list string) (segment : string)
  : list string :=
  if (segment =? "") || (segment =? ".") then res
  else if segment =? ".." then
    match res with
    | [] => if allowAboveRoot then [".."] else []
    | _ :: _ =>
        if last res "" =? ".."
        then (if allowAboveRoot then res ++ [".."] else res)%list
        else removelast res
    end
  else (res ++ [segment])%list.

Fixpoint endsWithSlash (s : string) : bool :=
  match s with
  | EmptyString => false
  | String c EmptyString => Ascii.eqb c "/"%char
  | String _ s' => endsWithSlash s'
  end.

Definition normalize (path : string) : string :=
  if negb (hasLength path) then "."
  else
    let isAbsolute := JS.startsWith path "/" in
    let trailingSeparator := endsWithSlash path in
    let res := String.concat "/" (fold_left (normalizeStep (negb isAbsolute)) (segments path) []) in
    if negb (hasLength res) then
      (if isAbsolute then "/" else if trailingSeparator then "./" else ".")
    else
      (if isAbsolute then "/" else "") ++ res ++ (if trailingSeparator then "/" else "").

Definition join (args : list string) : string :=
  match filter hasLength args with
  | [] => "."
  | parts => normalize (String.concat "/" parts)
  end.

End PosixPath.

Section TestFileUri.

(** [uri.with({ path })]: the uri with another path. *)
Variable withPath : Uri -> string -> Uri.

Definition getTestFileUri (javaFileUri : Uri) (testClassName : string) : Uri :=
  let testPath := replaceFirst (path javaFileUri) "/src/main/java" "/src/test/java" in
  let testFilePath := PosixPath.join [testPath; ".."; testClassName ++ ".java"] in
  withPath javaFileUri testFilePath.

End TestFileUri.


(** * Vocabulary of the properties

    The notions the properties of the generator are stated with: the
    occurrences of a text in a text, the pieces of the generated class,
    the texts free of annotations, the lines of the templates, and the
    descriptors the properties are tried on. *)

(** ** Occurrences of a text in a text *)

(** The number of positions of [s] at which [pat] starts. *)
Fixpoint occurrences (pat s : string) : nat :=
  match s with
  | EmptyString => 0
  | String _ s' => (if JS.startsWith s pat then 1 else 0) + occurrences pat s'
  end.

(** [contains pat s]: [pat] occurs in [s]. *)
Definition contains (pat s : string) : Prop :=
  exists before after, s = before ++ pat ++ after.

(** [t] is a prefix of [p] and shorter than [p]. *)
Fixpoint strictPrefix (t p : string) : bool :=
  match t, p with
  | EmptyString, EmptyString => false
  | EmptyString, String _ _ => true
  | String _ _, EmptyString => false
  | String a t', String b p' => Ascii.eqb b a && strictPrefix t' p'
  end.

(** No occurrence of [p] can start inside [l] and end after it. *)
Fixpoint boundarySafe (p l : string) : bool :=
  match l with
  | EmptyString => true
  | String _ l' => negb (strictPrefix l p) && boundarySafe p l'
  end.

(** The character [a] does not occur in [s]. *)
Fixpoint charFree (a : ascii) (s : string) : bool :=
  match s with
  | EmptyString => true
  | String c s' => negb (Ascii.eqb a c) && charFree a s'
  end.

(** ** The pieces of the generated class

    The pieces of the generated text, named after what they render.  The
    generator builds the text by appending to an accumulator inside its
    loops; the layout lemmas show that the accumulated text is the
    concatenation of these pieces. *)

Definition concatAll (blocks : list string) : string :=
  fold_right append "" blocks.

(** The name with its first character lower-cased, every other
    character kept. *)
Definition firstLowered (s : string) : string :=
  JS.lowerUnit (JS.firstUnit s) ++ JS.afterFirstUnit s.

(** The name with its first character upper-cased, every other character
    kept. *)
Definition firstUppered (s : string) : string :=
  JS.upperUnit (JS.firstUnit s) ++ JS.afterFirstUnit s.

Definition attributeName (param : JavaParameter) : string :=
  firstLowered (paramName param).

(** One mock field. *)
Definition mockField (param : JavaParameter) : string :=
  lit "\t@Mock\n\tprivate " ++ paramType param ++ " " ++ attributeName param ++ lit ";\n".

(** The argument list the loops accumulate: one step of the accumulation
    and the whole of it. *)
Definition argsStep (args name : string) : string :=
  if hasLength args then args ++ ", " ++ name else name.

Definition collectArgs (names : list string) : string :=
  fold_left argsStep names "".

Definition classHeader (c : JavaClass) : string :=
  lit "\n@RunWith(MockitoJUnitRunner.class)\n" ++ accessModifier c
    ++ "class " ++ className c ++ lit "Test {\n".

(** The field holding the instance under test. *)
Definition instanceField (c : JavaClass) : string :=
  "private " ++ className c ++ JS.interpolate (classParameters c) ++ " "
    ++ firstLowered (className c) ++ ";".

(** The statement of the setup method. *)
Definition setupStatement (c : JavaClass) (args : string) : string :=
  "this." ++ firstLowered (className c) ++ " = new " ++ className c
    ++ JS.interpolate (classParameters c) ++ "(" ++ args ++ ");".

Definition instanceAndSetup (c : JavaClass) (args : string) : string :=
  lit "\n\t" ++ instanceField c ++ lit "\n\n\t@Before\n\tpublic void setup() {\n\t\t"
    ++ setupStatement c args ++ lit "\n\t}\n".

Definition localDeclaration (param : JavaParameter) : string :=
  lit "\t\t" ++ paramType param ++ " " ++ paramName param ++ lit ";\n".

Definition localDeclarations (m : JavaMethod) : string :=
  if nonEmpty (parameters m)
  then lit "\t\t// TODO: initialize args\n"
         ++ concatAll (map localDeclaration (elements (parameters m))) ++ lit "\n"
  else "".

Definition methodArgs (m : JavaMethod) : string :=
  collectArgs (map paramName (elements (parameters m))).

(** The call of the method under test, with the capture of its result
    when there is one. *)
Definition callStatement (varName : string) (m : JavaMethod) : string :=
  (if returnType m =? "void" then "" else returnType m ++ " actualValue = ")
    ++ varName ++ "." ++ methodName m ++ "(" ++ methodArgs m ++ ");".

Definition testMethodHeader (m : JavaMethod) : string :=
  lit "\n\t@Test\n\tpublic void should" ++ firstUppered (methodName m) ++ lit "() {\n".

(** One test method. *)
Definition testMethod (varName : string) (m : JavaMethod) : string :=
  testMethodHeader m ++ localDeclarations m ++ lit "\t\t" ++ callStatement varName m
    ++ lit "\n\n\t\t// TODO: assert scenario\n\t}\n".

(** The placeholder test. *)
Definition defaultTestMethod : string :=
  lit "\t@Test\n\tpublic void shouldCompile() {\n\t\tassertThat(\qActual value\q, is(\qExpected value\q));\n\t}\n".

Definition testsSection (c : JavaClass) : string :=
  if nonEmpty (publicMethods c)
  then concatAll (map (testMethod (firstLowered (className c))) (elements (publicMethods c)))
  else defaultTestMethod.

(** ** Plain texts

    A text is plain when the annotation marker [@] does not occur in it.
    In a class generated from plain texts the annotations are those of
    the templates. *)

Definition plain (s : string) : bool := charFree "@"%char s.

Definition plainParameter (p : JavaParameter) : bool :=
  plain (paramType p) && plain (paramName p).

Definition plainMethod (m : JavaMethod) : bool :=
  plain (methodName m) && plain (returnType m)
  && forallb plainParameter (elements (parameters m)).

Definition plainClass (c : JavaClass) : bool :=
  plain (className c) && plain (accessModifier c)
  && plain (JS.interpolate (classParameters c))
  && forallb plainParameter (elements (constructorParameters c))
  && forallb plainMethod (elements (publicMethods c)).

(** The number of tests a class descriptor gives rise to. *)
Definition expectedTests (c : JavaClass) : nat :=
  if nonEmpty (publicMethods c) then List.length (elements (publicMethods c)) else 1.

(** ** Lines of the templates *)

Definition tabs (n : nat) : string := concatAll (repeat (String TAB "") n).

(** A line of text at the given depth of indentation. *)
Definition line (depth : nat) (text : string) : string :=
  tabs depth ++ text ++ String NL "".

Definition quoted (text : string) : string :=
  String DQUOTE text ++ String DQUOTE "".

(** The placeholder assertion. *)
Definition placeholderAssertion : string :=
  "assertThat(" ++ quoted "Actual value" ++ ", is(" ++ quoted "Expected value" ++ "));".

(** ** Identifiers *)

(** The characters of a Java identifier. *)
Definition is_digit (c : ascii) : bool :=
  ((nat_of_ascii "0"%char <=? nat_of_ascii c) && (nat_of_ascii c <=? nat_of_ascii "9"%char))%nat.

Definition identifierChar (c : ascii) : bool :=
  JS.is_lower c || JS.is_upper c || is_digit c || Ascii.eqb c "_"%char || Ascii.eqb c "$"%char.

Fixpoint allChars (f : ascii -> bool) (s : string) : bool :=
  match s with
  | EmptyString => true
  | String c s' => f c && allChars f s'
  end.

Definition javaIdentifier (s : string) : bool :=
  hasLength s && allChars identifierChar s.

(** The text that opens the declaration of a field. *)
Definition fieldMarker : string := String TAB "private".

(** ** Selection, counts and descriptors of the examples *)

(** [c] is the first descriptor of [cs] whose modifier is public. *)
Definition firstPublic (cs : list JavaClass) (c : JavaClass) : Prop :=
  exists before after,
    cs = (before ++ c :: after)%list
    /\ isPublic c = true
    /\ Forall (fun d => isPublic d = false) before.

(** A package-private class without constructor and without public
    methods. *)
Definition helperClass : JavaClass := mkClass "Helper" "" (Some "") (Some []) (Some []).

(** The class of the spec's first scenario. *)
Definition calculatorClass : JavaClass :=
  mkClass "Calculator" "public " (Some "")
    (Some [mkParameter "Logger" "logger"])
    (Some [mkMethod "add" "int" (Some [mkParameter "int" "a"; mkParameter "int" "b"])]).

(** The tests of the generated class are as many as the public methods
    of the descriptor. *)
Definition testsMatchMethods (c : JavaClass) : Prop :=
  occurrences "@Test" (createTestClass c) = List.length (elements (publicMethods c)).

(** A service with two dependencies. *)
Definition orderService : JavaClass :=
  mkClass "OrderService" "public " (Some "")
    (Some [mkParameter "Repository" "Repo"; mkParameter "Clock" "clock"])
    None.

(** A service whose first constructor parameter has no name. *)
Definition unnamedParameterClass : JavaClass :=
  mkClass "Svc" "public " (Some "")
    (Some [mkParameter "Alpha" ""; mkParameter "Beta" "beta"])
    None.

(** A class with a method that returns a value and one that does not. *)
Definition counterClass : JavaClass :=
  mkClass "Counter" "public " (Some "") None
    (Some [mkMethod "get" "int" None; mkMethod "reset" "void" (Some [])]).

(** A descriptor without generic clause is rendered with an empty generic
    clause: the instance field is declared with the bare class name. *)
Definition absentClauseRendersEmpty (c : JavaClass) : Prop :=
  classParameters c = None ->
  contains (String TAB "private " ++ className c ++ " "
              ++ lowercaseFirstLetter (className c) ++ ";") (createTestClass c).

(** A descriptor that holds a name and a modifier only. *)
Definition bareClass : JavaClass := mkClass "Foo" "public " None None None.

(** A test file outside the source tree of tests. *)
Definition strayTestUri : Uri :=
  mkUri "/home/user/projects/myproject/FooTest.java"
        "/home/user/projects/myproject/FooTest.java".

(** ** Package paths *)

(** The marker of a source tree in a path. *)
Definition sourceRootMarker (isTest : bool) : string :=
  if isTest then "/src/test/java" else "/src/main/java".

(** [p] occurs in [s] right after [before], and nowhere earlier. *)
Definition firstOccurrence (p s before : string) : Prop :=
  (exists after, s = before ++ p ++ after)
  /\ (forall before' after', s = before' ++ p ++ after' ->
      String.length before <= String.length before').

(** ** Argument lists *)

(** The names from the first non-empty one on. *)
Fixpoint dropEmptyHead (names : list string) : list string :=
  match names with
  | [] => []
  | n :: rest => if hasLength n then names else dropEmptyHead rest
  end.

(** The declaration of a local variable for a parameter of the method
    under test. *)
Definition localVariable (p : JavaParameter) : string :=
  line 2 (paramType p ++ " " ++ paramName p ++ ";").

(** The capture of the result of a call. *)
Definition resultCapture (m : JavaMethod) : string :=
  if returnType m =? "void" then "" else returnType m ++ " actualValue = ".

(** ** Characters of the templates *)

(** The texts of a descriptor are free of the character [a]. *)
Definition parameterFreeOf (a : ascii) (p : JavaParameter) : bool :=
  charFree a (paramType p) && charFree a (paramName p).

Definition methodFreeOf (a : ascii) (m : JavaMethod) : bool :=
  charFree a (methodName m) && charFree a (returnType m)
  && forallb (parameterFreeOf a) (elements (parameters m)).

Definition classFreeOf (a : ascii) (c : JavaClass) : bool :=
  charFree a (className c) && charFree a (accessModifier c)
  && charFree a (JS.interpolate (classParameters c))
  && forallb (parameterFreeOf a) (elements (constructorParameters c))
  && forallb (methodFreeOf a) (elements (publicMethods c)).

(** The characters that structure the generated class: the marker of an
    annotation and the two braces. *)
Definition structuralChars : list ascii := ["@"%char; "{"%char; "}"%char].

(** The number of occurrences of a character. *)
Definition countChar (a : ascii) (s : string) : nat := occurrences (String a "") s.

(** ** Paths as lists of segments *)

(** A segment that names a file or a directory. *)
Definition cleanSegment (s : string) : bool :=
  hasLength s && negb (s =? ".") && negb (s =? "..") && charFree "/" s.

(** The absolute path through the given segments. *)
Definition dirPath (segs : list string) : string :=
  concatAll (map (fun s => "/" ++ s) segs).


(** * Lemmas *)

(** ** The primitives on examples *)

Example lit_example :
  lit "a\n\tb\q" = String "a" (String NL (String TAB (String "b" (String DQUOTE "")))).
Proof. reflexivity. Qed.

Example indexOf_example :
  JS.indexOf "/a/src/main/java/p/A.java" "/src/main/java" = 2%Z
  /\ JS.indexOf "/a/b" "/src/main/java" = (-1)%Z
  /\ JS.substring "abcdef" 4 2 = "cd"
  /\ JS.toUpperCase (JS.charAt "add" 0) ++ JS.slice "add" 1 = "Add".
Proof. repeat split; reflexivity. Qed.

Example posix_examples :
  Posix.basename "/a/b/FooTest.java" = "FooTest.java"
  /\ Posix.basename "/a/b/" = "b"
  /\ Posix.extname "/a/b/FooTest.java" = ".java"
  /\ Posix.extname "/a/b.c/java" = ""
  /\ Posix.extname "/a/.bashrc" = ""
  /\ Posix.extname "/a/.." = ""
  /\ Posix.extname "/a/x." = ".".
Proof. repeat split; reflexivity. Qed.

(** ** Facts about strings *)

Section StringFacts.

Lemma append_assoc (a b c : string) : (a ++ b) ++ c = a ++ b ++ c.
Proof. induction a as [|x a IH]; simpl; [reflexivity | now rewrite IH]. Qed.

Lemma append_nil_r (a : string) : a ++ "" = a.
Proof. induction a as [|x a IH]; simpl; [reflexivity | now rewrite IH]. Qed.

Lemma length_append (a b : string) :
  String.length (a ++ b) = String.length a + String.length b.
Proof. induction a as [|x a IH]; simpl; [reflexivity | now rewrite IH]. Qed.

Lemma hasLength_true (s : string) : hasLength s = true <-> s <> "".
Proof. destruct s; simpl; split; intros H; try easy. Qed.

Lemma hasLength_false (s : string) : hasLength s = false <-> s = "".
Proof. destruct s; simpl; split; intros H; easy. Qed.

Lemma hasLength_append (a b : string) : a <> "" -> hasLength (a ++ b) = true.
Proof. destruct a; [congruence | reflexivity]. Qed.

Lemma startsWith_append (s r : string) : JS.startsWith (s ++ r) s = true.
Proof.
  induction s as [|c s IH]; simpl; [reflexivity |].
  now rewrite Ascii.eqb_refl, IH.
Qed.

End StringFacts.

(** ** Counting across a concatenation *)

Section Occurrences.

Lemma startsWith_app_safe (p t r : string) :
  strictPrefix t p = false -> JS.startsWith (t ++ r) p = JS.startsWith t p.
Proof.
  revert t; induction p as [|a p IH]; intros t H; [reflexivity |].
  destruct t as [|b t]; simpl in *; [discriminate |].
  destruct (Ascii.eqb a b); simpl in *; [now apply IH | reflexivity].
Qed.

Lemma occurrences_app (p l r : string) :
  boundarySafe p l = true ->
  occurrences p (l ++ r) = occurrences p l + occurrences p r.
Proof.
  induction l as [|c l IH]; intros H; [reflexivity |].
  cbn [boundarySafe] in H. apply andb_true_iff in H as [H1 H2].
  apply negb_true_iff in H1.
  change (String c l ++ r) with (String c (l ++ r)).
  cbn [occurrences].
  change (String c (l ++ r)) with (String c l ++ r).
  rewrite (startsWith_app_safe _ _ _ H1), (IH H2). lia.
Qed.

Lemma charFree_app (a : ascii) (x y : string) :
  charFree a (x ++ y) = charFree a x && charFree a y.
Proof.
  induction x as [|c x IH]; simpl; [reflexivity |].
  now rewrite IH, andb_assoc.
Qed.

Lemma charFree_safe (a : ascii) (p s : string) :
  charFree a s = true -> boundarySafe (String a p) s = true.
Proof.
  induction s as [|c s IH]; intros H; [reflexivity |].
  cbn [charFree] in H. apply andb_true_iff in H as [H1 H2].
  cbn [boundarySafe strictPrefix].
  apply negb_true_iff in H1. rewrite H1. simpl. now apply IH.
Qed.

Lemma occurrences_free (a : ascii) (p s : string) :
  charFree a s = true -> occurrences (String a p) s = 0.
Proof.
  induction s as [|c s IH]; intros H; [reflexivity |].
  cbn [charFree] in H. apply andb_true_iff in H as [H1 H2].
  cbn [occurrences JS.startsWith].
  apply negb_true_iff in H1. rewrite H1. simpl. now apply IH.
Qed.

Lemma occurrences_app_free (a : ascii) (p x r : string) :
  charFree a x = true ->
  occurrences (String a p) (x ++ r) = occurrences (String a p) r.
Proof.
  intros H. rewrite occurrences_app by now apply charFree_safe.
  now rewrite occurrences_free.
Qed.

Lemma occurrences_contains (p s : string) :
  0 < occurrences p s -> contains p s.
Proof.
  induction s as [|c s IH]; cbn [occurrences]; intros H; [lia |].
  destruct (JS.startsWith (String c s) p) eqn:E.
  - exists "". clear - E.
    assert (G : forall s p, JS.startsWith s p = true -> exists r, s = p ++ r).
    { clear. intros s p; revert s; induction p as [|a p IH]; intros s H.
      - now exists s.
      - destruct s as [|b s]; simpl in H; [discriminate |].
        apply andb_true_iff in H as [H1 H2].
        apply Ascii.eqb_eq in H1; subst b.
        destruct (IH _ H2) as [r ->]. now exists r. }
    destruct (G _ _ E) as [r Hr]. exists r. exact Hr.
  - destruct IH as (b & a & ->); [simpl in H; lia |].
    now exists (String c b), a.
Qed.

End Occurrences.

(** ** The first character of a text *)

Section FirstCharacter.

Lemma take_skip (n : nat) (s : string) : JS.take n s ++ JS.skip n s = s.
Proof.
  revert s; induction n as [|n IH]; intros s; [reflexivity |].
  destruct s as [|c s]; [reflexivity |]. cbn [JS.take JS.skip append]. now rewrite IH.
Qed.

Lemma take_take (n : nat) (s : string) : JS.take n (JS.take n s) = JS.take n s.
Proof.
  revert s; induction n as [|n IH]; intros s; [reflexivity |].
  destruct s as [|c s]; [reflexivity |]. cbn [JS.take]. now rewrite IH.
Qed.

Lemma skip_take (n : nat) (s : string) : JS.skip n (JS.take n s) = "".
Proof.
  revert s; induction n as [|n IH]; intros s; [reflexivity |].
  destruct s as [|c s]; [reflexivity |]. cbn [JS.take JS.skip]. apply IH.
Qed.

(** A text is its first unit followed by the text after it. *)
Lemma firstUnit_split (s : string) : JS.firstUnit s ++ JS.afterFirstUnit s = s.
Proof.
  destruct s as [|c s]; [reflexivity |].
  cbn [JS.firstUnit JS.afterFirstUnit append]. now rewrite take_skip.
Qed.

Lemma firstUnit_firstUnit (s : string) : JS.firstUnit (JS.firstUnit s) = JS.firstUnit s.
Proof.
  destruct s as [|c s]; [reflexivity |]. cbn [JS.firstUnit]. now rewrite take_take.
Qed.

Lemma afterFirstUnit_firstUnit (s : string) : JS.afterFirstUnit (JS.firstUnit s) = "".
Proof.
  destruct s as [|c s]; [reflexivity |]. cbn [JS.firstUnit JS.afterFirstUnit]. apply skip_take.
Qed.

Lemma mapUnits_empty (f : string -> string) (fuel : nat) : JS.mapUnits f fuel "" = "".
Proof. destruct fuel; reflexivity. Qed.

(** On the text of one unit the case mappings are those of the unit. *)
Lemma mapUnits_firstUnit (f : string -> string) (s : string) :
  f "" = "" ->
  JS.mapUnits f (String.length (JS.firstUnit s)) (JS.firstUnit s) = f (JS.firstUnit s).
Proof.
  intros Hf. destruct s as [|c s]; [cbn; now rewrite Hf |].
  change (JS.firstUnit (String c s)) with (String c (JS.take (JS.unitWidth c - 1) s)) at 1 2.
  cbn [String.length JS.mapUnits].
  change (String c (JS.take (JS.unitWidth c - 1) s)) with (JS.firstUnit (String c s)).
  now rewrite firstUnit_firstUnit, afterFirstUnit_firstUnit, mapUnits_empty, append_nil_r.
Qed.

Lemma toLowerCase_firstUnit (s : string) :
  JS.toLowerCase (JS.firstUnit s) = JS.lowerUnit (JS.firstUnit s).
Proof. unfold JS.toLowerCase. now apply mapUnits_firstUnit. Qed.

Lemma toUpperCase_firstUnit (s : string) :
  JS.toUpperCase (JS.firstUnit s) = JS.upperUnit (JS.firstUnit s).
Proof. unfold JS.toUpperCase. now apply mapUnits_firstUnit. Qed.

Lemma lookup_forall (P : string -> bool) (pairs : list (list byte * list byte)) (u v : string) :
  forallb (fun kv => P (string_of_list_byte (snd kv))) pairs = true ->
  Unicode.lookup u pairs = Some v ->
  P v = true.
Proof.
  induction pairs as [|[k w] pairs IH]; cbn [forallb Unicode.lookup snd]; [discriminate |].
  intros H Hlook. apply andb_true_iff in H as [Hw Hrest].
  destruct (u =? string_of_list_byte k).
  - injection Hlook as <-. exact Hw.
  - now apply IH.
Qed.

(** The mappings of the tables are not empty and hold none of the
    characters that structure the generated class. *)
Lemma lowerPairs_values (a : ascii) :
  In a structuralChars ->
  forallb (fun kv => charFree a (string_of_list_byte (snd kv))) Unicode.lowerPairs = true
  /\ forallb (fun kv => hasLength (string_of_list_byte (snd kv))) Unicode.lowerPairs = true.
Proof. intros [<- | [<- | [<- | []]]]; split; vm_compute; reflexivity. Qed.

Lemma upperPairs_values (a : ascii) :
  In a structuralChars ->
  forallb (fun kv => charFree a (string_of_list_byte (snd kv))) Unicode.upperPairs = true
  /\ forallb (fun kv => hasLength (string_of_list_byte (snd kv))) Unicode.upperPairs = true.
Proof. intros [<- | [<- | [<- | []]]]; split; vm_compute; reflexivity. Qed.

Lemma lower_char_structural (a c : ascii) :
  In a structuralChars -> Ascii.eqb a (JS.lower_char c) = Ascii.eqb a c.
Proof.
  intros [<- | [<- | [<- | []]]]; destruct c as [[] [] [] [] [] [] [] []]; reflexivity.
Qed.

Lemma upper_char_structural (a c : ascii) :
  In a structuralChars -> Ascii.eqb a (JS.upper_char c) = Ascii.eqb a c.
Proof.
  intros [<- | [<- | [<- | []]]]; destruct c as [[] [] [] [] [] [] [] []]; reflexivity.
Qed.

Lemma lowerUnit_free (a : ascii) (u : string) :
  In a structuralChars -> charFree a u = true -> charFree a (JS.lowerUnit u) = true.
Proof.
  intros Ha H. destruct u as [|c [|d u]]; [reflexivity | |].
  - cbn [JS.lowerUnit charFree] in *. now rewrite lower_char_structural.
  - unfold JS.lowerUnit.
    destruct (Unicode.lookup (String c (String d u)) Unicode.lowerPairs) as [v|] eqn:E;
      [| exact H].
    exact (lookup_forall (charFree a) _ _ _ (proj1 (lowerPairs_values a Ha)) E).
Qed.

Lemma upperUnit_free (a : ascii) (u : string) :
  In a structuralChars -> charFree a u = true -> charFree a (JS.upperUnit u) = true.
Proof.
  intros Ha H. destruct u as [|c [|d u]]; [reflexivity | |].
  - cbn [JS.upperUnit charFree] in *. now rewrite upper_char_structural.
  - unfold JS.upperUnit.
    destruct (Unicode.lookup (String c (String d u)) Unicode.upperPairs) as [v|] eqn:E;
      [| exact H].
    exact (lookup_forall (charFree a) _ _ _ (proj1 (upperPairs_values a Ha)) E).
Qed.

Lemma lowerUnit_nonempty (u : string) : u <> "" -> JS.lowerUnit u <> "".
Proof.
  intros H. destruct u as [|c [|d u]]; [congruence | discriminate |].
  unfold JS.lowerUnit.
  destruct (Unicode.lookup (String c (String d u)) Unicode.lowerPairs) as [v|] eqn:E;
    [| discriminate].
  apply hasLength_true.
  exact (lookup_forall hasLength _ _ _ (proj2 (lowerPairs_values "@" (or_introl eq_refl))) E).
Qed.

Lemma firstLowered_free (a : ascii) (s : string) :
  In a structuralChars -> charFree a s = true -> charFree a (firstLowered s) = true.
Proof.
  intros Ha H. rewrite <- (firstUnit_split s), charFree_app in H.
  apply andb_true_iff in H as [H1 H2].
  unfold firstLowered. now rewrite charFree_app, (lowerUnit_free _ _ Ha H1), H2.
Qed.

Lemma firstUppered_free (a : ascii) (s : string) :
  In a structuralChars -> charFree a s = true -> charFree a (firstUppered s) = true.
Proof.
  intros Ha H. rewrite <- (firstUnit_split s), charFree_app in H.
  apply andb_true_iff in H as [H1 H2].
  unfold firstUppered. now rewrite charFree_app, (upperUnit_free _ _ Ha H1), H2.
Qed.

(** On a text that starts with an ASCII character the first unit is
    that character. *)
Lemma firstUnit_ascii (c : ascii) (rest : string) :
  (nat_of_ascii c < 128)%nat ->
  JS.firstUnit (String c rest) = String c "" /\ JS.afterFirstUnit (String c rest) = rest.
Proof.
  intros H. unfold JS.firstUnit, JS.afterFirstUnit, JS.unitWidth.
  assert (H192 : (nat_of_ascii c <? 192)%nat = true) by (apply Nat.ltb_lt; lia).
  rewrite H192. split; reflexivity.
Qed.

Lemma firstLowered_ascii (c : ascii) (rest : string) :
  (nat_of_ascii c < 128)%nat -> firstLowered (String c rest) = String (JS.lower_char c) rest.
Proof.
  intros H. unfold firstLowered. destruct (firstUnit_ascii c rest H) as [-> ->]. reflexivity.
Qed.

Lemma firstUppered_ascii (c : ascii) (rest : string) :
  (nat_of_ascii c < 128)%nat -> firstUppered (String c rest) = String (JS.upper_char c) rest.
Proof.
  intros H. unfold firstUppered. destruct (firstUnit_ascii c rest H) as [-> ->]. reflexivity.
Qed.

End FirstCharacter.

(** ** The layout of the generated class *)

Section Layout.

Lemma lowercaseFirstLetter_firstLowered (s : string) :
  lowercaseFirstLetter s = firstLowered s.
Proof.
  unfold lowercaseFirstLetter, firstLowered. cbn [JS.charAt JS.slice].
  now rewrite toLowerCase_firstUnit.
Qed.

Lemma capitalizeFirstLetter_firstUppered (s : string) :
  capitalizeFirstLetter s = firstUppered s.
Proof.
  unfold capitalizeFirstLetter, firstUppered. cbn [JS.charAt JS.slice].
  now rewrite toUpperCase_firstUnit.
Qed.

Lemma firstLowered_nonempty (s : string) : s <> "" -> firstLowered s <> "".
Proof.
  intros H. destruct s as [|c s]; [congruence |]. unfold firstLowered.
  assert (Hu : JS.lowerUnit (JS.firstUnit (String c s)) <> "")
    by (apply lowerUnit_nonempty; discriminate).
  destruct (JS.lowerUnit (JS.firstUnit (String c s))); [congruence | discriminate].
Qed.

Lemma concatAll_app (l1 l2 : list string) :
  concatAll (l1 ++ l2)%list = concatAll l1 ++ concatAll l2.
Proof.
  induction l1 as [|x l1 IH]; simpl; [reflexivity |].
  now rewrite IH, append_assoc.
Qed.

(** The loop over the constructor parameters. *)
Lemma constructor_loop (params : list JavaParameter) (args content : string) :
  fold_left constructorParameterStep params (args, content)
  = (fold_left argsStep (map attributeName params) args,
     content ++ concatAll (map mockField params)).
Proof.
  revert args content; induction params as [|p params IH]; intros args content.
  - simpl. now rewrite append_nil_r.
  - cbn [fold_left map concatAll fold_right].
    unfold constructorParameterStep at 2.
    rewrite lowercaseFirstLetter_firstLowered.
    fold (attributeName p). fold (argsStep args (attributeName p)).
    rewrite IH. f_equal.
    unfold mockField. now rewrite !append_assoc.
Qed.

(** The loop over the parameters of a method. *)
Lemma method_parameter_loop (params : list JavaParameter) (args content : string) :
  fold_left methodParameterStep params (args, content)
  = (fold_left argsStep (map paramName params) args,
     content ++ concatAll (map localDeclaration params)).
Proof.
  revert args content; induction params as [|p params IH]; intros args content.
  - simpl. now rewrite append_nil_r.
  - cbn [fold_left map concatAll fold_right].
    unfold methodParameterStep at 2.
    fold (argsStep args (paramName p)).
    rewrite IH. f_equal.
    unfold localDeclaration. now rewrite !append_assoc.
Qed.

(** One round of the loop over the public methods appends one test
    method. *)
Lemma publicMethodStep_appends (varName content : string) (m : JavaMethod) :
  publicMethodStep varName content m = content ++ testMethod varName m.
Proof.
  unfold publicMethodStep, testMethod, testMethodHeader, localDeclarations,
    callStatement, methodArgs, collectArgs.
  rewrite capitalizeFirstLetter_firstUppered.
  destruct (nonEmpty (parameters m)) eqn:Hne.
  - rewrite method_parameter_loop.
    destruct (returnType m =? "void"); cbn [negb]; now rewrite !append_assoc.
  - assert (He : elements (parameters m) = []).
    { destruct (parameters m) as [[|? ?]|]; simpl in *; congruence. }
    rewrite He. cbn [map fold_left].
    destruct (returnType m =? "void"); cbn [negb]; now rewrite !append_assoc.
Qed.

Lemma public_method_loop (varName : string) (ms : list JavaMethod) (content : string) :
  fold_left (publicMethodStep varName) ms content
  = content ++ concatAll (map (testMethod varName) ms).
Proof.
  revert content; induction ms as [|m ms IH]; intros content.
  - simpl. now rewrite append_nil_r.
  - cbn [fold_left map concatAll fold_right].
    now rewrite IH, publicMethodStep_appends, append_assoc.
Qed.

Lemma nonEmpty_false_elements {A : Type} (xs : option (list A)) :
  nonEmpty xs = false -> elements xs = [].
Proof. destruct xs as [[|? ?]|]; simpl; congruence. Qed.

(** The generated class is its header, the mock fields, the instance
    field with the setup method, the tests and the closing brace. *)
Lemma createTestClass_layout (c : JavaClass) :
  createTestClass c
  = classHeader c
      ++ concatAll (map mockField (elements (constructorParameters c)))
      ++ instanceAndSetup c (collectArgs (map attributeName (elements (constructorParameters c))))
      ++ testsSection c
      ++ lit "}\n".
Proof.
  unfold createTestClass, testsSection.
  rewrite lowercaseFirstLetter_firstLowered.
  destruct (nonEmpty (constructorParameters c)) eqn:Hc.
  - rewrite constructor_loop.
    destruct (nonEmpty (publicMethods c)) eqn:Hm.
    + rewrite public_method_loop.
      unfold classHeader, instanceAndSetup, instanceField, setupStatement, collectArgs.
      now rewrite !append_assoc.
    + unfold classHeader, instanceAndSetup, instanceField, setupStatement, collectArgs,
        defaultTestMethod.
      now rewrite !append_assoc.
  - rewrite (nonEmpty_false_elements _ Hc). cbn [map concatAll fold_right].
    destruct (nonEmpty (publicMethods c)) eqn:Hm.
    + rewrite public_method_loop.
      unfold classHeader, instanceAndSetup, instanceField, setupStatement, collectArgs.
      cbn [fold_left]. now rewrite !append_assoc.
    + unfold classHeader, instanceAndSetup, instanceField, setupStatement, collectArgs,
        defaultTestMethod.
      cbn [fold_left]. now rewrite !append_assoc.
Qed.

End Layout.

(** ** Argument lists *)

Section Arguments.

Lemma argsStep_nonempty (args name : string) :
  args <> "" -> argsStep args name = args ++ ", " ++ name.
Proof.
  intros H. unfold argsStep. now rewrite (proj2 (hasLength_true args) H).
Qed.

Lemma fold_argsStep_nonempty (names : list string) (args : string) :
  args <> "" ->
  fold_left argsStep names args
  = args ++ concatAll (map (fun n => ", " ++ n) names).
Proof.
  revert args; induction names as [|n names IH]; intros args H.
  - simpl. now rewrite append_nil_r.
  - cbn [fold_left map concatAll fold_right].
    rewrite (argsStep_nonempty _ _ H), IH.
    + now rewrite !append_assoc.
    + destruct args; [congruence | discriminate].
Qed.

Lemma join_cons (n : string) (names : list string) :
  String.concat ", " (n :: names) = n ++ concatAll (map (fun n => ", " ++ n) names).
Proof.
  revert n; induction names as [|m names IH]; intros n.
  - simpl. now rewrite append_nil_r.
  - change (String.concat ", " (n :: m :: names))
      with (n ++ ", " ++ String.concat ", " (m :: names)).
    rewrite IH. cbn [map concatAll fold_right].
    now rewrite !append_assoc.
Qed.

(** The accumulated argument list is the comma-separated list of the
    names, provided no name is empty. *)
Lemma collectArgs_join (names : list string) :
  Forall (fun n => n <> "") names ->
  collectArgs names = String.concat ", " names.
Proof.
  intros H. destruct names as [|n names]; [reflexivity |].
  unfold collectArgs. cbn [fold_left]. unfold argsStep at 2. cbn [hasLength String.length Nat.eqb negb].
  rewrite fold_argsStep_nonempty by now inversion H.
  now rewrite join_cons.
Qed.

End Arguments.

(** ** Annotations in the generated text *)

Section Annotations.

Lemma plain_firstLowered (s : string) : plain s = true -> plain (firstLowered s) = true.
Proof.
  unfold plain. apply firstLowered_free. now left.
Qed.

Lemma plain_firstUppered (s : string) : plain s = true -> plain (firstUppered s) = true.
Proof.
  unfold plain. apply firstUppered_free. now left.
Qed.

Lemma plain_app (x y : string) : plain (x ++ y) = plain x && plain y.
Proof. apply charFree_app. Qed.

Lemma plain_fold_argsStep (names : list string) (args : string) :
  plain args = true -> forallb plain names = true ->
  plain (fold_left argsStep names args) = true.
Proof.
  revert args; induction names as [|n names IH]; intros args Ha Hn; [easy |].
  cbn [forallb] in Hn. apply andb_true_iff in Hn as [Hn1 Hn2].
  cbn [fold_left]. apply IH; [| assumption].
  unfold argsStep. destruct (hasLength args); [| assumption].
  now rewrite !plain_app, Ha, Hn1.
Qed.

Lemma plain_collectArgs (names : list string) :
  forallb plain names = true -> plain (collectArgs names) = true.
Proof. intros H. now apply plain_fold_argsStep. Qed.

Lemma plain_attributeNames (ps : list JavaParameter) :
  forallb plainParameter ps = true -> forallb plain (map attributeName ps) = true.
Proof.
  induction ps as [|p ps IH]; [easy |]. cbn [forallb map]. intros H.
  apply andb_true_iff in H as [Hp Hps]. apply andb_true_iff in Hp as [_ Hp].
  rewrite IH by assumption. unfold attributeName.
  now rewrite plain_firstLowered.
Qed.

Lemma plain_paramNames (ps : list JavaParameter) :
  forallb plainParameter ps = true -> forallb plain (map paramName ps) = true.
Proof.
  induction ps as [|p ps IH]; [easy |]. cbn [forallb map]. intros H.
  apply andb_true_iff in H as [Hp Hps]. apply andb_true_iff in Hp as [_ Hp].
  now rewrite Hp, IH.
Qed.

End Annotations.

(** Walks through a concatenation piece by piece: a plain piece holds no
    annotation, a template piece holds the ones counted on it. *)
Ltac plain_name :=
  match goal with
  | |- charFree _ (firstLowered _) = true => apply plain_firstLowered
  | |- charFree _ (firstUppered _) = true => apply plain_firstUppered
  | |- charFree _ (collectArgs (map attributeName _)) = true =>
      apply plain_collectArgs, plain_attributeNames
  | |- charFree _ (collectArgs (map paramName _)) = true =>
      apply plain_collectArgs, plain_paramNames
  | |- charFree _ (collectArgs _) = true => apply plain_collectArgs
  end.

Ltac plain_piece :=
  unfold plain in *; solve [ assumption | plain_name; assumption | reflexivity ].

Ltac count_template :=
  repeat match goal with
  | |- context [occurrences ?p (lit ?s)] =>
      let v := eval vm_compute in (occurrences p (lit s)) in
      change (occurrences p (lit s)) with v
  end.

Ltac count_pieces :=
  repeat first
    [ rewrite occurrences_app_free by plain_piece
    | match goal with
      | |- context [occurrences ?p (lit ?s ++ _)] =>
          rewrite (occurrences_app p (lit s)) by (vm_compute; reflexivity)
      end; count_template ].

Section AnnotationCounts.

Lemma plainParameter_inv (p : JavaParameter) :
  plainParameter p = true -> plain (paramType p) = true /\ plain (paramName p) = true.
Proof. intros H. now apply andb_true_iff in H. Qed.

Lemma plainMethod_inv (m : JavaMethod) :
  plainMethod m = true ->
  plain (methodName m) = true /\ plain (returnType m) = true
  /\ forallb plainParameter (elements (parameters m)) = true.
Proof.
  intros H. apply andb_true_iff in H as [H H3]. now apply andb_true_iff in H as [H1 H2].
Qed.

Lemma plainClass_inv (c : JavaClass) :
  plainClass c = true ->
  plain (className c) = true /\ plain (accessModifier c) = true
  /\ plain (JS.interpolate (classParameters c)) = true
  /\ forallb plainParameter (elements (constructorParameters c)) = true
  /\ forallb plainMethod (elements (publicMethods c)) = true.
Proof.
  intros H. apply andb_true_iff in H as [H H5]. apply andb_true_iff in H as [H H4].
  apply andb_true_iff in H as [H H3]. now apply andb_true_iff in H as [H1 H2].
Qed.

Lemma mockField_Mock (p : JavaParameter) (r : string) :
  plainParameter p = true ->
  occurrences "@Mock" (mockField p ++ r) = 1 + occurrences "@Mock" r.
Proof.
  intros Hp. apply plainParameter_inv in Hp as [Ht Hn].
  unfold mockField, attributeName. rewrite !append_assoc.
  count_pieces. reflexivity.
Qed.

Lemma mockField_Test (p : JavaParameter) (r : string) :
  plainParameter p = true ->
  occurrences "@Test" (mockField p ++ r) = occurrences "@Test" r.
Proof.
  intros Hp. apply plainParameter_inv in Hp as [Ht Hn].
  unfold mockField, attributeName. rewrite !append_assoc.
  count_pieces. reflexivity.
Qed.

Lemma mockFields_Mock (ps : list JavaParameter) (r : string) :
  forallb plainParameter ps = true ->
  occurrences "@Mock" (concatAll (map mockField ps) ++ r)
  = List.length ps + occurrences "@Mock" r.
Proof.
  induction ps as [|p ps IH]; intros H; [reflexivity |].
  cbn [forallb] in H. apply andb_true_iff in H as [Hp Hps].
  cbn [map concatAll fold_right]. fold (concatAll (map mockField ps)).
  rewrite append_assoc, (mockField_Mock _ _ Hp), (IH Hps). reflexivity.
Qed.

Lemma mockFields_Test (ps : list JavaParameter) (r : string) :
  forallb plainParameter ps = true ->
  occurrences "@Test" (concatAll (map mockField ps) ++ r) = occurrences "@Test" r.
Proof.
  induction ps as [|p ps IH]; intros H; [reflexivity |].
  cbn [forallb] in H. apply andb_true_iff in H as [Hp Hps].
  cbn [map concatAll fold_right]. fold (concatAll (map mockField ps)).
  rewrite append_assoc, (mockField_Test _ _ Hp), (IH Hps). reflexivity.
Qed.

Lemma plain_localDeclarations (m : JavaMethod) :
  forallb plainParameter (elements (parameters m)) = true ->
  plain (localDeclarations m) = true.
Proof.
  intros H. unfold localDeclarations.
  destruct (nonEmpty (parameters m)); [| reflexivity].
  rewrite !plain_app. cbn [andb].
  replace (plain (lit "\t\t// TODO: initialize args\n")) with true by reflexivity.
  replace (plain (lit "\n")) with true by reflexivity.
  rewrite andb_true_r. cbn [andb].
  induction (elements (parameters m)) as [|p ps IH]; [reflexivity |].
  cbn [forallb] in H. apply andb_true_iff in H as [Hp Hps].
  apply plainParameter_inv in Hp as [Ht Hn].
  cbn [map concatAll fold_right]. unfold localDeclaration at 1.
  rewrite !plain_app, Ht, Hn. cbn [andb plain].
  now apply IH.
Qed.

Lemma plain_callStatement (varName : string) (m : JavaMethod) :
  plain varName = true -> plainMethod m = true ->
  plain (callStatement varName m) = true.
Proof.
  intros Hv Hm. apply plainMethod_inv in Hm as (Hn & Hr & Hps).
  unfold callStatement, methodArgs. rewrite !plain_app, Hv, Hn.
  rewrite plain_collectArgs by now apply plain_paramNames.
  destruct (returnType m =? "void"); [reflexivity |].
  now rewrite plain_app, Hr.
Qed.

Lemma testMethod_Test (varName : string) (m : JavaMethod) (r : string) :
  plain varName = true -> plainMethod m = true ->
  occurrences "@Test" (testMethod varName m ++ r) = 1 + occurrences "@Test" r.
Proof.
  intros Hv Hm. pose proof (plain_callStatement _ _ Hv Hm) as Hcall.
  apply plainMethod_inv in Hm as (Hn & Hr & Hps).
  pose proof (plain_localDeclarations _ Hps) as Hdecl.
  unfold testMethod, testMethodHeader. rewrite !append_assoc.
  count_pieces. reflexivity.
Qed.

Lemma testMethod_Mock (varName : string) (m : JavaMethod) (r : string) :
  plain varName = true -> plainMethod m = true ->
  occurrences "@Mock" (testMethod varName m ++ r) = occurrences "@Mock" r.
Proof.
  intros Hv Hm. pose proof (plain_callStatement _ _ Hv Hm) as Hcall.
  apply plainMethod_inv in Hm as (Hn & Hr & Hps).
  pose proof (plain_localDeclarations _ Hps) as Hdecl.
  unfold testMethod, testMethodHeader. rewrite !append_assoc.
  count_pieces. reflexivity.
Qed.

Lemma testMethods_Test (varName : string) (ms : list JavaMethod) (r : string) :
  plain varName = true -> forallb plainMethod ms = true ->
  occurrences "@Test" (concatAll (map (testMethod varName) ms) ++ r)
  = List.length ms + occurrences "@Test" r.
Proof.
  intros Hv. induction ms as [|m ms IH]; intros H; [reflexivity |].
  cbn [forallb] in H. apply andb_true_iff in H as [Hm Hms].
  cbn [map concatAll fold_right]. fold (concatAll (map (testMethod varName) ms)).
  rewrite append_assoc, (testMethod_Test _ _ _ Hv Hm), (IH Hms). reflexivity.
Qed.

Lemma testMethods_Mock (varName : string) (ms : list JavaMethod) (r : string) :
  plain varName = true -> forallb plainMethod ms = true ->
  occurrences "@Mock" (concatAll (map (testMethod varName) ms) ++ r)
  = occurrences "@Mock" r.
Proof.
  intros Hv. induction ms as [|m ms IH]; intros H; [reflexivity |].
  cbn [forallb] in H. apply andb_true_iff in H as [Hm Hms].
  cbn [map concatAll fold_right]. fold (concatAll (map (testMethod varName) ms)).
  rewrite append_assoc, (testMethod_Mock _ _ _ Hv Hm), (IH Hms). reflexivity.
Qed.

Lemma createTestClass_Test (c : JavaClass) :
  plainClass c = true ->
  occurrences "@Test" (createTestClass c) = expectedTests c.
Proof.
  intros H. apply plainClass_inv in H as (Hn & Ha & Hg & Hps & Hms).
  rewrite createTestClass_layout.
  unfold classHeader, instanceAndSetup, instanceField, setupStatement, testsSection,
    expectedTests.
  rewrite !append_assoc. count_pieces.
  rewrite mockFields_Test by assumption. count_pieces.
  destruct (nonEmpty (publicMethods c)).
  - rewrite testMethods_Test by (try apply plain_firstLowered; assumption). count_template. lia.
  - unfold defaultTestMethod. count_pieces. count_template. lia.
Qed.

Lemma createTestClass_Mock (c : JavaClass) :
  plainClass c = true ->
  occurrences "@Mock" (createTestClass c)
  = List.length (elements (constructorParameters c)).
Proof.
  intros H. apply plainClass_inv in H as (Hn & Ha & Hg & Hps & Hms).
  rewrite createTestClass_layout.
  unfold classHeader, instanceAndSetup, instanceField, setupStatement, testsSection.
  rewrite !append_assoc. count_pieces.
  rewrite mockFields_Mock by assumption. count_pieces.
  destruct (nonEmpty (publicMethods c)).
  - rewrite testMethods_Mock by (try apply plain_firstLowered; assumption). count_template. lia.
  - unfold defaultTestMethod. count_pieces. count_template. lia.
Qed.

End AnnotationCounts.

(** ** Finding a piece in a text *)

Section Contains.

Lemma contains_prefix (p a : string) : contains p (p ++ a).
Proof. now exists "", a. Qed.

Lemma contains_self (p : string) : contains p p.
Proof. exists "", "". simpl. now rewrite append_nil_r. Qed.

Lemma contains_app_r (p x y : string) : contains p y -> contains p (x ++ y).
Proof. intros (b & a & ->). exists (x ++ b), a. now rewrite append_assoc. Qed.

Lemma contains_app_l (p x y : string) : contains p x -> contains p (x ++ y).
Proof. intros (b & a & ->). exists b, (a ++ y). now rewrite !append_assoc. Qed.

Lemma contains_concatAll (p : string) (blocks : list string) (b : string) :
  In b blocks -> contains p b -> contains p (concatAll blocks).
Proof.
  intros Hin Hp. apply in_split in Hin as (l1 & l2 & ->).
  rewrite concatAll_app. apply contains_app_r.
  cbn [concatAll fold_right]. now apply contains_app_l.
Qed.

Lemma startsWith_occurs (p a : string) :
  p <> "" -> 0 < occurrences p (p ++ a).
Proof.
  intros H. destruct p as [|c p]; [congruence |].
  change (String c p ++ a) with (String c (p ++ a)). cbn [occurrences].
  change (String c (p ++ a)) with (String c p ++ a).
  rewrite startsWith_append. lia.
Qed.

(** A text that occurs is counted. *)
Lemma contains_occurrences (p s : string) :
  p <> "" -> contains p s -> 0 < occurrences p s.
Proof.
  intros Hp (b & a & ->). induction b as [|c b IH].
  - exact (startsWith_occurs p a Hp).
  - change (String c b ++ p ++ a) with (String c (b ++ p ++ a)).
    cbn [occurrences]. lia.
Qed.

End Contains.

(** Finds a piece that heads one of the segments of a right-nested
    concatenation. *)
Ltac find_piece :=
  repeat first
    [ apply contains_prefix
    | apply contains_self
    | apply contains_app_r ].

(** * Properties of the generator *)

(** ** Naming of the instance under test *)

(** C5: the name of the generated instance field is the class name with
    only its first character lower-cased: the class name is its first
    character followed by the others, the field name is the lower-cased
    first character followed by the same others; when the class name
    starts with an ASCII character the field name is that character
    lower-cased, followed by the rest of the class name; the generated
    class declares the field and assigns it under that name; for
    [HTTPClient] the name is [hTTPClient]; a first character outside
    ASCII is lower-cased as well, and may become more than one
    character. *)
Theorem instance_name_lowercases_first_letter_only (c : JavaClass) :
  let name := className c in
  let varName := lowercaseFirstLetter name in
  let first := JS.charAt name 0 in
  let others := JS.slice name 1 in
  name = first ++ others
  /\ JS.charAt first 0 = first
  /\ JS.slice first 1 = ""
  /\ varName = JS.toLowerCase first ++ others
  /\ (forall a rest, name = String a rest -> (nat_of_ascii a < 128)%nat ->
      varName = String (JS.lower_char a) rest)
  /\ contains (String TAB "private " ++ name ++ JS.interpolate (classParameters c)
                 ++ " " ++ varName ++ ";") (createTestClass c)
  /\ contains ("this." ++ varName ++ " = new " ++ name) (createTestClass c)
  /\ lowercaseFirstLetter "HTTPClient" = "hTTPClient"
  /\ lowercaseFirstLetter "Élan" = "élan"
  /\ lowercaseFirstLetter "İstanbul" = "i̇stanbul".
Proof.
  cbv zeta. cbn [JS.charAt JS.slice].
  split; [symmetry; apply firstUnit_split |].
  split; [apply firstUnit_firstUnit |].
  split; [apply afterFirstUnit_firstUnit |].
  split; [reflexivity |].
  split.
  { intros a rest Hname Ha.
    rewrite lowercaseFirstLetter_firstLowered, Hname. now apply firstLowered_ascii. }
  rewrite lowercaseFirstLetter_firstLowered.
  split; [| split; [| repeat split; vm_compute; reflexivity]].
  - rewrite createTestClass_layout. unfold instanceAndSetup, instanceField.
    apply contains_app_r, contains_app_r.
    exists (String NL ""), (lit "\n\n\t@Before\n\tpublic void setup() {\n\t\t"
      ++ setupStatement c (collectArgs (map attributeName (elements (constructorParameters c))))
      ++ lit "\n\t}\n" ++ testsSection c ++ lit "}\n").
    now rewrite !append_assoc.
  - rewrite createTestClass_layout. unfold instanceAndSetup, setupStatement.
    apply contains_app_r, contains_app_r.
    exists (lit "\n\t" ++ instanceField c ++ lit "\n\n\t@Before\n\tpublic void setup() {\n\t\t"),
      (JS.interpolate (classParameters c) ++ "("
      ++ collectArgs (map attributeName (elements (constructorParameters c))) ++ ");"
      ++ lit "\n\t}\n" ++ testsSection c ++ lit "}\n").
    now rewrite !append_assoc.
Qed.

(** The field of an [OrderService] is [orderService]. *)
Lemma instance_name_lowercases_first_letter_only_witness :
  lowercaseFirstLetter (className orderService) = "orderService".
Proof.
  destruct (instance_name_lowercases_first_letter_only orderService)
    as (_ & _ & _ & _ & Hascii & _).
  apply (Hascii "O"%char "rderService" eq_refl). vm_compute. lia.
Defined.

(** ** The empty class *)

(** C10: the buffer of [generateEmptyClassContent] is the UTF-8 buffer of
    a text that ends with the declaration of an empty public class of the
    given name (an opening line, a line holding one tab, a closing
    brace); the text begins with a package line followed by a blank line
    exactly when the package name is not empty, and is the bare class
    declaration when it is empty. *)
Theorem empty_class_content (packageName className0 : string) :
  let body := "public class " ++ className0 ++ " {" ++ String NL (String TAB (String NL "}")) in
  let text := JS.Buffer_toString (generateEmptyClassContent packageName className0) in
  generateEmptyClassContent packageName className0 = JS.Buffer_from text
  /\ (exists before, text = before ++ body)
  /\ JS.startsWith text "package " = hasLength packageName
  /\ (packageName <> "" ->
      text = "package " ++ packageName ++ ";" ++ String NL (String NL "") ++ body)
  /\ (packageName = "" -> text = body).
Proof.
  cbv zeta. unfold generateEmptyClassContent, JS.Buffer_toString, JS.Buffer_from.
  rewrite string_of_list_byte_of_string.
  split; [reflexivity |].
  destruct packageName as [|a p].
  - cbn [hasLength String.length Nat.eqb negb].
    split; [now exists "" |]. split; [reflexivity |].
    split; [congruence | reflexivity].
  - cbn [hasLength String.length Nat.eqb negb].
    split. { exists ("package " ++ String a p ++ lit ";\n\n"). now rewrite !append_assoc. }
    split; [reflexivity |].
    split; [intros _; now rewrite !append_assoc | discriminate].
Qed.

(** A package name given, and none. *)
Lemma empty_class_content_witness :
  "com.acme" <> ""
  /\ JS.Buffer_toString (generateEmptyClassContent "com.acme" "Foo")
     = "package com.acme;" ++ String NL (String NL "")
         ++ "public class Foo {" ++ String NL (String TAB (String NL "}"))
  /\ JS.Buffer_toString (generateEmptyClassContent "" "Foo")
     = "public class Foo {" ++ String NL (String TAB (String NL "}")).
Proof.
  split; [discriminate |]. split.
  - apply (empty_class_content "com.acme" "Foo"). discriminate.
  - apply (empty_class_content "" "Foo"). reflexivity.
Defined.

(** ** The default scaffold *)

Lemma identifier_charFree (a : ascii) (s : string) :
  identifierChar a = false -> javaIdentifier s = true -> charFree a s = true.
Proof.
  intros Ha H. apply andb_true_iff in H as [_ H].
  induction s as [|c s IH]; [reflexivity |].
  cbn [allChars] in H. apply andb_true_iff in H as [Hc Hs].
  cbn [charFree]. rewrite (IH Hs), andb_true_r.
  destruct (Ascii.eqb a c) eqn:E; [| reflexivity].
  apply Ascii.eqb_eq in E; subst c. congruence.
Qed.

(** C2: when the parser yields no descriptor, the generated file is the
    package declaration, the imports and the default scaffold: a public
    class of the fallback test name with the field [cut] of the fallback
    class type, a setup method that constructs it without arguments and
    the placeholder test; for names that are identifiers the scaffold
    holds one field and one test. *)
Theorem default_scaffold_without_descriptors
    (parse : Uri -> option (list JavaClass))
    (javaFileUri : Uri) (javaClassName : string)
    (testFileUri : Uri) (testClassName : string) :
  parse javaFileUri = Some [] \/ parse javaFileUri = None ->
  let scaffold := createDefaultTestClass javaClassName testClassName in
  generateTestClassFileContent parse javaFileUri javaClassName testFileUri testClassName
  = (JS.Buffer_from (generateTestClassPackageDeclaration testFileUri testClassName
                       ++ createDefaultImports ++ scaffold),
     parse javaFileUri)
  /\ scaffold
     = String NL ""
         ++ line 0 ("public class " ++ testClassName ++ " {")
         ++ line 1 ("private " ++ javaClassName ++ " cut;")
         ++ line 0 ""
         ++ line 1 "@Before"
         ++ line 1 "public void setup() {"
         ++ line 2 ("this.cut = new " ++ javaClassName ++ "();")
         ++ line 1 "}"
         ++ line 0 ""
         ++ line 1 "@Test"
         ++ line 1 "public void shouldCompile() {"
         ++ line 2 placeholderAssertion
         ++ line 1 "}"
         ++ "}"
  /\ (javaIdentifier javaClassName = true -> javaIdentifier testClassName = true ->
      occurrences fieldMarker scaffold = 1 /\ occurrences "@Test" scaffold = 1).
Proof.
  intros Hparse. cbv zeta. split; [| split].
  - unfold generateTestClassFileContent.
    destruct Hparse as [-> | ->]; cbn [nonEmpty]; now rewrite append_assoc.
  - unfold createDefaultTestClass, line, tabs. cbn [repeat concatAll fold_right].
    now rewrite !append_assoc.
  - intros Hj Ht.
    pose proof (identifier_charFree TAB _ eq_refl Hj) as HjT.
    pose proof (identifier_charFree TAB _ eq_refl Ht) as HtT.
    pose proof (identifier_charFree "@" _ eq_refl Hj) as HjA.
    pose proof (identifier_charFree "@" _ eq_refl Ht) as HtA.
    unfold createDefaultTestClass, fieldMarker. split.
    + count_pieces. count_template. reflexivity.
    + count_pieces. count_template. reflexivity.
Qed.

(** The scaffold for [Foo] and [FooTest] when the parser finds nothing. *)
Lemma default_scaffold_without_descriptors_witness :
  let uri := mkUri "/p/src/main/java/Foo.java" "/p/src/main/java/Foo.java" in
  let testUri := mkUri "/p/src/test/java/FooTest.java" "/p/src/test/java/FooTest.java" in
  occurrences fieldMarker (createDefaultTestClass "Foo" "FooTest") = 1
  /\ occurrences "@Test" (createDefaultTestClass "Foo" "FooTest") = 1
  /\ fst (generateTestClassFileContent (fun _ => Some []) uri "Foo" testUri "FooTest")
     = JS.Buffer_from (createDefaultImports ++ createDefaultTestClass "Foo" "FooTest").
Proof.
  cbv zeta.
  pose proof (default_scaffold_without_descriptors (fun _ => Some [])
                (mkUri "/p/src/main/java/Foo.java" "/p/src/main/java/Foo.java") "Foo"
                (mkUri "/p/src/test/java/FooTest.java" "/p/src/test/java/FooTest.java") "FooTest"
                (or_introl eq_refl)) as (Hfile & _ & Hcount).
  destruct (Hcount eq_refl eq_refl) as [Hfield Htest].
  split; [exact Hfield |]. split; [exact Htest |].
  rewrite Hfile. reflexivity.
Defined.

(** ** The placeholder test *)

(** C7: a class descriptor whose public methods are empty or absent gets
    the one placeholder test after the setup method: the test is named
    [shouldCompile] and asserts that ["Actual value"] is
    ["Expected value"]; in a class generated from plain texts it is the
    only test. *)
Theorem default_test_without_public_methods (c : JavaClass) :
  publicMethods c = Some [] \/ publicMethods c = None ->
  createTestClass c
  = classHeader c
      ++ concatAll (map mockField (elements (constructorParameters c)))
      ++ instanceAndSetup c (collectArgs (map attributeName (elements (constructorParameters c))))
      ++ defaultTestMethod
      ++ line 0 "}"
  /\ defaultTestMethod
     = line 1 "@Test"
         ++ line 1 "public void shouldCompile() {"
         ++ line 2 ("assertThat(" ++ quoted "Actual value" ++ ", is("
                      ++ quoted "Expected value" ++ "));")
         ++ line 1 "}"
  /\ (plainClass c = true -> occurrences "@Test" (createTestClass c) = 1).
Proof.
  intros H. assert (Hne : nonEmpty (publicMethods c) = false).
  { destruct H as [-> | ->]; reflexivity. }
  split; [| split].
  - rewrite createTestClass_layout. unfold testsSection. now rewrite Hne.
  - reflexivity.
  - intros Hp. rewrite (createTestClass_Test _ Hp). unfold expectedTests. now rewrite Hne.
Qed.

Lemma default_test_without_public_methods_witness :
  occurrences "@Test" (createTestClass helperClass) = 1
  /\ contains "public void shouldCompile() {" (createTestClass helperClass).
Proof.
  pose proof (default_test_without_public_methods helperClass (or_introl eq_refl))
    as (Hlayout & _ & Hcount).
  split; [exact (Hcount eq_refl) |].
  apply occurrences_contains. vm_compute. lia.
Defined.

(** ** Selection of the public class *)

Section Selection.

Lemma find_firstPublic (cs : list JavaClass) (c : JavaClass) :
  find isPublic cs = Some c -> firstPublic cs c.
Proof.
  induction cs as [|d cs IH]; cbn [find]; [discriminate |].
  destruct (isPublic d) eqn:Hd; intros H.
  - injection H as <-. now exists [], cs.
  - destruct (IH H) as (before & after & -> & Hc & Hb).
    exists (d :: before), after. repeat split; [assumption | now constructor].
Qed.

Lemma firstPublic_find (cs : list JavaClass) (c : JavaClass) :
  firstPublic cs c -> find isPublic cs = Some c.
Proof.
  intros (before & after & -> & Hc & Hb).
  induction Hb as [|d before Hd Hb IH]; cbn [app find].
  - now rewrite Hc.
  - now rewrite Hd.
Qed.

Lemma find_public_found (cs : list JavaClass) :
  (exists c, In c cs /\ isPublic c = true) -> exists c, find isPublic cs = Some c.
Proof.
  intros (c & Hin & Hc). destruct (find isPublic cs) as [d|] eqn:E; [now exists d |].
  pose proof (find_none _ _ E _ Hin). congruence.
Qed.

Lemma find_public_none (cs : list JavaClass) :
  (forall c, In c cs -> isPublic c = false) -> find isPublic cs = None.
Proof.
  intros H. destruct (find isPublic cs) as [d|] eqn:E; [| reflexivity].
  apply find_some in E as [Hin Hd]. rewrite (H _ Hin) in Hd. discriminate.
Qed.

Lemma classHeader_public (c : JavaClass) :
  accessModifier c = "public " ->
  contains ("public class " ++ className c ++ "Test {") (createTestClass c).
Proof.
  intros H. rewrite createTestClass_layout. apply contains_app_l.
  unfold classHeader. rewrite H.
  exists (lit "\n@RunWith(MockitoJUnitRunner.class)\n"), (String NL "").
  now rewrite !append_assoc.
Qed.

End Selection.

(** C1: from a non-empty array of descriptors the generator renders one
    descriptor: the first one whose modifier is public (there is one
    such descriptor only), the array being left as it is; and when no
    descriptor is public, the first descriptor
    of the array with its [accessModifier] overwritten by ["public "],
    the array holding the overwritten descriptor in its first place. *)
Theorem public_class_selection
    (parse : Uri -> option (list JavaClass))
    (javaFileUri : Uri) (javaClassName : string)
    (testFileUri : Uri) (testClassName : string)
    (cs : list JavaClass) :
  parse javaFileUri = Some cs ->
  cs <> [] ->
  exists publicClass cs',
    generateTestClassFileContent parse javaFileUri javaClassName testFileUri testClassName
    = (JS.Buffer_from (generateTestClassPackageDeclaration testFileUri testClassName
                         ++ createDefaultImports ++ createTestClass publicClass),
       Some cs')
    /\ ((exists c, In c cs /\ isPublic c = true) ->
        firstPublic cs publicClass
        /\ (forall c, firstPublic cs c -> c = publicClass)
        /\ cs' = cs)
    /\ ((forall c, In c cs -> isPublic c = false) ->
        exists first others,
          cs = first :: others
          /\ publicClass = mkClass (className first) "public " (classParameters first)
                             (constructorParameters first) (publicMethods first)
          /\ cs' = publicClass :: others
          /\ contains ("public class " ++ className first ++ "Test {")
               (createTestClass publicClass)).
Proof.
  intros Hparse Hne. unfold generateTestClassFileContent. rewrite Hparse.
  destruct cs as [|first others]; [congruence |].
  cbn [nonEmpty elements]. unfold selectPublicClass.
  destruct (find isPublic (first :: others)) as [c|] eqn:E.
  - exists c, (first :: others). split; [now rewrite append_assoc |]. split.
    + intros _. split; [now apply find_firstPublic |]. split; [| reflexivity].
      intros d Hd. apply firstPublic_find in Hd. congruence.
    + intros Hnone. rewrite (find_public_none _ Hnone) in E. discriminate.
  - exists (setAccessModifier first "public "), (setAccessModifier first "public " :: others).
    split; [now rewrite append_assoc |]. split.
    + intros Hsome. apply find_public_found in Hsome as [d Hd]. congruence.
    + intros _. exists first, others. repeat split.
      apply (classHeader_public (setAccessModifier first "public ")). reflexivity.
Qed.

(** A package-private class before a public one, and a package-private
    class alone. *)
Lemma public_class_selection_witness :
  let uri := mkUri "/p/src/main/java/Calculator.java" "/p/src/main/java/Calculator.java" in
  let testUri := mkUri "/p/src/test/java/CalculatorTest.java" "/p/src/test/java/CalculatorTest.java" in
  (exists publicClass cs',
      generateTestClassFileContent (fun _ => Some [helperClass; calculatorClass])
        uri "Calculator" testUri "CalculatorTest"
      = (JS.Buffer_from (createDefaultImports ++ createTestClass publicClass), Some cs')
      /\ firstPublic [helperClass; calculatorClass] publicClass)
  /\ (exists publicClass cs',
      generateTestClassFileContent (fun _ => Some [helperClass])
        uri "Helper" testUri "HelperTest"
      = (JS.Buffer_from (createDefaultImports ++ createTestClass publicClass), Some cs')
      /\ accessModifier publicClass = "public ").
Proof.
  cbv zeta. split.
  - destruct (public_class_selection (fun _ => Some [helperClass; calculatorClass])
                (mkUri "/p/src/main/java/Calculator.java" "/p/src/main/java/Calculator.java")
                "Calculator"
                (mkUri "/p/src/test/java/CalculatorTest.java" "/p/src/test/java/CalculatorTest.java")
                "CalculatorTest" [helperClass; calculatorClass] eq_refl)
      as (publicClass & cs' & Hfile & Hfound & _); [discriminate |].
    exists publicClass, cs'. split; [exact Hfile |].
    apply Hfound. exists calculatorClass. split; [right; left; reflexivity | reflexivity].
  - destruct (public_class_selection (fun _ => Some [helperClass])
                (mkUri "/p/src/main/java/Calculator.java" "/p/src/main/java/Calculator.java")
                "Helper"
                (mkUri "/p/src/test/java/CalculatorTest.java" "/p/src/test/java/CalculatorTest.java")
                "HelperTest" [helperClass] eq_refl)
      as (publicClass & cs' & Hfile & _ & Hnone); [discriminate |].
    exists publicClass, cs'. split; [exact Hfile |].
    destruct Hnone as (first & others & _ & -> & _); [| reflexivity].
    intros c [<- | []]. reflexivity.
Defined.

(** ** One test per public method *)

(** The class generated for a descriptor without public methods holds one
    test, the placeholder: the tests are not as many as the methods. *)
Lemma tests_exceed_methods_without_methods :
  plainClass helperClass = true /\ ~ testsMatchMethods helperClass.
Proof.
  split; [reflexivity |]. unfold testsMatchMethods. vm_compute. discriminate.
Qed.

(** C3, for a descriptor that has public methods: the tests of the
    generated class are the test methods of the public methods, one for
    each and in their order; the test of a method is named [should]
    followed by the method name with its first character upper-cased:
    the upper-cased first character followed by the other characters of
    the name, which for a name that starts with an ASCII character is
    that character upper-cased followed by the rest; in a class generated
    from plain texts the tests are as many as the methods; the sharp s
    that opens [ßeta] is upper-cased to [SS]. *)
Theorem one_test_per_public_method (c : JavaClass) (ms : list JavaMethod) :
  publicMethods c = Some ms ->
  ms <> [] ->
  let varName := lowercaseFirstLetter (className c) in
  let tests := map (testMethod varName) ms in
  createTestClass c
  = classHeader c
      ++ concatAll (map mockField (elements (constructorParameters c)))
      ++ instanceAndSetup c (collectArgs (map attributeName (elements (constructorParameters c))))
      ++ concatAll tests
      ++ line 0 "}"
  /\ List.length tests = List.length ms
  /\ (forall i m, nth_error ms i = Some m ->
      exists body,
        nth_error tests i
        = Some (String NL "" ++ line 1 "@Test"
                  ++ tabs 1 ++ "public void should" ++ capitalizeFirstLetter (methodName m)
                  ++ "() {" ++ String NL "" ++ body)
        /\ methodName m = JS.charAt (methodName m) 0 ++ JS.slice (methodName m) 1
        /\ capitalizeFirstLetter (methodName m)
           = JS.toUpperCase (JS.charAt (methodName m) 0) ++ JS.slice (methodName m) 1
        /\ (forall a rest, methodName m = String a rest -> (nat_of_ascii a < 128)%nat ->
            capitalizeFirstLetter (methodName m) = String (JS.upper_char a) rest))
  /\ (plainClass c = true -> testsMatchMethods c)
  /\ capitalizeFirstLetter "ßeta" = "SSeta".
Proof.
  intros Hms Hne. cbv zeta. rewrite lowercaseFirstLetter_firstLowered.
  assert (Hnonempty : nonEmpty (publicMethods c) = true).
  { rewrite Hms. destruct ms; [congruence | reflexivity]. }
  split; [| split; [| split; [| split; [| vm_compute; reflexivity]]]].
  - rewrite createTestClass_layout. unfold testsSection.
    now rewrite Hnonempty, Hms.
  - apply length_map.
  - intros i m Hi.
    exists (localDeclarations m ++ lit "\t\t" ++ callStatement (firstLowered (className c)) m
              ++ lit "\n\n\t\t// TODO: assert scenario\n\t}\n").
    split; [| split; [| split]].
    + rewrite nth_error_map, Hi. cbn [option_map]. f_equal.
      unfold testMethod, testMethodHeader.
      rewrite (capitalizeFirstLetter_firstUppered (methodName m)).
      unfold line, tabs. cbn [repeat concatAll fold_right].
      now rewrite !append_assoc.
    + cbn [JS.charAt JS.slice]. symmetry. apply firstUnit_split.
    + reflexivity.
    + intros a rest Hname Ha.
      rewrite (capitalizeFirstLetter_firstUppered (methodName m)), Hname.
      now apply firstUppered_ascii.
  - intros Hp. unfold testsMatchMethods.
    rewrite (createTestClass_Test _ Hp). unfold expectedTests.
    now rewrite Hnonempty.
Qed.

(** The calculator has one public method and gets one test, [shouldAdd]. *)
Lemma one_test_per_public_method_witness :
  occurrences "@Test" (createTestClass calculatorClass) = 1
  /\ contains "public void shouldAdd() {" (createTestClass calculatorClass).
Proof.
  destruct (one_test_per_public_method calculatorClass
              [mkMethod "add" "int" (Some [mkParameter "int" "a"; mkParameter "int" "b"])]
              eq_refl) as (_ & _ & _ & Hcount & _); [discriminate |].
  split; [exact (Hcount eq_refl) |].
  apply occurrences_contains. vm_compute. lia.
Defined.

(** ** Mock fields and constructor arguments *)

(** A constructor parameter with an empty name, at the head of the
    parameters, gets its mock field and is left out of the constructor
    call: the call passes one name for two parameters. *)
Lemma empty_parameter_name_is_not_passed :
  let ps := [mkParameter "Alpha" ""; mkParameter "Beta" "beta"] in
  let fieldNames := map (fun p => lowercaseFirstLetter (paramName p)) ps in
  let call := "new " ++ className unnamedParameterClass
                ++ JS.interpolate (classParameters unnamedParameterClass)
                ++ "(" ++ String.concat ", " fieldNames ++ ");" in
  constructorParameters unnamedParameterClass = Some ps
  /\ occurrences "@Mock" (createTestClass unnamedParameterClass) = 2
  /\ call = "new Svc(, beta);"
  /\ ~ contains call (createTestClass unnamedParameterClass)
  /\ contains "new Svc(beta);" (createTestClass unnamedParameterClass).
Proof.
  cbv zeta. split; [reflexivity |]. split; [vm_compute; reflexivity |].
  split; [vm_compute; reflexivity |]. split.
  - intros H. apply contains_occurrences in H; [| discriminate].
    vm_compute in H. lia.
  - apply occurrences_contains. vm_compute. lia.
Qed.

(** C4, for a descriptor with N constructor parameters, none with an
    empty name: the generated class holds N mock fields before the
    instance field, one for each parameter and in their order; the field
    of a parameter has the type of the parameter and is named by the
    parameter name with its first character lower-cased; the setup method
    calls the constructor with these N names, comma-separated and in the
    order of the parameters; in a class generated from plain texts the
    [@Mock] annotations are N. *)
Theorem one_mock_field_per_constructor_parameter (c : JavaClass) (ps : list JavaParameter) :
  constructorParameters c = Some ps ->
  Forall (fun p => paramName p <> "") ps ->
  let fieldNames := map (fun p => lowercaseFirstLetter (paramName p)) ps in
  let fields := map mockField ps in
  let call := "new " ++ className c ++ JS.interpolate (classParameters c)
                ++ "(" ++ String.concat ", " fieldNames ++ ");" in
  createTestClass c
  = classHeader c
      ++ concatAll fields
      ++ instanceAndSetup c (String.concat ", " fieldNames)
      ++ testsSection c
      ++ line 0 "}"
  /\ List.length fields = List.length ps
  /\ List.length fieldNames = List.length ps
  /\ (forall i p, nth_error ps i = Some p ->
      nth_error fieldNames i = Some (lowercaseFirstLetter (paramName p))
      /\ nth_error fields i
         = Some (line 1 "@Mock"
                   ++ line 1 ("private " ++ paramType p ++ " "
                                ++ lowercaseFirstLetter (paramName p) ++ ";")))
  /\ contains call (createTestClass c)
  /\ (plainClass c = true -> occurrences "@Mock" (createTestClass c) = List.length ps).
Proof.
  intros Hps Hnames. cbv zeta.
  assert (Hfn : map (fun p => lowercaseFirstLetter (paramName p)) ps = map attributeName ps).
  { apply map_ext. intros p. apply lowercaseFirstLetter_firstLowered. }
  rewrite Hfn.
  assert (Hargs : collectArgs (map attributeName ps) = String.concat ", " (map attributeName ps)).
  { apply collectArgs_join. rewrite Forall_map.
    eapply Forall_impl; [| exact Hnames]. intros p Hp. now apply firstLowered_nonempty. }
  assert (Hlayout : createTestClass c
    = classHeader c ++ concatAll (map mockField ps)
        ++ instanceAndSetup c (String.concat ", " (map attributeName ps))
        ++ testsSection c ++ line 0 "}").
  { rewrite createTestClass_layout, Hps. cbn [elements]. now rewrite Hargs. }
  split; [exact Hlayout |].
  split; [apply length_map |]. split; [apply length_map |].
  split; [| split].
  - intros i p Hi. rewrite !nth_error_map, Hi. cbn [option_map].
    rewrite (lowercaseFirstLetter_firstLowered (paramName p)). split; [reflexivity |].
    f_equal. unfold mockField, attributeName, line, tabs. cbn [repeat concatAll fold_right].
    now rewrite !append_assoc.
  - rewrite Hlayout. apply contains_app_r, contains_app_r, contains_app_l.
    unfold instanceAndSetup, setupStatement.
    exists (lit "\n\t" ++ instanceField c ++ lit "\n\n\t@Before\n\tpublic void setup() {\n\t\t"
              ++ "this." ++ firstLowered (className c) ++ " = "),
      (lit "\n\t}\n").
    now rewrite !append_assoc.
  - intros Hp. rewrite (createTestClass_Mock _ Hp), Hps. reflexivity.
Qed.

Lemma one_mock_field_per_constructor_parameter_witness :
  occurrences "@Mock" (createTestClass orderService) = 2
  /\ contains "new OrderService(repo, clock);" (createTestClass orderService).
Proof.
  destruct (one_mock_field_per_constructor_parameter orderService
              [mkParameter "Repository" "Repo"; mkParameter "Clock" "clock"] eq_refl)
    as (_ & _ & _ & _ & Hcall & Hcount).
  { repeat constructor; discriminate. }
  split; [exact (Hcount eq_refl) | exact Hcall].
Defined.

(** ** The call of the method under test *)

(** C8: the test of a public method ends with the statement that calls
    the method on the instance under test, a blank line and the comment
    that marks the place of the assertions; the statement assigns the
    result to a local variable [actualValue] of the return type of the
    method when the return type is not [void], and is the bare call when
    it is [void]. *)
Theorem test_method_captures_result (c : JavaClass) (ms : list JavaMethod) (m : JavaMethod) :
  publicMethods c = Some ms ->
  In m ms ->
  let varName := lowercaseFirstLetter (className c) in
  let call := varName ++ "." ++ methodName m ++ "(" ++ methodArgs m ++ ");" in
  exists statement,
    (forall content,
        publicMethodStep varName content m
        = content ++ testMethodHeader m ++ localDeclarations m
            ++ line 2 statement
            ++ line 0 ""
            ++ line 2 "// TODO: assert scenario"
            ++ line 1 "}")
    /\ contains (line 2 statement ++ line 0 "" ++ line 2 "// TODO: assert scenario")
         (createTestClass c)
    /\ (returnType m <> "void" ->
        statement = returnType m ++ " actualValue = " ++ call)
    /\ (returnType m = "void" -> statement = call).
Proof.
  intros Hms Hin. cbv zeta. rewrite lowercaseFirstLetter_firstLowered.
  exists (callStatement (firstLowered (className c)) m).
  assert (Hblock : testMethod (firstLowered (className c)) m
    = testMethodHeader m ++ localDeclarations m
        ++ line 2 (callStatement (firstLowered (className c)) m)
        ++ line 0 "" ++ line 2 "// TODO: assert scenario" ++ line 1 "}").
  { unfold testMethod, line, tabs. cbn [repeat concatAll fold_right].
    now rewrite !append_assoc. }
  split; [| split; [| split]].
  - intros content. now rewrite publicMethodStep_appends, Hblock.
  - rewrite createTestClass_layout. apply contains_app_r, contains_app_r, contains_app_r.
    apply contains_app_l. unfold testsSection. rewrite Hms.
    destruct ms as [|m0 ms0]; [contradiction |]. cbn [nonEmpty elements].
    apply (contains_concatAll _ _ (testMethod (firstLowered (className c)) m)).
    + now apply in_map.
    + rewrite Hblock. apply contains_app_r, contains_app_r.
      exists "", (line 1 "}"). now rewrite !append_assoc.
  - intros Hrt. unfold callStatement.
    apply String.eqb_neq in Hrt. rewrite Hrt. now rewrite !append_assoc.
  - intros Hrt. unfold callStatement.
    apply String.eqb_eq in Hrt. now rewrite Hrt.
Qed.

Lemma test_method_captures_result_witness :
  contains (line 2 "int actualValue = counter.get();" ++ line 0 ""
              ++ line 2 "// TODO: assert scenario") (createTestClass counterClass)
  /\ contains (line 2 "counter.reset();" ++ line 0 ""
                 ++ line 2 "// TODO: assert scenario") (createTestClass counterClass).
Proof.
  split.
  - destruct (test_method_captures_result counterClass
                [mkMethod "get" "int" None; mkMethod "reset" "void" (Some [])]
                (mkMethod "get" "int" None) eq_refl (or_introl eq_refl))
      as (statement & _ & Hin & Hvalue & _).
    rewrite Hvalue in Hin; [exact Hin | discriminate].
  - destruct (test_method_captures_result counterClass
                [mkMethod "get" "int" None; mkMethod "reset" "void" (Some [])]
                (mkMethod "reset" "void" (Some [])) eq_refl (or_intror (or_introl eq_refl)))
      as (statement & _ & Hin & _ & Hvoid).
    rewrite Hvoid in Hin; [exact Hin | reflexivity].
Defined.

(** ** Missing pieces of a descriptor *)

(** The template renders the absent generic clause of [bareClass] as the
    text [undefined]. *)
Lemma absent_generic_clause_renders_undefined :
  className bareClass <> ""
  /\ ~ absentClauseRendersEmpty bareClass
  /\ contains "private Fooundefined foo;" (createTestClass bareClass)
  /\ contains "this.foo = new Fooundefined();" (createTestClass bareClass).
Proof.
  split; [discriminate |]. split; [| split].
  - intros H. specialize (H eq_refl).
    apply contains_occurrences in H; [| discriminate].
    vm_compute in H. lia.
  - apply occurrences_contains. vm_compute. lia.
  - apply occurrences_contains. vm_compute. lia.
Qed.

(** C9, for a descriptor whose generic clause is a text: [createTestClass]
    returns the text of a class for every descriptor; absent or empty
    constructor parameters give no mock field and a constructor call
    without arguments; absent or empty public methods give the
    placeholder test; an empty generic clause leaves the class name bare
    in the instance field and in the constructor call. *)
Theorem createTestClass_degrades_to_defaults (c : JavaClass) :
  exists mockFields constructorArgs tests,
    createTestClass c
    = classHeader c ++ mockFields ++ instanceAndSetup c constructorArgs ++ tests ++ line 0 "}"
    /\ (constructorParameters c = None \/ constructorParameters c = Some [] ->
        mockFields = "" /\ constructorArgs = "")
    /\ (publicMethods c = None \/ publicMethods c = Some [] ->
        tests = defaultTestMethod)
    /\ (classParameters c = Some "" ->
        instanceField c
        = "private " ++ className c ++ " " ++ lowercaseFirstLetter (className c) ++ ";"
        /\ setupStatement c constructorArgs
           = "this." ++ lowercaseFirstLetter (className c) ++ " = new " ++ className c
               ++ "(" ++ constructorArgs ++ ");").
Proof.
  exists (concatAll (map mockField (elements (constructorParameters c)))),
    (collectArgs (map attributeName (elements (constructorParameters c)))),
    (testsSection c).
  split; [apply createTestClass_layout |]. split; [| split].
  - intros [-> | ->]; split; reflexivity.
  - unfold testsSection. intros [-> | ->]; reflexivity.
  - intros Hg. unfold instanceField, setupStatement.
    rewrite Hg, lowercaseFirstLetter_firstLowered. split; reflexivity.
Qed.

(** The spec's second scenario: a class without constructor and without
    public methods. *)
Lemma createTestClass_degrades_to_defaults_witness :
  createTestClass helperClass
  = classHeader helperClass
      ++ line 0 ""
      ++ line 1 "private Helper helper;"
      ++ line 0 ""
      ++ line 1 "@Before"
      ++ line 1 "public void setup() {"
      ++ line 2 "this.helper = new Helper();"
      ++ line 1 "}"
      ++ defaultTestMethod
      ++ line 0 "}".
Proof.
  destruct (createTestClass_degrades_to_defaults helperClass)
    as (mockFields & args & tests & Hlayout & Hctor & Htests & Hclause).
  destruct (Hctor (or_intror eq_refl)) as [-> ->].
  rewrite (Htests (or_intror eq_refl)) in Hlayout.
  rewrite Hlayout. reflexivity.
Defined.

(** ** Package names *)

(** C6 at [strayTestUri]: the path does not hold the marker of the test
    tree, the start index is computed from the index [-1] of the missing
    marker, and the package name is a piece of the path; the generated
    file declares that package. *)
Theorem package_name_outside_source_root :
  JS.indexOf (fsPath strayTestUri) "/src/test/java" = (-1)%Z
  /\ JS.indexOf (fsPath strayTestUri) "/src/main/java" = (-1)%Z
  /\ createPackageNameFromUri strayTestUri (Some "FooTest") true = "jects.myproject"
  /\ createPackageNameFromUri strayTestUri (Some "FooTest") false = "jects.myproject"
  /\ generateTestClassPackageDeclaration strayTestUri "FooTest" = "package jects.myproject;".
Proof. repeat split; reflexivity. Qed.

(** Inside the source tree the package is the path between the marker and
    the file; at the root of the tree it is empty. *)
Example package_name_inside_source_root :
  createPackageNameFromUri
    (mkUri "/p/src/test/java/com/acme/FooTest.java" "/p/src/test/java/com/acme/FooTest.java")
    (Some "FooTest") true = "com.acme"
  /\ createPackageNameFromUri
       (mkUri "/p/src/main/java/com/acme/Foo.java" "/p/src/main/java/com/acme/Foo.java")
       None false = "com.acme"
  /\ createPackageNameFromUri
       (mkUri "/p/src/test/java/FooTest.java" "/p/src/test/java/FooTest.java")
       (Some "FooTest") true = "".
Proof. repeat split; reflexivity. Qed.

(** * More of the generator *)

(** ** Indices and substrings *)

Section Indices.

Lemma startsWith_split (s p : string) :
  JS.startsWith s p = true -> exists r, s = p ++ r.
Proof.
  revert s; induction p as [|a p IH]; intros s H.
  - now exists s.
  - destruct s as [|b s]; simpl in H; [discriminate |].
    apply andb_true_iff in H as [H1 H2].
    apply Ascii.eqb_eq in H1; subst b.
    destruct (IH _ H2) as [r ->]. now exists r.
Qed.

Lemma indexOf_from_here (p after : string) (pos : nat) :
  JS.indexOf_from pos (p ++ after) p = Z.of_nat pos.
Proof.
  destruct p as [|x p].
  - destruct after; reflexivity.
  - change (String x p ++ after) with (String x (p ++ after)).
    cbn [JS.indexOf_from].
    change (String x (p ++ after)) with (String x p ++ after).
    now rewrite startsWith_append.
Qed.

Lemma indexOf_from_first (p before after : string) (pos : nat) :
  firstOccurrence p (before ++ p ++ after) before ->
  JS.indexOf_from pos (before ++ p ++ after) p = Z.of_nat (pos + String.length before).
Proof.
  revert pos; induction before as [|c before IH]; intros pos [_ Hmin].
  - cbn [append String.length]. rewrite indexOf_from_here. f_equal. lia.
  - change (String c before ++ p ++ after) with (String c (before ++ p ++ after)).
    cbn [JS.indexOf_from].
    destruct (JS.startsWith (String c (before ++ p ++ after)) p) eqn:E.
    + apply startsWith_split in E as [r Hr].
      specialize (Hmin "" r Hr). simpl in Hmin. lia.
    + rewrite IH.
      * cbn [String.length]. f_equal. lia.
      * split; [now exists after |].
        intros b' a' Hs.
        assert (Hle : String.length (String c before) <= String.length (String c b')).
        { apply (Hmin (String c b') a'). simpl. now rewrite Hs. }
        simpl in Hle. lia.
Qed.

(** [indexOf] answers the place of the first occurrence. *)
Lemma indexOf_first (p s before : string) :
  firstOccurrence p s before -> JS.indexOf s p = Z.of_nat (String.length before).
Proof.
  intros H. pose proof H as [[after ->] _].
  unfold JS.indexOf. now rewrite (indexOf_from_first _ _ _ 0 H).
Qed.

Lemma indexOf_from_le (p before after : string) (pos : nat) :
  (Z.of_nat pos <= JS.indexOf_from pos (before ++ p ++ after) p
   <= Z.of_nat (pos + String.length before))%Z.
Proof.
  revert pos; induction before as [|c before IH]; intros pos.
  - cbn [append String.length]. rewrite indexOf_from_here. lia.
  - change (String c before ++ p ++ after) with (String c (before ++ p ++ after)).
    cbn [JS.indexOf_from String.length].
    destruct (JS.startsWith (String c (before ++ p ++ after)) p); [lia |].
    specialize (IH (S pos)). lia.
Qed.

(** A place [indexOf] answers is the place of the first occurrence. *)
Lemma firstOccurrence_indexOf (p before after : string) :
  JS.indexOf (before ++ p ++ after) p = Z.of_nat (String.length before) ->
  firstOccurrence p (before ++ p ++ after) before.
Proof.
  intros H. split; [now exists after |].
  intros b' a' Hs. unfold JS.indexOf in H.
  pose proof (indexOf_from_le p b' a' 0) as Hle. rewrite <- Hs, H in Hle. lia.
Qed.

Lemma substring_skip (a s : string) (m : nat) :
  String.substring (String.length a) m (a ++ s) = String.substring 0 m s.
Proof. induction a as [|c a IH]; [reflexivity | exact IH]. Qed.

Lemma substring_take (m r : string) :
  String.substring 0 (String.length m) (m ++ r) = m.
Proof.
  induction m as [|c m IH]; simpl.
  - now destruct r.
  - now rewrite IH.
Qed.

(** The substring between two indices that delimit a piece is the piece. *)
Lemma substring_middle (a m b : string) :
  JS.substring (a ++ m ++ b)
    (Z.of_nat (String.length a)) (Z.of_nat (String.length a + String.length m)) = m.
Proof.
  unfold JS.substring, JS.clamp. rewrite !length_append, !Nat2Z.id.
  replace (Nat.min (String.length a) (String.length a + (String.length m + String.length b)))
    with (String.length a) by lia.
  replace (Nat.min (String.length a + String.length m)
             (String.length a + (String.length m + String.length b)))
    with (String.length a + String.length m) by lia.
  replace (Nat.min (String.length a) (String.length a + String.length m))
    with (String.length a) by lia.
  replace (Nat.max (String.length a) (String.length a + String.length m) - String.length a)
    with (String.length m) by lia.
  now rewrite substring_skip, substring_take.
Qed.

Lemma replace_slashes_no_slash (s : string) :
  charFree "/" (JS.replace_slashes s) = true.
Proof.
  induction s as [|c s IH]; [reflexivity |].
  unfold JS.replace_slashes in *. cbn [JS.map_chars charFree]. rewrite IH, andb_true_r.
  destruct (Ascii.eqb c "/") eqn:E; [reflexivity |].
  rewrite Ascii.eqb_sym. now rewrite E.
Qed.

Lemma sourceRootMarker_length (isTest : bool) :
  String.length (sourceRootMarker isTest) = 14.
Proof. now destruct isTest. Qed.

End Indices.

(** ** Package names inside a source tree *)

Section PackageNames.

Lemma substring_none (n : nat) (s : string) : String.substring n 0 s = "".
Proof.
  revert n; induction s as [|c s IH]; intros [|n]; try reflexivity. simpl. apply IH.
Qed.

Lemma substring_beyond (s : string) (start : Z) :
  (Z.of_nat (String.length s) <= start)%Z ->
  JS.substring s start (Z.of_nat (String.length s)) = "".
Proof.
  intros H. unfold JS.substring, JS.clamp. rewrite Nat2Z.id.
  replace (Nat.min (Z.to_nat start) (String.length s)) with (String.length s) by lia.
  rewrite !Nat.min_id, Nat.max_id, Nat.sub_diag. apply substring_none.
Qed.

Lemma marker_fold (isTest : bool) :
  (if isTest then "/src/test/java" else "/src/main/java") = sourceRootMarker isTest.
Proof. reflexivity. Qed.

Lemma replace_slashes_hasLength (s : string) :
  hasLength (JS.replace_slashes s) = hasLength s.
Proof. now destruct s. Qed.

(** The package name of a file in a package directory, and of a file at
    the root of a tree. *)
Lemma packageName_in_package
    (uri : Uri) (isTest : bool) (root pkg f : string) :
  hasLength (Posix.extname (path uri)) = true ->
  firstOccurrence (sourceRootMarker isTest) (fsPath uri) root ->
  firstOccurrence f (fsPath uri) (root ++ sourceRootMarker isTest ++ "/" ++ pkg ++ "/") ->
  f <> "" ->
  pkg <> "" ->
  createPackageNameFromUri uri (Some f) isTest = JS.replace_slashes pkg.
Proof.
  intros Hext Hmarker Hfile Hf Hpkg. unfold createPackageNameFromUri.
  rewrite marker_fold, Hext, (proj2 (hasLength_true f) Hf).
  rewrite (indexOf_first _ _ _ Hmarker), (indexOf_first _ _ _ Hfile).
  destruct Hfile as [[after Hshape] _].
  assert (Hlen : 0 < String.length pkg) by (destruct pkg; [congruence | simpl; lia]).
  set (dir := root ++ sourceRootMarker isTest ++ "/").
  replace (Z.of_nat (String.length root) + 15)%Z with (Z.of_nat (String.length dir))
    by (unfold dir; rewrite !length_append, sourceRootMarker_length; cbn [String.length]; lia).
  replace (Z.of_nat (String.length (root ++ sourceRootMarker isTest ++ "/" ++ pkg ++ "/")) - 1)%Z
    with (Z.of_nat (String.length dir + String.length pkg))
    by (unfold dir; rewrite !length_append, sourceRootMarker_length; cbn [String.length]; lia).
  assert (Hcmp : (Z.of_nat (String.length dir)
                  >=? Z.of_nat (String.length dir + String.length pkg))%Z = false)
    by (rewrite Z.geb_leb; apply Z.leb_gt; lia).
  rewrite Hcmp. f_equal.
  replace (fsPath uri) with (dir ++ pkg ++ ("/" ++ f ++ after))
    by (rewrite Hshape; unfold dir; now rewrite !append_assoc).
  apply substring_middle.
Qed.


Lemma packageName_at_root (uri : Uri) (isTest : bool) (root f : string) :
  hasLength (Posix.extname (path uri)) = true ->
  firstOccurrence (sourceRootMarker isTest) (fsPath uri) root ->
  firstOccurrence f (fsPath uri) (root ++ sourceRootMarker isTest ++ "/") ->
  f <> "" ->
  createPackageNameFromUri uri (Some f) isTest = "".
Proof.
  intros Hext Hmarker Hfile Hf. unfold createPackageNameFromUri.
  rewrite marker_fold, Hext, (proj2 (hasLength_true f) Hf).
  rewrite (indexOf_first _ _ _ Hmarker), (indexOf_first _ _ _ Hfile).
  assert (Hcmp : (Z.of_nat (String.length root) + 15
                  >=? Z.of_nat (String.length (root ++ sourceRootMarker isTest ++ "/")) - 1)%Z
                 = true).
  { rewrite Z.geb_leb. apply Z.leb_le.
    rewrite !length_append, sourceRootMarker_length. cbn [String.length]. lia. }
  now rewrite Hcmp.
Qed.

End PackageNames.

(** X1: the package name of a file that lies in a package directory of a
    source tree is the path of the directory below the root of the tree,
    with dots for slashes.  The marker of the tree is looked up at its
    first occurrence in the path, and so is the name of the file. *)
Theorem package_name_of_file_in_package
    (uri : Uri) (isTest : bool) (root pkg f : string) :
  hasLength (Posix.extname (path uri)) = true ->
  firstOccurrence (sourceRootMarker isTest) (fsPath uri) root ->
  firstOccurrence f (fsPath uri) (root ++ sourceRootMarker isTest ++ "/" ++ pkg ++ "/") ->
  f <> "" ->
  pkg <> "" ->
  createPackageNameFromUri uri (Some f) isTest = JS.replace_slashes pkg.
Proof. exact (packageName_in_package uri isTest root pkg f). Qed.

(** The test of [Foo] in the package [com.acme]. *)
Lemma package_name_of_file_in_package_witness :
  createPackageNameFromUri
    (mkUri "/p/src/test/java/com/acme/FooTest.java" "/p/src/test/java/com/acme/FooTest.java")
    (Some "FooTest") true = "com.acme".
Proof.
  apply (package_name_of_file_in_package
           (mkUri "/p/src/test/java/com/acme/FooTest.java" "/p/src/test/java/com/acme/FooTest.java")
           true "/p" "com/acme" "FooTest").
  - reflexivity.
  - apply (firstOccurrence_indexOf "/src/test/java" "/p" "/com/acme/FooTest.java"). reflexivity.
  - apply (firstOccurrence_indexOf "FooTest" "/p/src/test/java/com/acme/" ".java"). reflexivity.
  - discriminate.
  - discriminate.
Defined.

(** X2: the package name of a file that lies at the root of a source tree
    is empty, and the generated test file declares no package. *)
Theorem package_name_of_file_at_root
    (uri : Uri) (isTest : bool) (root f : string) :
  hasLength (Posix.extname (path uri)) = true ->
  firstOccurrence (sourceRootMarker isTest) (fsPath uri) root ->
  firstOccurrence f (fsPath uri) (root ++ sourceRootMarker isTest ++ "/") ->
  f <> "" ->
  createPackageNameFromUri uri (Some f) isTest = ""
  /\ (isTest = true -> generateTestClassPackageDeclaration uri f = "").
Proof.
  intros Hext Hmarker Hfile Hf.
  pose proof (packageName_at_root uri isTest root f Hext Hmarker Hfile Hf) as H.
  split; [exact H |].
  intros ->. unfold generateTestClassPackageDeclaration. now rewrite H.
Qed.

Lemma package_name_of_file_at_root_witness :
  generateTestClassPackageDeclaration
    (mkUri "/p/src/test/java/FooTest.java" "/p/src/test/java/FooTest.java") "FooTest" = "".
Proof.
  apply (package_name_of_file_at_root
           (mkUri "/p/src/test/java/FooTest.java" "/p/src/test/java/FooTest.java")
           true "/p" "FooTest").
  - reflexivity.
  - apply (firstOccurrence_indexOf "/src/test/java" "/p" "/FooTest.java"). reflexivity.
  - apply (firstOccurrence_indexOf "FooTest" "/p/src/test/java/" ".java"). reflexivity.
  - discriminate.
  - reflexivity.
Defined.

(** X3: the package name of a directory (a location without extension)
    below the root of a source tree is the path of the directory below
    the root, with dots for slashes; the package name of the root
    directory itself is empty. *)
Theorem package_name_of_directory
    (uri : Uri) (filename : option string) (isTest : bool) (root : string) :
  hasLength (Posix.extname (path uri)) = false ->
  String.length (path uri) = String.length (fsPath uri) ->
  firstOccurrence (sourceRootMarker isTest) (fsPath uri) root ->
  (forall pkg, fsPath uri = root ++ sourceRootMarker isTest ++ "/" ++ pkg ->
     createPackageNameFromUri uri filename isTest = JS.replace_slashes pkg)
  /\ (fsPath uri = root ++ sourceRootMarker isTest ->
      createPackageNameFromUri uri filename isTest = "").
Proof.
  intros Hext Hlen Hmarker. split.
  - intros pkg Hshape. unfold createPackageNameFromUri.
    rewrite marker_fold, Hext, (indexOf_first _ _ _ Hmarker), Hlen. f_equal.
    replace (fsPath uri) with ((root ++ sourceRootMarker isTest ++ "/") ++ pkg ++ "")
      by (rewrite Hshape, append_nil_r; now rewrite !append_assoc).
    replace (Z.of_nat (String.length root) + 15)%Z
      with (Z.of_nat (String.length (root ++ sourceRootMarker isTest ++ "/")))
      by (rewrite !length_append, sourceRootMarker_length; cbn [String.length]; lia).
    replace (Z.of_nat (String.length ((root ++ sourceRootMarker isTest ++ "/") ++ pkg ++ "")))
      with (Z.of_nat (String.length (root ++ sourceRootMarker isTest ++ "/") + String.length pkg))
      by (rewrite !length_append; cbn [String.length]; lia).
    apply substring_middle.
  - intros Hshape. unfold createPackageNameFromUri.
    rewrite marker_fold, Hext, (indexOf_first _ _ _ Hmarker), Hlen.
    rewrite substring_beyond; [reflexivity |].
    rewrite Hshape, !length_append, sourceRootMarker_length. lia.
Qed.

Lemma package_name_of_directory_witness :
  createPackageNameFromUri
    (mkUri "/p/src/main/java/com/acme" "/p/src/main/java/com/acme") None false = "com.acme"
  /\ createPackageNameFromUri
       (mkUri "/p/src/main/java" "/p/src/main/java") None false = "".
Proof.
  split.
  - refine (proj1 (package_name_of_directory
                     (mkUri "/p/src/main/java/com/acme" "/p/src/main/java/com/acme")
                     None false "/p" eq_refl eq_refl _) "com/acme" eq_refl).
    apply (firstOccurrence_indexOf "/src/main/java" "/p" "/com/acme"). reflexivity.
  - refine (proj2 (package_name_of_directory
                     (mkUri "/p/src/main/java" "/p/src/main/java")
                     None false "/p" eq_refl eq_refl _) eq_refl).
    apply (firstOccurrence_indexOf "/src/main/java" "/p" ""). reflexivity.
Defined.

(** X4: a package name holds no slash, whatever the location, the file
    name and the tree. *)
Theorem package_name_without_slash (uri : Uri) (filename : option string) (isTest : bool) :
  charFree "/" (createPackageNameFromUri uri filename isTest) = true.
Proof.
  unfold createPackageNameFromUri.
  destruct (hasLength (Posix.extname (path uri))).
  - match goal with |- context [if ?b then "" else _] => destruct b end;
      [reflexivity | apply replace_slashes_no_slash].
  - apply replace_slashes_no_slash.
Qed.

(** X5: the test file of a class in a package directory of the test tree
    declares the package of the directory; the declaration is the line
    [package], the dotted package name and a semicolon. *)
Theorem package_declaration_of_test_in_package
    (testFileUri : Uri) (testClassName root pkg : string) :
  hasLength (Posix.extname (path testFileUri)) = true ->
  firstOccurrence "/src/test/java" (fsPath testFileUri) root ->
  firstOccurrence testClassName (fsPath testFileUri) (root ++ "/src/test/java" ++ "/" ++ pkg ++ "/") ->
  testClassName <> "" ->
  pkg <> "" ->
  generateTestClassPackageDeclaration testFileUri testClassName
  = "package " ++ JS.replace_slashes pkg ++ ";"
  /\ charFree "/" (generateTestClassPackageDeclaration testFileUri testClassName) = true.
Proof.
  intros Hext Hmarker Hfile Hname Hpkg.
  unfold generateTestClassPackageDeclaration.
  rewrite (packageName_in_package testFileUri true root pkg testClassName
             Hext Hmarker Hfile Hname Hpkg).
  rewrite replace_slashes_hasLength, (proj2 (hasLength_true pkg) Hpkg). cbn [negb].
  split; [reflexivity |].
  rewrite !charFree_app, replace_slashes_no_slash. reflexivity.
Qed.

Lemma package_declaration_of_test_in_package_witness :
  generateTestClassPackageDeclaration
    (mkUri "/p/src/test/java/com/acme/FooTest.java" "/p/src/test/java/com/acme/FooTest.java")
    "FooTest" = "package com.acme;".
Proof.
  apply (package_declaration_of_test_in_package
           (mkUri "/p/src/test/java/com/acme/FooTest.java" "/p/src/test/java/com/acme/FooTest.java")
           "FooTest" "/p" "com/acme").
  - reflexivity.
  - apply (firstOccurrence_indexOf "/src/test/java" "/p" "/com/acme/FooTest.java"). reflexivity.
  - apply (firstOccurrence_indexOf "FooTest" "/p/src/test/java/com/acme/" ".java"). reflexivity.
  - discriminate.
  - discriminate.
Defined.

(** X6: the import of a class in a package directory of the main tree
    names the class by its dotted package name and its class name; for a
    class at the root of the main tree there is no import. *)
Theorem import_of_class_in_main_tree (javaFileUri : Uri) (javaClassName root : string) :
  hasLength (Posix.extname (path javaFileUri)) = true ->
  firstOccurrence "/src/main/java" (fsPath javaFileUri) root ->
  javaClassName <> "" ->
  (forall pkg,
      pkg <> "" ->
      firstOccurrence javaClassName (fsPath javaFileUri)
        (root ++ "/src/main/java" ++ "/" ++ pkg ++ "/") ->
      generateTargetTestClassPackageImport javaFileUri javaClassName
      = "import " ++ JS.replace_slashes pkg ++ "." ++ javaClassName ++ ";")
  /\ (firstOccurrence javaClassName (fsPath javaFileUri) (root ++ "/src/main/java" ++ "/") ->
      generateTargetTestClassPackageImport javaFileUri javaClassName = "").
Proof.
  intros Hext Hmarker Hname. unfold generateTargetTestClassPackageImport. split.
  - intros pkg Hpkg Hfile.
    rewrite (packageName_in_package javaFileUri false root pkg javaClassName
               Hext Hmarker Hfile Hname Hpkg).
    now rewrite replace_slashes_hasLength, (proj2 (hasLength_true pkg) Hpkg).
  - intros Hfile.
    now rewrite (packageName_at_root javaFileUri false root javaClassName
                   Hext Hmarker Hfile Hname).
Qed.

Lemma import_of_class_in_main_tree_witness :
  generateTargetTestClassPackageImport
    (mkUri "/p/src/main/java/com/acme/Foo.java" "/p/src/main/java/com/acme/Foo.java") "Foo"
  = "import com.acme.Foo;"
  /\ generateTargetTestClassPackageImport
       (mkUri "/p/src/main/java/Foo.java" "/p/src/main/java/Foo.java") "Foo" = "".
Proof.
  split.
  - refine (proj1 (import_of_class_in_main_tree
                     (mkUri "/p/src/main/java/com/acme/Foo.java" "/p/src/main/java/com/acme/Foo.java")
                     "Foo" "/p" eq_refl _ _) "com/acme" _ _).
    + apply (firstOccurrence_indexOf "/src/main/java" "/p" "/com/acme/Foo.java"). reflexivity.
    + discriminate.
    + discriminate.
    + apply (firstOccurrence_indexOf "Foo" "/p/src/main/java/com/acme/" ".java"). reflexivity.
  - refine (proj2 (import_of_class_in_main_tree
                     (mkUri "/p/src/main/java/Foo.java" "/p/src/main/java/Foo.java")
                     "Foo" "/p" eq_refl _ _) _).
    + apply (firstOccurrence_indexOf "/src/main/java" "/p" "/Foo.java"). reflexivity.
    + discriminate.
    + apply (firstOccurrence_indexOf "Foo" "/p/src/main/java/" ".java"). reflexivity.
Defined.

(** ** The generated file *)

Section GeneratedFile.

Lemma selectPublicClass_public (cs cs' : list JavaClass) (c : JavaClass) :
  selectPublicClass cs = Some (c, cs') -> isPublic c = true.
Proof.
  unfold selectPublicClass. destruct (find isPublic cs) as [d|] eqn:E.
  - intros H. injection H as <- _. now apply find_some in E.
  - destruct cs as [|first others]; [discriminate |].
    intros H. injection H as <- _. reflexivity.
Qed.

Lemma selectPublicClass_member (cs cs' : list JavaClass) (c : JavaClass) :
  selectPublicClass cs = Some (c, cs') -> In c cs'.
Proof.
  unfold selectPublicClass. destruct (find isPublic cs) as [d|] eqn:E.
  - intros H. injection H as <- <-. now apply find_some in E.
  - destruct cs as [|first others]; [discriminate |].
    intros H. injection H as <- <-. now left.
Qed.

Lemma selectPublicClass_some (first : JavaClass) (others : list JavaClass) :
  exists c cs', selectPublicClass (first :: others) = Some (c, cs').
Proof.
  unfold selectPublicClass. destruct (find isPublic (first :: others)); eauto.
Qed.

End GeneratedFile.

(** X7: every generated file is the package declaration, the imports and
    one class, and the class is public: with descriptors the class text
    opens with the runner annotation and a modifier that starts with
    [public]; without descriptors it opens with [public class] and the
    fallback test name. *)
Theorem generated_class_is_public
    (parse : Uri -> option (list JavaClass))
    (javaFileUri : Uri) (javaClassName : string)
    (testFileUri : Uri) (testClassName : string) :
  exists body,
    JS.Buffer_toString
      (fst (generateTestClassFileContent parse javaFileUri javaClassName
              testFileUri testClassName))
    = generateTestClassPackageDeclaration testFileUri testClassName
        ++ createDefaultImports ++ body
    /\ JS.startsWith body
         (if nonEmpty (parse javaFileUri)
          then String NL "" ++ line 0 "@RunWith(MockitoJUnitRunner.class)" ++ "public"
          else String NL "" ++ "public class " ++ testClassName ++ " {") = true.
Proof.
  unfold generateTestClassFileContent, JS.Buffer_toString, JS.Buffer_from.
  destruct (nonEmpty (parse javaFileUri)) eqn:Hne.
  - destruct (parse javaFileUri) as [[|first others]|]; try discriminate.
    cbn [elements].
    destruct (selectPublicClass_some first others) as (c & cs' & Hsel). rewrite Hsel.
    cbn [fst]. rewrite string_of_list_byte_of_string.
    exists (createTestClass c). split; [now rewrite append_assoc |].
    apply selectPublicClass_public in Hsel. unfold isPublic in Hsel.
    apply startsWith_split in Hsel as [r Hr].
    rewrite createTestClass_layout. unfold classHeader. rewrite Hr.
    match goal with
    | |- JS.startsWith ?s ?p = true =>
        replace s with (p ++ r ++ "class " ++ className c ++ lit "Test {\n"
                          ++ concatAll (map mockField (elements (constructorParameters c)))
                          ++ instanceAndSetup c
                               (collectArgs (map attributeName (elements (constructorParameters c))))
                          ++ testsSection c ++ lit "}\n")
    end.
    + apply startsWith_append.
    + unfold line, tabs. cbn [repeat concatAll fold_right]. now rewrite !append_assoc.
  - cbn [fst]. rewrite string_of_list_byte_of_string.
    exists (createDefaultTestClass javaClassName testClassName).
    split; [now rewrite append_assoc |].
    unfold createDefaultTestClass.
    match goal with
    | |- JS.startsWith ?s ?p = true =>
        replace s with (p ++ lit "\n\tprivate " ++ javaClassName
          ++ lit " cut;\n\n\t@Before\n\tpublic void setup() {\n\t\tthis.cut = new " ++ javaClassName
          ++ lit "();\n\t}\n\n\t@Test\n\tpublic void shouldCompile() {\n\t\tassertThat(\qActual value\q, is(\qExpected value\q));\n\t}\n}")
    end.
    + apply startsWith_append.
    + now rewrite !append_assoc.
Qed.

(** X8: a generation leaves the descriptor array with its length and with
    every descriptor as it was, the modifier of the first descriptor
    apart; the array is left unchanged when one of its descriptors is
    public, and holds a public descriptor afterwards when it is not
    empty. *)
Theorem descriptors_after_generation
    (parse : Uri -> option (list JavaClass))
    (javaFileUri : Uri) (javaClassName : string)
    (testFileUri : Uri) (testClassName : string)
    (cs : list JavaClass) :
  parse javaFileUri = Some cs ->
  exists cs',
    snd (generateTestClassFileContent parse javaFileUri javaClassName
           testFileUri testClassName) = Some cs'
    /\ List.length cs' = List.length cs
    /\ tl cs' = tl cs
    /\ map className cs' = map className cs
    /\ map classParameters cs' = map classParameters cs
    /\ map constructorParameters cs' = map constructorParameters cs
    /\ map publicMethods cs' = map publicMethods cs
    /\ ((exists c, In c cs /\ isPublic c = true) -> cs' = cs)
    /\ (cs <> [] -> exists c, In c cs' /\ isPublic c = true).
Proof.
  intros Hparse. unfold generateTestClassFileContent. rewrite Hparse.
  destruct cs as [|first others].
  - exists []. cbn. repeat split; try reflexivity. congruence.
  - cbn [nonEmpty elements]. unfold selectPublicClass.
    destruct (find isPublic (first :: others)) as [c|] eqn:E.
    + exists (first :: others). cbn [snd]. repeat split; try reflexivity.
      intros _. exists c. apply find_some in E. exact E.
    + exists (setAccessModifier first "public " :: others). cbn [snd].
      repeat split; try reflexivity.
      * intros (c & Hin & Hc). pose proof (find_none _ _ E _ Hin). congruence.
      * intros _. exists (setAccessModifier first "public "). split; [now left | reflexivity].
Qed.

Lemma descriptors_after_generation_witness :
  snd (generateTestClassFileContent (fun _ => Some [helperClass; bareClass])
         (mkUri "/p/src/main/java/Helper.java" "/p/src/main/java/Helper.java") "Helper"
         (mkUri "/p/src/test/java/HelperTest.java" "/p/src/test/java/HelperTest.java") "HelperTest")
  = Some [helperClass; bareClass].
Proof.
  destruct (descriptors_after_generation (fun _ => Some [helperClass; bareClass])
              (mkUri "/p/src/main/java/Helper.java" "/p/src/main/java/Helper.java") "Helper"
              (mkUri "/p/src/test/java/HelperTest.java" "/p/src/test/java/HelperTest.java")
              "HelperTest" [helperClass; bareClass] eq_refl)
    as (cs' & Hsnd & _ & _ & _ & _ & _ & _ & Hsame & _).
  rewrite Hsnd. f_equal. apply Hsame.
  exists bareClass. split; [right; left; reflexivity | reflexivity].
Defined.

(** X9: a second generation from the descriptor array a generation has
    left gives the same file and leaves the array as it is. *)
Theorem generation_is_idempotent
    (parse : Uri -> option (list JavaClass))
    (javaFileUri : Uri) (javaClassName : string)
    (testFileUri : Uri) (testClassName : string) :
  let first := generateTestClassFileContent parse javaFileUri javaClassName
                 testFileUri testClassName in
  generateTestClassFileContent (fun _ => snd first) javaFileUri javaClassName
    testFileUri testClassName = first.
Proof.
  cbv zeta. unfold generateTestClassFileContent.
  destruct (parse javaFileUri) as [[|c0 others]|]; try reflexivity.
  cbn [nonEmpty elements]. unfold selectPublicClass.
  destruct (find isPublic (c0 :: others)) as [c|] eqn:E; cbn [snd nonEmpty elements].
  - now rewrite E.
  - reflexivity.
Qed.

(** ** Arguments of the generated calls *)

Section CallArguments.

Lemma collectArgs_dropEmptyHead (names : list string) :
  collectArgs names = String.concat ", " (dropEmptyHead names).
Proof.
  induction names as [|n names IH]; [reflexivity |].
  cbn [dropEmptyHead]. destruct (hasLength n) eqn:Hn.
  - unfold collectArgs. cbn [fold_left]. unfold argsStep at 2.
    cbn [hasLength String.length Nat.eqb negb].
    rewrite fold_argsStep_nonempty by now apply hasLength_true.
    now rewrite join_cons.
  - apply hasLength_false in Hn. subst n. exact IH.
Qed.

End CallArguments.

(** X10: the constructor call of the setup method passes the names of the
    mock fields from the first non-empty name on, separated by commas;
    empty names at the head of the parameter list leave no trace in the
    call. *)
Theorem constructor_call_arguments (c : JavaClass) :
  let fieldNames :=
    map (fun p => lowercaseFirstLetter (paramName p)) (elements (constructorParameters c)) in
  contains ("this." ++ lowercaseFirstLetter (className c) ++ " = new " ++ className c
              ++ JS.interpolate (classParameters c)
              ++ "(" ++ String.concat ", " (dropEmptyHead fieldNames) ++ ");")
    (createTestClass c).
Proof.
  cbv zeta. rewrite lowercaseFirstLetter_firstLowered.
  replace (map (fun p => lowercaseFirstLetter (paramName p)) (elements (constructorParameters c)))
    with (map attributeName (elements (constructorParameters c)))
    by (apply map_ext; intros p; symmetry; apply lowercaseFirstLetter_firstLowered).
  rewrite <- collectArgs_dropEmptyHead.
  rewrite createTestClass_layout. apply contains_app_r, contains_app_r, contains_app_l.
  unfold instanceAndSetup, setupStatement.
  exists (lit "\n\t" ++ instanceField c ++ lit "\n\n\t@Before\n\tpublic void setup() {\n\t\t"),
    (lit "\n\t}\n").
  now rewrite !append_assoc.
Qed.

Section MethodTests.

Lemma testMethod_in_class (c : JavaClass) (ms : list JavaMethod) (m : JavaMethod) :
  publicMethods c = Some ms ->
  In m ms ->
  contains (testMethod (firstLowered (className c)) m) (createTestClass c).
Proof.
  intros Hms Hin. rewrite createTestClass_layout.
  apply contains_app_r, contains_app_r, contains_app_r, contains_app_l.
  unfold testsSection. rewrite Hms.
  destruct ms as [|m0 ms0]; [contradiction |]. cbn [nonEmpty elements].
  apply (contains_concatAll _ _ (testMethod (firstLowered (className c)) m)).
  - now apply in_map.
  - apply contains_self.
Qed.

(** The test of a method with parameters, line by line. *)
Lemma testMethod_with_parameters (varName : string) (m : JavaMethod) (ps : list JavaParameter) :
  parameters m = Some ps ->
  ps <> [] ->
  Forall (fun p => paramName p <> "") ps ->
  testMethod varName m
  = String NL "" ++ line 1 "@Test"
      ++ line 1 ("public void should" ++ capitalizeFirstLetter (methodName m) ++ "() {")
      ++ line 2 "// TODO: initialize args"
      ++ concatAll (map localVariable ps)
      ++ line 0 ""
      ++ line 2 (resultCapture m ++ varName ++ "." ++ methodName m
                   ++ "(" ++ String.concat ", " (map paramName ps) ++ ");")
      ++ line 0 ""
      ++ line 2 "// TODO: assert scenario"
      ++ line 1 "}".
Proof.
  intros Hps Hne Hnames.
  unfold testMethod, testMethodHeader, localDeclarations, callStatement, methodArgs.
  rewrite Hps. cbn [elements].
  destruct ps as [|p ps]; [congruence |]. cbn [nonEmpty].
  rewrite collectArgs_join by (rewrite Forall_map; exact Hnames).
  rewrite capitalizeFirstLetter_firstUppered.
  replace (map localDeclaration (p :: ps)) with (map localVariable (p :: ps)).
  - unfold resultCapture, line, tabs. cbn [repeat concatAll fold_right].
    destruct (returnType m =? "void"); now rewrite !append_assoc.
  - apply map_ext. intros q. unfold localVariable, localDeclaration, line, tabs.
    cbn [repeat concatAll fold_right]. now rewrite !append_assoc.
Qed.

(** The test of a method without parameters, line by line. *)
Lemma testMethod_without_parameters (varName : string) (m : JavaMethod) :
  parameters m = Some [] \/ parameters m = None ->
  testMethod varName m
  = String NL "" ++ line 1 "@Test"
      ++ line 1 ("public void should" ++ capitalizeFirstLetter (methodName m) ++ "() {")
      ++ line 2 (resultCapture m ++ varName ++ "." ++ methodName m ++ "();")
      ++ line 0 ""
      ++ line 2 "// TODO: assert scenario"
      ++ line 1 "}".
Proof.
  intros Hps.
  unfold testMethod, testMethodHeader, localDeclarations, callStatement, methodArgs.
  rewrite capitalizeFirstLetter_firstUppered.
  unfold resultCapture, line, tabs. cbn [repeat concatAll fold_right].
  destruct Hps as [-> | ->]; cbn [nonEmpty elements map collectArgs fold_left];
    unfold collectArgs; cbn [fold_left];
    destruct (returnType m =? "void"); now rewrite !append_assoc.
Qed.

End MethodTests.

(** X11: the test of a public method with parameters declares one local
    variable for each parameter, in the order of the parameters, under
    the comment that asks to initialize them, and calls the method on the
    instance under test with the names of the parameters, separated by
    commas and in their order. *)
Theorem test_method_with_parameters
    (c : JavaClass) (ms : list JavaMethod) (m : JavaMethod) (ps : list JavaParameter) :
  publicMethods c = Some ms ->
  In m ms ->
  parameters m = Some ps ->
  ps <> [] ->
  Forall (fun p => paramName p <> "") ps ->
  contains
    (String NL "" ++ line 1 "@Test"
       ++ line 1 ("public void should" ++ capitalizeFirstLetter (methodName m) ++ "() {")
       ++ line 2 "// TODO: initialize args"
       ++ concatAll (map localVariable ps)
       ++ line 0 ""
       ++ line 2 (resultCapture m ++ lowercaseFirstLetter (className c) ++ "." ++ methodName m
                    ++ "(" ++ String.concat ", " (map paramName ps) ++ ");")
       ++ line 0 ""
       ++ line 2 "// TODO: assert scenario"
       ++ line 1 "}")
    (createTestClass c).
Proof.
  intros Hms Hin Hps Hne Hnames.
  rewrite (lowercaseFirstLetter_firstLowered (className c)).
  rewrite <- (testMethod_with_parameters _ _ _ Hps Hne Hnames).
  exact (testMethod_in_class _ _ _ Hms Hin).
Qed.

Lemma test_method_with_parameters_witness :
  contains
    (String NL "" ++ line 1 "@Test"
       ++ line 1 "public void shouldAdd() {"
       ++ line 2 "// TODO: initialize args"
       ++ line 2 "int a;"
       ++ line 2 "int b;"
       ++ line 0 ""
       ++ line 2 "int actualValue = calculator.add(a, b);"
       ++ line 0 ""
       ++ line 2 "// TODO: assert scenario"
       ++ line 1 "}")
    (createTestClass calculatorClass).
Proof.
  apply (test_method_with_parameters calculatorClass
           [mkMethod "add" "int" (Some [mkParameter "int" "a"; mkParameter "int" "b"])]
           (mkMethod "add" "int" (Some [mkParameter "int" "a"; mkParameter "int" "b"]))
           [mkParameter "int" "a"; mkParameter "int" "b"] eq_refl).
  - left. reflexivity.
  - reflexivity.
  - discriminate.
  - repeat constructor; discriminate.
Defined.

(** X12: the test of a public method whose parameters are empty or absent
    declares no local variable and calls the method without arguments. *)
Theorem test_method_without_parameters
    (c : JavaClass) (ms : list JavaMethod) (m : JavaMethod) :
  publicMethods c = Some ms ->
  In m ms ->
  parameters m = Some [] \/ parameters m = None ->
  contains
    (String NL "" ++ line 1 "@Test"
       ++ line 1 ("public void should" ++ capitalizeFirstLetter (methodName m) ++ "() {")
       ++ line 2 (resultCapture m ++ lowercaseFirstLetter (className c) ++ "." ++ methodName m
                    ++ "();")
       ++ line 0 ""
       ++ line 2 "// TODO: assert scenario"
       ++ line 1 "}")
    (createTestClass c).
Proof.
  intros Hms Hin Hps.
  rewrite (lowercaseFirstLetter_firstLowered (className c)).
  rewrite <- (testMethod_without_parameters _ _ Hps).
  exact (testMethod_in_class _ _ _ Hms Hin).
Qed.

Lemma test_method_without_parameters_witness :
  contains
    (String NL "" ++ line 1 "@Test"
       ++ line 1 "public void shouldReset() {"
       ++ line 2 "counter.reset();"
       ++ line 0 ""
       ++ line 2 "// TODO: assert scenario"
       ++ line 1 "}")
    (createTestClass counterClass).
Proof.
  apply (test_method_without_parameters counterClass
           [mkMethod "get" "int" None; mkMethod "reset" "void" (Some [])]
           (mkMethod "reset" "void" (Some [])) eq_refl).
  - right. left. reflexivity.
  - left. reflexivity.
Defined.

(** ** Annotations and braces of the generated class *)

(** Counts the occurrences of a character in the closed texts of a goal. *)
Ltac count_closed :=
  repeat match goal with
  | |- context [countChar ?a (lit ?s ++ lit ?t)] =>
      let v := eval vm_compute in (countChar a (lit s ++ lit t)) in
      change (countChar a (lit s ++ lit t)) with v
  | |- context [countChar ?a (lit ?s)] =>
      let v := eval vm_compute in (countChar a (lit s)) in
      change (countChar a (lit s)) with v
  | |- context [countChar ?a (String ?c ?r)] =>
      let v := eval vm_compute in (countChar a (String c r)) in
      change (countChar a (String c r)) with v
  end.

Section Census.

Lemma boundarySafe_char (a : ascii) (s : string) : boundarySafe (String a "") s = true.
Proof.
  induction s as [|c s IH]; [reflexivity |].
  cbn [boundarySafe strictPrefix]. rewrite IH.
  destruct s; now rewrite andb_false_r.
Qed.

Lemma countChar_app (a : ascii) (x y : string) :
  countChar a (x ++ y) = countChar a x + countChar a y.
Proof. unfold countChar. apply occurrences_app, boundarySafe_char. Qed.

Lemma countChar_free (a : ascii) (s : string) : charFree a s = true -> countChar a s = 0.
Proof. apply occurrences_free. Qed.

Lemma countChar_concatAll {A : Type} (a : ascii) (f : A -> string) (l : list A) (k : nat) :
  (forall x, In x l -> countChar a (f x) = k) ->
  countChar a (concatAll (map f l)) = List.length l * k.
Proof.
  induction l as [|x l IH]; intros H; [reflexivity |].
  cbn [map concatAll fold_right List.length]. fold (concatAll (map f l)).
  rewrite countChar_app, (H x (or_introl eq_refl)), IH; [lia |].
  intros y Hy. apply H. now right.
Qed.

Variable a : ascii.
Hypothesis Ha : In a structuralChars.

Lemma free_firstLowered (s : string) :
  charFree a s = true -> charFree a (firstLowered s) = true.
Proof.
  now apply firstLowered_free.
Qed.

Lemma free_firstUppered (s : string) :
  charFree a s = true -> charFree a (firstUppered s) = true.
Proof.
  now apply firstUppered_free.
Qed.

Lemma free_separator : charFree a ", " = true.
Proof. destruct Ha as [<- | [<- | [<- | []]]]; reflexivity. Qed.

Lemma free_fold_argsStep (names : list string) (args : string) :
  charFree a args = true -> forallb (charFree a) names = true ->
  charFree a (fold_left argsStep names args) = true.
Proof.
  revert args; induction names as [|n names IH]; intros args Hargs Hn; [easy |].
  cbn [forallb] in Hn. apply andb_true_iff in Hn as [Hn1 Hn2].
  cbn [fold_left]. apply IH; [| assumption].
  unfold argsStep. destruct (hasLength args); [| assumption].
  now rewrite !charFree_app, Hargs, Hn1, free_separator.
Qed.

Lemma free_collectArgs (names : list string) :
  forallb (charFree a) names = true -> charFree a (collectArgs names) = true.
Proof. intros H. now apply free_fold_argsStep. Qed.

Lemma free_names (f : JavaParameter -> string) (ps : list JavaParameter) :
  (forall p, parameterFreeOf a p = true -> charFree a (f p) = true) ->
  forallb (parameterFreeOf a) ps = true -> forallb (charFree a) (map f ps) = true.
Proof.
  intros Hf. induction ps as [|p ps IH]; [easy |]. cbn [forallb map]. intros H.
  apply andb_true_iff in H as [Hp Hps]. now rewrite (Hf p Hp), IH.
Qed.

Lemma free_attributeName (p : JavaParameter) :
  parameterFreeOf a p = true -> charFree a (attributeName p) = true.
Proof.
  intros H. apply andb_true_iff in H as [_ H]. now apply free_firstLowered.
Qed.

Lemma free_paramName (p : JavaParameter) :
  parameterFreeOf a p = true -> charFree a (paramName p) = true.
Proof. intros H. now apply andb_true_iff in H as [_ H]. Qed.

(** The characters of a piece are those of its template when the texts
    put into the template are free of the character. *)
Lemma mockField_census (p : JavaParameter) :
  parameterFreeOf a p = true ->
  countChar a (mockField p) = countChar a (lit "\t@Mock\n\tprivate ").
Proof.
  intros H. pose proof (free_attributeName _ H) as Hattr.
  apply andb_true_iff in H as [Ht Hn].
  unfold mockField. rewrite !countChar_app.
  rewrite (countChar_free _ _ Ht), (countChar_free _ _ Hattr).
  destruct Ha as [<- | [<- | [<- | []]]]; reflexivity.
Qed.

Lemma localDeclarations_census (m : JavaMethod) :
  forallb (parameterFreeOf a) (elements (parameters m)) = true ->
  countChar a (localDeclarations m) = 0.
Proof.
  intros H. unfold localDeclarations.
  destruct (nonEmpty (parameters m)); [| reflexivity].
  rewrite !countChar_app.
  rewrite (countChar_concatAll a localDeclaration _ 0).
  - destruct Ha as [<- | [<- | [<- | []]]]; count_closed; lia.
  - intros p Hp. rewrite forallb_forall in H. specialize (H p Hp).
    apply andb_true_iff in H as [Ht Hn].
    unfold localDeclaration. rewrite !countChar_app.
    rewrite (countChar_free _ _ Ht), (countChar_free _ _ Hn).
    destruct Ha as [<- | [<- | [<- | []]]]; reflexivity.
Qed.

Lemma callStatement_census (varName : string) (m : JavaMethod) :
  charFree a varName = true -> methodFreeOf a m = true ->
  countChar a (callStatement varName m) = 0.
Proof.
  intros Hv Hm. apply andb_true_iff in Hm as [Hm Hps]. apply andb_true_iff in Hm as [Hn Hr].
  assert (Hargs : charFree a (methodArgs m) = true).
  { apply free_collectArgs, free_names; [apply free_paramName | exact Hps]. }
  unfold callStatement. rewrite !countChar_app.
  rewrite (countChar_free _ _ Hv), (countChar_free _ _ Hn), (countChar_free _ _ Hargs).
  destruct (returnType m =? "void").
  - destruct Ha as [<- | [<- | [<- | []]]]; reflexivity.
  - rewrite countChar_app, (countChar_free _ _ Hr).
    destruct Ha as [<- | [<- | [<- | []]]]; reflexivity.
Qed.

(** Every test holds one annotation and one pair of braces. *)
Lemma testMethod_census (varName : string) (m : JavaMethod) :
  charFree a varName = true -> methodFreeOf a m = true ->
  countChar a (testMethod varName m) = 1.
Proof.
  intros Hv Hm. pose proof (callStatement_census _ _ Hv Hm) as Hcall.
  apply andb_true_iff in Hm as [Hm Hps]. apply andb_true_iff in Hm as [Hn Hr].
  pose proof (localDeclarations_census _ Hps) as Hdecl.
  pose proof (free_firstUppered _ Hn) as Hname.
  unfold testMethod, testMethodHeader. rewrite !countChar_app.
  rewrite Hcall, Hdecl, (countChar_free _ _ Hname).
  destruct Ha as [<- | [<- | [<- | []]]]; reflexivity.
Qed.

Lemma testsSection_census (c : JavaClass) :
  classFreeOf a c = true ->
  countChar a (testsSection c) = expectedTests c.
Proof.
  intros H. apply andb_true_iff in H as [H Hms]. apply andb_true_iff in H as [H _].
  apply andb_true_iff in H as [H _]. apply andb_true_iff in H as [Hn _].
  unfold testsSection, expectedTests. destruct (nonEmpty (publicMethods c)).
  - rewrite (countChar_concatAll a _ _ 1); [lia |].
    intros m Hm. apply testMethod_census; [now apply free_firstLowered |].
    rewrite forallb_forall in Hms. now apply Hms.
  - destruct Ha as [<- | [<- | [<- | []]]]; reflexivity.
Qed.

(** The class holds the characters of its header, of its mock fields, of
    the setup method, of its tests and of its closing brace. *)
Lemma createTestClass_census (c : JavaClass) :
  classFreeOf a c = true ->
  countChar a (createTestClass c)
  = countChar a (lit "\n@RunWith(MockitoJUnitRunner.class)\n" ++ lit "Test {\n")
    + List.length (elements (constructorParameters c)) * countChar a (lit "\t@Mock\n\tprivate ")
    + countChar a (lit "\n\n\t@Before\n\tpublic void setup() {\n\t\t" ++ lit "\n\t}\n")
    + expectedTests c
    + countChar a (lit "}\n").
Proof.
  intros H. pose proof (testsSection_census _ H) as Htests.
  apply andb_true_iff in H as [H Hms]. apply andb_true_iff in H as [H Hps].
  apply andb_true_iff in H as [H Hg]. apply andb_true_iff in H as [Hn Hm].
  pose proof (free_firstLowered _ Hn) as Hvar.
  assert (Hargs : charFree a (collectArgs (map attributeName (elements (constructorParameters c))))
                  = true).
  { apply free_collectArgs, free_names; [apply free_attributeName | exact Hps]. }
  rewrite createTestClass_layout.
  unfold classHeader, instanceAndSetup, instanceField, setupStatement.
  rewrite !countChar_app, Htests.
  rewrite (countChar_concatAll a mockField _ (countChar a (lit "\t@Mock\n\tprivate "))).
  - rewrite (countChar_free _ _ Hn), (countChar_free _ _ Hm), (countChar_free _ _ Hg),
      (countChar_free _ _ Hvar), (countChar_free _ _ Hargs).
    destruct Ha as [<- | [<- | [<- | []]]]; count_closed; lia.
  - intros p Hp. apply mockField_census. rewrite forallb_forall in Hps. now apply Hps.
Qed.

End Census.

(** X13: a class generated from plain texts holds, beside the runner
    annotation of the class and the annotation of the setup method, one
    annotation for each mock field and one for each test. *)
Theorem annotations_of_generated_class (c : JavaClass) :
  plainClass c = true ->
  countChar "@" (createTestClass c)
  = 2 + List.length (elements (constructorParameters c)) + expectedTests c.
Proof.
  intros H. rewrite (createTestClass_census "@"); [| now left | exact H].
  count_closed. lia.
Qed.

Lemma annotations_of_generated_class_witness :
  countChar "@" (createTestClass orderService) = 5.
Proof. exact (annotations_of_generated_class orderService eq_refl). Defined.

(** X14: in a class generated from texts without braces the braces are
    balanced: the class, the setup method and every test open one brace
    and close one. *)
Theorem braces_of_generated_class (c : JavaClass) :
  classFreeOf "{" c = true ->
  classFreeOf "}" c = true ->
  countChar "{" (createTestClass c) = 2 + expectedTests c
  /\ countChar "}" (createTestClass c) = 2 + expectedTests c.
Proof.
  intros Hopen Hclose. split.
  - rewrite (createTestClass_census "{"); [| right; now left | exact Hopen].
    count_closed. lia.
  - rewrite (createTestClass_census "}"); [| right; right; now left | exact Hclose].
    count_closed. lia.
Qed.

Lemma braces_of_generated_class_witness :
  countChar "{" (createTestClass calculatorClass) = 3
  /\ countChar "}" (createTestClass calculatorClass) = 3.
Proof. exact (braces_of_generated_class calculatorClass eq_refl eq_refl). Defined.

(** X15: the default scaffold and the empty class have balanced braces
    when the names put into them hold no brace: the scaffold opens and
    closes three braces, the empty class one. *)
Theorem braces_of_scaffolds (packageName javaClassName testClassName : string) :
  charFree "{" packageName = true -> charFree "}" packageName = true ->
  charFree "{" javaClassName = true -> charFree "}" javaClassName = true ->
  charFree "{" testClassName = true -> charFree "}" testClassName = true ->
  (countChar "{" (createDefaultTestClass javaClassName testClassName) = 3
   /\ countChar "}" (createDefaultTestClass javaClassName testClassName) = 3)
  /\ (countChar "{" (JS.Buffer_toString (generateEmptyClassContent packageName javaClassName)) = 1
      /\ countChar "}" (JS.Buffer_toString (generateEmptyClassContent packageName javaClassName)) = 1).
Proof.
  intros Hp1 Hp2 Hj1 Hj2 Ht1 Ht2. split; split.
  - unfold createDefaultTestClass. rewrite !countChar_app.
    rewrite !(countChar_free _ _ Hj1), (countChar_free _ _ Ht1). count_closed. reflexivity.
  - unfold createDefaultTestClass. rewrite !countChar_app.
    rewrite !(countChar_free _ _ Hj2), (countChar_free _ _ Ht2). count_closed. reflexivity.
  - unfold generateEmptyClassContent, JS.Buffer_toString, JS.Buffer_from.
    rewrite string_of_list_byte_of_string.
    destruct (hasLength packageName); rewrite !countChar_app;
      rewrite ?(countChar_free _ _ Hp1), (countChar_free _ _ Hj1); count_closed; reflexivity.
  - unfold generateEmptyClassContent, JS.Buffer_toString, JS.Buffer_from.
    rewrite string_of_list_byte_of_string.
    destruct (hasLength packageName); rewrite !countChar_app;
      rewrite ?(countChar_free _ _ Hp2), (countChar_free _ _ Hj2); count_closed; reflexivity.
Qed.

Lemma braces_of_scaffolds_witness :
  countChar "{" (createDefaultTestClass "Foo" "FooTest") = 3
  /\ countChar "}" (createDefaultTestClass "Foo" "FooTest") = 3.
Proof.
  exact (proj1 (braces_of_scaffolds "com.acme" "Foo" "FooTest"
                  eq_refl eq_refl eq_refl eq_refl eq_refl eq_refl)).
Defined.

(** ** Names of the tests *)

Section Overloads.

Lemma startsWith_app_mono (s p y : string) :
  JS.startsWith s p = true -> JS.startsWith (s ++ y) p = true.
Proof.
  revert s; induction p as [|x p IH]; intros s H; [reflexivity |].
  destruct s as [|b s]; simpl in *; [discriminate |].
  apply andb_true_iff in H as [H1 H2]. now rewrite H1, IH.
Qed.

(** The occurrences in two texts are occurrences in their concatenation. *)
Lemma occurrences_app_ge (p x y : string) :
  occurrences p x + occurrences p y <= occurrences p (x ++ y).
Proof.
  induction x as [|c x IH]; [simpl; lia |].
  change (String c x ++ y) with (String c (x ++ y)). cbn [occurrences].
  change (String c (x ++ y)) with (String c x ++ y).
  destruct (JS.startsWith (String c x) p) eqn:E.
  - rewrite (startsWith_app_mono _ _ y E). lia.
  - destruct (JS.startsWith (String c x ++ y) p); lia.
Qed.

Lemma occurrences_app_r (p x y : string) : occurrences p y <= occurrences p (x ++ y).
Proof. pose proof (occurrences_app_ge p x y). lia. Qed.

Lemma occurrences_app_l (p x y : string) : occurrences p x <= occurrences p (x ++ y).
Proof. pose proof (occurrences_app_ge p x y). lia. Qed.

End Overloads.

(** X16: two public methods of the same name, or of names that differ
    in the case of their first letter only, get tests of the same name:
    the generated class declares that test method twice. *)
Theorem overloaded_methods_share_test_name
    (c : JavaClass) (before between after : list JavaMethod) (m1 m2 : JavaMethod) :
  publicMethods c = Some (before ++ m1 :: between ++ m2 :: after)%list ->
  capitalizeFirstLetter (methodName m1) = capitalizeFirstLetter (methodName m2) ->
  2 <= occurrences ("public void should" ++ capitalizeFirstLetter (methodName m1) ++ "() {")
         (createTestClass c).
Proof.
  intros Hms Hname. set (p := "public void should" ++ capitalizeFirstLetter (methodName m1) ++ "() {").
  set (v := firstLowered (className c)).
  assert (Hone : forall m, capitalizeFirstLetter (methodName m) = capitalizeFirstLetter (methodName m1) ->
                           1 <= occurrences p (testMethod v m)).
  { intros m Hm. apply contains_occurrences; [discriminate |].
    unfold testMethod, testMethodHeader. rewrite <- capitalizeFirstLetter_firstUppered, Hm.
    exists (String NL "" ++ line 1 "@Test" ++ tabs 1),
      (String NL "" ++ localDeclarations m ++ lit "\t\t" ++ callStatement v m
         ++ lit "\n\n\t\t// TODO: assert scenario\n\t}\n").
    unfold p, line, tabs. cbn [repeat concatAll fold_right]. now rewrite !append_assoc. }
  rewrite createTestClass_layout. unfold testsSection. rewrite Hms.
  assert (Hne : nonEmpty (Some (before ++ m1 :: between ++ m2 :: after)%list) = true)
    by (destruct before; reflexivity).
  rewrite Hne. cbn [elements]. fold v.
  rewrite map_app. cbn [map]. rewrite map_app. cbn [map].
  rewrite concatAll_app. cbn [concatAll fold_right].
  fold (concatAll (map (testMethod v) between ++ testMethod v m2 :: map (testMethod v) after)%list).
  rewrite concatAll_app. cbn [concatAll fold_right].
  fold (concatAll (map (testMethod v) after)).
  pose proof (Hone m1 eq_refl) as H1. pose proof (Hone m2 (eq_sym Hname)) as H2.
  do 3 (etransitivity; [| apply occurrences_app_r]).
  etransitivity; [| apply occurrences_app_l].
  etransitivity; [| apply occurrences_app_r].
  etransitivity; [| apply occurrences_app_ge].
  etransitivity; [| apply Nat.add_le_mono_l, occurrences_app_r].
  etransitivity; [| apply Nat.add_le_mono_l, occurrences_app_l].
  lia.
Qed.

Lemma overloaded_methods_share_test_name_witness :
  2 <= occurrences "public void shouldAdd() {"
         (createTestClass
            (mkClass "Calculator" "public " (Some "") None
               (Some [mkMethod "add" "int" (Some [mkParameter "int" "a"]);
                      mkMethod "add" "long" (Some [mkParameter "long" "a"])]))).
Proof.
  exact (overloaded_methods_share_test_name
           (mkClass "Calculator" "public " (Some "") None
              (Some [mkMethod "add" "int" (Some [mkParameter "int" "a"]);
                     mkMethod "add" "long" (Some [mkParameter "long" "a"])]))
           [] [] [] (mkMethod "add" "int" (Some [mkParameter "int" "a"]))
           (mkMethod "add" "long" (Some [mkParameter "long" "a"])) eq_refl eq_refl).
Defined.

Section RoundTrip.

Lemma is_lower_ascii (c : ascii) :
  JS.is_lower c = true ->
  (nat_of_ascii c < 128)%nat /\ (nat_of_ascii (JS.upper_char c) < 128)%nat
  /\ JS.lower_char (JS.upper_char c) = c.
Proof.
  destruct c as [[] [] [] [] [] [] [] []]; intros H; try discriminate H;
    (split; [vm_compute; lia | split; [vm_compute; lia | reflexivity]]).
Qed.

Lemma is_upper_ascii (c : ascii) :
  JS.is_upper c = true ->
  (nat_of_ascii c < 128)%nat /\ (nat_of_ascii (JS.lower_char c) < 128)%nat
  /\ JS.upper_char (JS.lower_char c) = c.
Proof.
  destruct c as [[] [] [] [] [] [] [] []]; intros H; try discriminate H;
    (split; [vm_compute; lia | split; [vm_compute; lia | reflexivity]]).
Qed.

End RoundTrip.

(** X17: on a name that starts with a lower-case letter of the ASCII
    alphabet, lower-casing the first letter undoes upper-casing it; on a
    name that starts with an upper-case letter, upper-casing the first
    letter undoes lower-casing it. *)
Theorem first_letter_round_trip (c : ascii) (rest : string) :
  (JS.is_lower c = true ->
   lowercaseFirstLetter (capitalizeFirstLetter (String c rest)) = String c rest)
  /\ (JS.is_upper c = true ->
      capitalizeFirstLetter (lowercaseFirstLetter (String c rest)) = String c rest).
Proof.
  split; intros H.
  - destruct (is_lower_ascii c H) as (Hc & Hu & Hback).
    rewrite (capitalizeFirstLetter_firstUppered (String c rest)), (firstUppered_ascii c rest Hc).
    rewrite (lowercaseFirstLetter_firstLowered (String (JS.upper_char c) rest)).
    now rewrite (firstLowered_ascii _ rest Hu), Hback.
  - destruct (is_upper_ascii c H) as (Hc & Hl & Hback).
    rewrite (lowercaseFirstLetter_firstLowered (String c rest)), (firstLowered_ascii c rest Hc).
    rewrite (capitalizeFirstLetter_firstUppered (String (JS.lower_char c) rest)).
    now rewrite (firstUppered_ascii _ rest Hl), Hback.
Qed.

Lemma first_letter_round_trip_witness :
  lowercaseFirstLetter (capitalizeFirstLetter "add") = "add"
  /\ capitalizeFirstLetter (lowercaseFirstLetter "HTTPClient") = "HTTPClient".
Proof.
  split.
  - exact (proj1 (first_letter_round_trip "a" "dd") eq_refl).
  - exact (proj2 (first_letter_round_trip "H" "TTPClient") eq_refl).
Defined.

(** ** The location of the test file *)

Section TestFileLocation.

Lemma slice_app (a b : string) : JS.skip (String.length a) (a ++ b) = b.
Proof. induction a as [|c a IH]; [now destruct b | exact IH]. Qed.

Lemma replaceFirst_here (p after rep : string) :
  replaceFirst (p ++ after) p rep = rep ++ after.
Proof.
  destruct p as [|x p].
  - destruct after; reflexivity.
  - change (String x p ++ after) with (String x (p ++ after)).
    cbn [replaceFirst].
    change (String x (p ++ after)) with (String x p ++ after).
    now rewrite startsWith_append, slice_app.
Qed.

Lemma replaceFirst_first (p before after rep : string) :
  firstOccurrence p (before ++ p ++ after) before ->
  replaceFirst (before ++ p ++ after) p rep = before ++ rep ++ after.
Proof.
  induction before as [|c before IH]; intros [_ Hmin].
  - exact (replaceFirst_here p after rep).
  - change (String c before ++ p ++ after) with (String c (before ++ p ++ after)).
    cbn [replaceFirst].
    destruct (JS.startsWith (String c (before ++ p ++ after)) p) eqn:E.
    + apply startsWith_split in E as [r Hr].
      specialize (Hmin "" r Hr). simpl in Hmin. lia.
    + rewrite IH; [reflexivity |].
      split; [now exists after |].
      intros b' a' Hs.
      assert (Hle : String.length (String c before) <= String.length (String c b')).
      { apply (Hmin (String c b') a'). simpl. now rewrite Hs. }
      simpl in Hle. lia.
Qed.

Lemma replaceFirst_absent (p s rep : string) :
  ~ contains p s -> replaceFirst s p rep = s.
Proof.
  induction s as [|c s IH]; intros H.
  - cbn [replaceFirst]. destruct (JS.startsWith "" p) eqn:E; [| reflexivity].
    apply startsWith_split in E as [r Hr]. exfalso. apply H. now exists "", r.
  - cbn [replaceFirst]. destruct (JS.startsWith (String c s) p) eqn:E.
    + apply startsWith_split in E as [r Hr]. exfalso. apply H. now exists "", r.
    + rewrite IH; [reflexivity |].
      intros (b & a & ->). apply H. now exists (String c b), a.
Qed.

Lemma dirPath_app (l1 l2 : list string) : dirPath (l1 ++ l2) = dirPath l1 ++ dirPath l2.
Proof. unfold dirPath. now rewrite map_app, concatAll_app. Qed.

Lemma scan_segment (s r cur : string) :
  charFree "/" s = true ->
  PosixPath.segments_scan (s ++ r) cur = PosixPath.segments_scan r (cur ++ s).
Proof.
  revert cur; induction s as [|c s IH]; intros cur H.
  - simpl. now rewrite append_nil_r.
  - cbn [charFree] in H. apply andb_true_iff in H as [Hc Hs].
    change (String c s ++ r) with (String c (s ++ r)). cbn [PosixPath.segments_scan].
    rewrite Ascii.eqb_sym. apply negb_true_iff in Hc. rewrite Hc.
    rewrite (IH _ Hs), append_assoc. reflexivity.
Qed.

Lemma dirPath_cons (s : string) (segs : list string) :
  dirPath (s :: segs) = String "/" (s ++ dirPath segs).
Proof. reflexivity. Qed.

Lemma segments_dirPath (segs : list string) (cur : string) :
  forallb (charFree "/") segs = true ->
  PosixPath.segments_scan (dirPath segs) cur = cur :: segs.
Proof.
  revert cur; induction segs as [|s segs IH]; intros cur H; [reflexivity |].
  cbn [forallb] in H. apply andb_true_iff in H as [Hs Hsegs].
  rewrite dirPath_cons. cbn [PosixPath.segments_scan].
  change (Ascii.eqb "/" "/") with true. cbv iota.
  rewrite (scan_segment _ _ _ Hs). cbn [append]. now rewrite IH.
Qed.

Lemma cleanSegment_inv (s : string) :
  cleanSegment s = true ->
  s <> "" /\ (s =? ".") = false /\ (s =? "..") = false /\ charFree "/" s = true.
Proof.
  intros H. apply andb_true_iff in H as [H H4]. apply andb_true_iff in H as [H H3].
  apply andb_true_iff in H as [H1 H2].
  apply negb_true_iff in H2, H3. apply hasLength_true in H1. auto.
Qed.

Lemma normalizeStep_clean (b : bool) (res : list string) (s : string) :
  cleanSegment s = true -> PosixPath.normalizeStep b res s = (res ++ [s])%list.
Proof.
  intros H. apply cleanSegment_inv in H as (H1 & H2 & H3 & _).
  unfold PosixPath.normalizeStep. rewrite H2, H3.
  apply String.eqb_neq in H1. now rewrite H1.
Qed.

Lemma fold_normalizeStep_clean (b : bool) (segs res : list string) :
  forallb cleanSegment segs = true ->
  fold_left (PosixPath.normalizeStep b) segs res = (res ++ segs)%list.
Proof.
  revert res; induction segs as [|s segs IH]; intros res H.
  - now rewrite app_nil_r.
  - cbn [forallb] in H. apply andb_true_iff in H as [Hs Hsegs].
    cbn [fold_left]. rewrite (normalizeStep_clean _ _ _ Hs), (IH _ Hsegs).
    now rewrite <- app_assoc.
Qed.

Lemma normalizeStep_parent (b : bool) (res : list string) (s : string) :
  (s =? "..") = false ->
  PosixPath.normalizeStep b (res ++ [s]) ".." = res.
Proof.
  intros H. unfold PosixPath.normalizeStep. cbn [String.eqb Ascii.eqb Bool.eqb orb].
  destruct (res ++ [s])%list eqn:E; [now destruct res |].
  rewrite <- E, last_last, H. apply removelast_last.
Qed.

Lemma concat_dirPath (s : string) (segs : list string) :
  "/" ++ String.concat "/" (s :: segs) = dirPath (s :: segs).
Proof.
  revert s; induction segs as [|t segs IH]; intros s.
  - unfold dirPath. cbn. now rewrite append_nil_r.
  - change (String.concat "/" (s :: t :: segs)) with (s ++ "/" ++ String.concat "/" (t :: segs)).
    rewrite IH. unfold dirPath. cbn [map concatAll fold_right]. now rewrite !append_assoc.
Qed.

Lemma endsWithSlash_app (x g : string) :
  g <> "" -> PosixPath.endsWithSlash (x ++ g) = PosixPath.endsWithSlash g.
Proof.
  intros Hg. induction x as [|c x IH]; [reflexivity |].
  change (String c x ++ g) with (String c (x ++ g)).
  destruct (x ++ g) eqn:E.
  - destruct x; [simpl in E; congruence | discriminate].
  - cbn [PosixPath.endsWithSlash]. exact IH.
Qed.

Lemma javaFile_clean (name : string) :
  charFree "/" name = true -> cleanSegment (name ++ ".java") = true.
Proof.
  intros H. unfold cleanSegment. rewrite charFree_app, H.
  destruct name as [|a [|b [|c name]]]; try reflexivity.
  - cbn. destruct (Ascii.eqb a "."); reflexivity.
  - cbn. destruct (Ascii.eqb a "."); [| reflexivity]. destruct (Ascii.eqb b "."); reflexivity.
  - cbn. destruct (Ascii.eqb a "."); [| reflexivity]. destruct (Ascii.eqb b "."); reflexivity.
Qed.

Lemma endsWithSlash_dirPath (segs : list string) (g : string) :
  g <> "" ->
  PosixPath.endsWithSlash (dirPath (segs ++ [g])) = PosixPath.endsWithSlash g.
Proof.
  intros Hg. rewrite dirPath_app. unfold dirPath at 2. cbn [map concatAll fold_right].
  rewrite append_nil_r.
  replace (dirPath segs ++ "/" ++ g) with ((dirPath segs ++ "/") ++ g)
    by now rewrite append_assoc.
  now apply endsWithSlash_app.
Qed.

Lemma dirPath_absolute (s : string) (segs : list string) :
  hasLength (dirPath (s :: segs)) = true /\ JS.startsWith (dirPath (s :: segs)) "/" = true.
Proof. split; reflexivity. Qed.

(** The normal form of a path that steps back from a file to a sibling. *)
Lemma normalize_sibling (dirs : list string) (file g : string) :
  forallb cleanSegment dirs = true ->
  cleanSegment file = true ->
  cleanSegment g = true ->
  PosixPath.endsWithSlash g = false ->
  PosixPath.normalize (dirPath (dirs ++ [file; ".."; g])) = dirPath (dirs ++ [g]).
Proof.
  intros Hdirs Hfile Hg Htrail.
  pose proof (cleanSegment_inv _ Hfile) as (_ & _ & Hfile2 & Hfile3).
  pose proof (cleanSegment_inv _ Hg) as (Hg0 & _ & _ & Hg3).
  assert (Hslash : forallb (charFree "/") (dirs ++ [file; ".."; g]) = true).
  { rewrite forallb_app. apply andb_true_iff. split.
    - apply forallb_forall. intros s Hs. rewrite forallb_forall in Hdirs.
      destruct (cleanSegment_inv _ (Hdirs s Hs)) as (_ & _ & _ & H). exact H.
    - cbn [forallb]. rewrite Hfile3, Hg3. reflexivity. }
  assert (Habs : hasLength (dirPath (dirs ++ [file; ".."; g])) = true
                 /\ JS.startsWith (dirPath (dirs ++ [file; ".."; g])) "/" = true).
  { destruct dirs; apply dirPath_absolute. }
  destruct Habs as [Hlen Habs].
  assert (Hend : PosixPath.endsWithSlash (dirPath (dirs ++ [file; ".."; g])) = false).
  { replace (dirs ++ [file; ".."; g])%list with ((dirs ++ [file; ".."]) ++ [g])%list
      by now rewrite <- app_assoc.
    now rewrite endsWithSlash_dirPath. }
  assert (Hfold : fold_left (PosixPath.normalizeStep false) ("" :: dirs ++ [file; ".."; g]) []
                  = (dirs ++ [g])%list).
  { cbn [fold_left]. unfold PosixPath.normalizeStep at 2. cbn [String.eqb orb].
    replace (dirs ++ [file; ".."; g])%list with ((dirs ++ [file]) ++ [".."; g])%list
      by now rewrite <- app_assoc.
    rewrite fold_left_app.
    rewrite (fold_normalizeStep_clean _ (dirs ++ [file]) [])
      by (rewrite forallb_app, Hdirs; cbn [forallb]; now rewrite Hfile).
    cbn [app fold_left]. rewrite (normalizeStep_parent _ _ _ Hfile2).
    now rewrite (normalizeStep_clean _ _ _ Hg). }
  assert (Hres : "/" ++ String.concat "/" (dirs ++ [g]) = dirPath (dirs ++ [g])).
  { destruct dirs; apply concat_dirPath. }
  assert (Hres0 : hasLength (String.concat "/" (dirs ++ [g])) = true).
  { destruct (String.concat "/" (dirs ++ [g])) eqn:E; [| reflexivity].
    exfalso. apply (f_equal String.length) in Hres.
    rewrite dirPath_app, !length_append in Hres.
    destruct g as [|x g']; [congruence |]. cbn in Hres. lia. }
  unfold PosixPath.normalize, PosixPath.segments. cbv zeta.
  rewrite Hlen, Habs, Hend, (segments_dirPath _ _ Hslash). cbn [negb].
  rewrite Hfold, Hres0. cbn [negb]. rewrite append_nil_r. exact Hres.
Qed.

(** Joining a file path with [..] and a file name gives the sibling of
    the file. *)
Lemma join_sibling (dirs : list string) (file name : string) :
  forallb cleanSegment (dirs ++ [file]) = true ->
  charFree "/" name = true ->
  PosixPath.join [dirPath (dirs ++ [file]); ".."; name ++ ".java"]
  = dirPath (dirs ++ [name ++ ".java"]).
Proof.
  intros Hclean Hname.
  pose proof (javaFile_clean _ Hname) as Hg.
  assert (Htrail : PosixPath.endsWithSlash (name ++ ".java") = false)
    by now rewrite endsWithSlash_app.
  remember (name ++ ".java") as g eqn:Eg. clear Eg.
  rewrite forallb_app in Hclean. apply andb_true_iff in Hclean as [Hdirs Hfile].
  cbn [forallb] in Hfile. rewrite andb_true_r in Hfile.
  pose proof (cleanSegment_inv _ Hg) as (Hg0 & _).
  unfold PosixPath.join. cbn [filter].
  assert (Hpath : hasLength (dirPath (dirs ++ [file])) = true) by (destruct dirs; reflexivity).
  rewrite Hpath. cbn [hasLength String.length Nat.eqb negb].
  rewrite (proj2 (hasLength_true _) Hg0).
  change (String.concat "/" [dirPath (dirs ++ [file]); ".."; g])
    with (dirPath (dirs ++ [file]) ++ "/" ++ ".." ++ "/" ++ g).
  replace (dirPath (dirs ++ [file]) ++ "/" ++ ".." ++ "/" ++ g)
    with (dirPath (dirs ++ [file; ".."; g])).
  - now apply normalize_sibling.
  - rewrite !dirPath_app. unfold dirPath. cbn [map concatAll fold_right].
    now rewrite !append_assoc, ?append_nil_r.
Qed.

(** The path of the test file of a class in the main tree. *)
Lemma testFilePath_in_tree (javaPath testClassName : string)
    (root pkg : list string) (file : string) :
  javaPath = dirPath (root ++ ["src"; "main"; "java"] ++ pkg ++ [file]) ->
  firstOccurrence "/src/main/java" javaPath (dirPath root) ->
  forallb cleanSegment (root ++ pkg ++ [file]) = true ->
  charFree "/" testClassName = true ->
  PosixPath.join [replaceFirst javaPath "/src/main/java" "/src/test/java"; "..";
                  testClassName ++ ".java"]
  = dirPath (root ++ ["src"; "test"; "java"] ++ pkg ++ [testClassName ++ ".java"]).
Proof.
  intros Hpath Hfirst Hclean Hname.
  assert (Hshape : javaPath = dirPath root ++ "/src/main/java" ++ dirPath (pkg ++ [file])).
  { rewrite Hpath, !dirPath_app. reflexivity. }
  rewrite Hshape in Hfirst |- *. rewrite (replaceFirst_first _ _ _ _ Hfirst).
  replace (dirPath root ++ "/src/test/java" ++ dirPath (pkg ++ [file]))
    with (dirPath ((root ++ ["src"; "test"; "java"] ++ pkg) ++ [file]))
    by (rewrite !dirPath_app; unfold dirPath; cbn [map concatAll fold_right];
        now rewrite !append_assoc, ?append_nil_r).
  rewrite join_sibling; [now rewrite <- !app_assoc | | exact Hname].
  rewrite !forallb_app in Hclean |- *.
  apply andb_true_iff in Hclean as [Hroot Hrest]. apply andb_true_iff in Hrest as [Hpkg Hfile].
  rewrite Hroot, Hfile, andb_true_r. exact Hpkg.
Qed.

End TestFileLocation.

(** X18: the test of a class in a package directory of the main tree
    lies in the same package directory of the test tree, under the name
    of the test class: the first marker of the main tree in the path is
    replaced by the marker of the test tree and the file name by the test
    class name and [.java]. *)
Theorem test_file_of_class_in_main_tree
    (withPath : Uri -> string -> Uri) (javaFileUri : Uri) (testClassName : string)
    (root pkg : list string) (file : string) :
  (forall u p, path (withPath u p) = p) ->
  path javaFileUri = dirPath (root ++ ["src"; "main"; "java"] ++ pkg ++ [file]) ->
  firstOccurrence "/src/main/java" (path javaFileUri) (dirPath root) ->
  forallb cleanSegment (root ++ pkg ++ [file]) = true ->
  charFree "/" testClassName = true ->
  path (getTestFileUri withPath javaFileUri testClassName)
  = dirPath (root ++ ["src"; "test"; "java"] ++ pkg ++ [testClassName ++ ".java"]).
Proof.
  intros Hwith Hpath Hfirst Hclean Hname. unfold getTestFileUri. rewrite Hwith.
  exact (testFilePath_in_tree _ _ _ _ file Hpath Hfirst Hclean Hname).
Qed.

Lemma test_file_of_class_in_main_tree_witness :
  path (getTestFileUri (fun _ p => mkUri p p)
          (mkUri "/p/src/main/java/com/acme/Foo.java" "/p/src/main/java/com/acme/Foo.java")
          "FooTest")
  = "/p/src/test/java/com/acme/FooTest.java".
Proof.
  apply (test_file_of_class_in_main_tree (fun _ p => mkUri p p)
           (mkUri "/p/src/main/java/com/acme/Foo.java" "/p/src/main/java/com/acme/Foo.java")
           "FooTest" ["p"] ["com"; "acme"] "Foo.java").
  - reflexivity.
  - reflexivity.
  - apply (firstOccurrence_indexOf "/src/main/java" "/p" "/com/acme/Foo.java"). reflexivity.
  - reflexivity.
  - reflexivity.
Defined.

(** X19: the test of a class whose path holds no marker of the main tree
    lies beside the class. *)
Theorem test_file_of_class_outside_main_tree
    (withPath : Uri -> string -> Uri) (javaFileUri : Uri) (testClassName : string)
    (dirs : list string) (file : string) :
  (forall u p, path (withPath u p) = p) ->
  path javaFileUri = dirPath (dirs ++ [file]) ->
  ~ contains "/src/main/java" (path javaFileUri) ->
  forallb cleanSegment (dirs ++ [file]) = true ->
  charFree "/" testClassName = true ->
  path (getTestFileUri withPath javaFileUri testClassName)
  = dirPath (dirs ++ [testClassName ++ ".java"]).
Proof.
  intros Hwith Hpath Habsent Hclean Hname. unfold getTestFileUri. rewrite Hwith.
  rewrite (replaceFirst_absent _ _ _ Habsent), Hpath.
  now apply join_sibling.
Qed.

Lemma test_file_of_class_outside_main_tree_witness :
  path (getTestFileUri (fun _ p => mkUri p p)
          (mkUri "/home/user/projects/myproject/Foo.java"
                 "/home/user/projects/myproject/Foo.java") "FooTest")
  = "/home/user/projects/myproject/FooTest.java".
Proof.
  apply (test_file_of_class_outside_main_tree (fun _ p => mkUri p p)
           (mkUri "/home/user/projects/myproject/Foo.java"
                  "/home/user/projects/myproject/Foo.java")
           "FooTest" ["home"; "user"; "projects"; "myproject"] "Foo.java").
  - reflexivity.
  - reflexivity.
  - intros H. apply contains_occurrences in H; [| discriminate].
    vm_compute in H. lia.
  - reflexivity.
  - reflexivity.
Defined.

(** ** The package of the test file *)

Section TestPackage.

Lemma basename_scan_segment (s r cur last : string) :
  charFree "/" s = true ->
  Posix.basename_scan (s ++ r) cur last = Posix.basename_scan r (cur ++ s) last.
Proof.
  revert cur; induction s as [|c s IH]; intros cur H.
  - simpl. now rewrite append_nil_r.
  - cbn [charFree] in H. apply andb_true_iff in H as [Hc Hs].
    change (String c s ++ r) with (String c (s ++ r)). cbn [Posix.basename_scan].
    rewrite Ascii.eqb_sym. apply negb_true_iff in Hc. rewrite Hc.
    rewrite (IH _ Hs), append_assoc. reflexivity.
Qed.

Lemma basename_scan_dirPath (segs : list string) (g cur last : string) :
  forallb (charFree "/") segs = true ->
  charFree "/" g = true ->
  g <> "" ->
  Posix.basename_scan (dirPath (segs ++ [g])) cur last = g.
Proof.
  intros Hsegs Hg Hg0. revert cur last.
  induction segs as [|s segs IH]; intros cur last.
  - cbn [app]. rewrite dirPath_cons. cbn [Posix.basename_scan].
    change (Ascii.eqb "/" "/") with true. cbv iota.
    rewrite (basename_scan_segment _ _ _ _ Hg). cbn [append dirPath map concatAll fold_right].
    cbn [Posix.basename_scan].
    assert (Hzero : (String.length g =? 0)%nat = false)
      by (destruct g; [congruence | reflexivity]).
    now rewrite Hzero.
  - cbn [forallb] in Hsegs. apply andb_true_iff in Hsegs as [Hs Hsegs].
    cbn [app]. rewrite dirPath_cons. cbn [Posix.basename_scan].
    change (Ascii.eqb "/" "/") with true. cbv iota.
    rewrite (basename_scan_segment _ _ _ _ Hs). now apply IH.
Qed.

Lemma last_dot_suffix_java (x : string) :
  Posix.last_dot_suffix (x ++ ".java") = Some ".java".
Proof.
  induction x as [|c x IH]; [reflexivity |].
  change (String c x ++ ".java") with (String c (x ++ ".java")).
  cbn [Posix.last_dot_suffix]. now rewrite IH.
Qed.

Lemma extname_java (segs : list string) (name : string) :
  forallb (charFree "/") segs = true ->
  charFree "/" name = true ->
  name <> "" ->
  Posix.extname (dirPath (segs ++ [name ++ ".java"])) = ".java".
Proof.
  intros Hsegs Hname Hname0. unfold Posix.extname, Posix.basename.
  rewrite basename_scan_dirPath; [| exact Hsegs | | ].
  - destruct name as [|c name]; [congruence |].
    change (String c name ++ ".java") with (String c (name ++ ".java")).
    cbv beta iota. rewrite last_dot_suffix_java.
    destruct (String c (name ++ ".java") =? "..") eqn:E; [| reflexivity].
    apply String.eqb_eq in E. apply (f_equal String.length) in E.
    cbn [String.length] in E. rewrite length_append in E. cbn in E. lia.
  - now rewrite charFree_app, Hname.
  - destruct name; [congruence | discriminate].
Qed.

Lemma replace_slashes_app (x y : string) :
  JS.replace_slashes (x ++ y) = JS.replace_slashes x ++ JS.replace_slashes y.
Proof.
  unfold JS.replace_slashes. induction x as [|c x IH]; [reflexivity |].
  cbn [append JS.map_chars]. now rewrite IH.
Qed.

Lemma replace_slashes_free (s : string) :
  charFree "/" s = true -> JS.replace_slashes s = s.
Proof.
  unfold JS.replace_slashes. induction s as [|c s IH]; intros H; [reflexivity |].
  cbn [charFree] in H. apply andb_true_iff in H as [Hc Hs].
  cbn [JS.map_chars]. rewrite (IH Hs).
  rewrite Ascii.eqb_sym. apply negb_true_iff in Hc. now rewrite Hc.
Qed.

(** The dotted name of a package is its directory path with dots for
    slashes. *)
Lemma replace_slashes_concat (segs : list string) :
  forallb (charFree "/") segs = true ->
  JS.replace_slashes (String.concat "/" segs) = String.concat "." segs.
Proof.
  induction segs as [|s segs IH]; intros H; [reflexivity |].
  cbn [forallb] in H. apply andb_true_iff in H as [Hs Hsegs].
  destruct segs as [|t segs].
  - cbn [String.concat]. now apply replace_slashes_free.
  - change (String.concat "/" (s :: t :: segs)) with (s ++ "/" ++ String.concat "/" (t :: segs)).
    change (String.concat "." (s :: t :: segs)) with (s ++ "." ++ String.concat "." (t :: segs)).
    rewrite !replace_slashes_app, (replace_slashes_free _ Hs), (IH Hsegs). reflexivity.
Qed.

End TestPackage.

(** X20: the test file of a class in a package of the main tree declares
    the package of the class: the location the test file gets has the
    dotted name of the package directory of the class as its package
    name.  The file-system path of the location is its path; the marker
    of the test tree and the test class name are looked up at their first
    occurrence in it. *)
Theorem test_file_declares_package_of_class
    (withPath : Uri -> string -> Uri) (javaFileUri : Uri) (testClassName : string)
    (root pkg : list string) (file : string) :
  (forall u p, path (withPath u p) = p /\ fsPath (withPath u p) = p) ->
  path javaFileUri = dirPath (root ++ ["src"; "main"; "java"] ++ pkg ++ [file]) ->
  firstOccurrence "/src/main/java" (path javaFileUri) (dirPath root) ->
  forallb cleanSegment (root ++ pkg ++ [file]) = true ->
  charFree "/" testClassName = true ->
  testClassName <> "" ->
  pkg <> [] ->
  let testPath :=
    dirPath (root ++ ["src"; "test"; "java"] ++ pkg ++ [testClassName ++ ".java"]) in
  firstOccurrence "/src/test/java" testPath (dirPath root) ->
  firstOccurrence testClassName testPath
    (dirPath (root ++ ["src"; "test"; "java"] ++ pkg) ++ "/") ->
  generateTestClassPackageDeclaration
    (getTestFileUri withPath javaFileUri testClassName) testClassName
  = "package " ++ String.concat "." pkg ++ ";".
Proof.
  intros Hwith Hpath Hfirst Hclean Hname Hname0 Hpkg0 testPath Hmarker Hfile.
  unfold getTestFileUri.
  rewrite (testFilePath_in_tree _ _ _ _ file Hpath Hfirst Hclean Hname). fold testPath.
  destruct (Hwith javaFileUri testPath) as [Hp Hfs].
  rewrite !forallb_app in Hclean.
  apply andb_true_iff in Hclean as [Hroot Hrest]. apply andb_true_iff in Hrest as [Hpkg _].
  assert (Hfree : forall l, forallb cleanSegment l = true -> forallb (charFree "/") l = true).
  { intros l Hl. apply forallb_forall. intros s Hs. rewrite forallb_forall in Hl.
    destruct (cleanSegment_inv _ (Hl s Hs)) as (_ & _ & _ & H). exact H. }
  destruct pkg as [|p0 pkg]; [congruence |].
  assert (Hdir : dirPath (root ++ ["src"; "test"; "java"] ++ p0 :: pkg) ++ "/"
                 = dirPath root ++ sourceRootMarker true ++ "/"
                     ++ String.concat "/" (p0 :: pkg) ++ "/").
  { rewrite !dirPath_app, <- (concat_dirPath p0 pkg).
    unfold sourceRootMarker. cbn [dirPath map concatAll fold_right].
    now rewrite !append_assoc. }
  assert (Hpkgstr : String.concat "/" (p0 :: pkg) <> "").
  { cbn [forallb] in Hpkg. apply andb_true_iff in Hpkg as [Hp0 _].
    destruct (cleanSegment_inv _ Hp0) as (Hp00 & _).
    destruct p0; [congruence |]. destruct pkg; discriminate. }
  unfold generateTestClassPackageDeclaration.
  rewrite (packageName_in_package (withPath javaFileUri testPath) true (dirPath root)
             (String.concat "/" (p0 :: pkg)) testClassName).
  - rewrite replace_slashes_hasLength, (proj2 (hasLength_true _) Hpkgstr). cbn [negb].
    now rewrite (replace_slashes_concat _ (Hfree _ Hpkg)).
  - rewrite Hp. unfold testPath.
    replace (root ++ ["src"; "test"; "java"] ++ (p0 :: pkg)
               ++ [(testClassName ++ ".java")%string])%list
      with ((root ++ ["src"; "test"; "java"] ++ p0 :: pkg)
              ++ [(testClassName ++ ".java")%string])%list
      by (now rewrite <- !app_assoc).
    rewrite extname_java; [reflexivity | | exact Hname | exact Hname0].
    rewrite !forallb_app, (Hfree _ Hroot), (Hfree _ Hpkg). reflexivity.
  - rewrite Hfs. exact Hmarker.
  - rewrite Hfs, <- Hdir. exact Hfile.
  - exact Hname0.
  - exact Hpkgstr.
Qed.

Lemma test_file_declares_package_of_class_witness :
  generateTestClassPackageDeclaration
    (getTestFileUri (fun _ p => mkUri p p)
       (mkUri "/p/src/main/java/com/acme/Foo.java" "/p/src/main/java/com/acme/Foo.java")
       "FooTest") "FooTest"
  = "package com.acme;".
Proof.
  apply (test_file_declares_package_of_class (fun _ p => mkUri p p)
           (mkUri "/p/src/main/java/com/acme/Foo.java" "/p/src/main/java/com/acme/Foo.java")
           "FooTest" ["p"] ["com"; "acme"] "Foo.java").
  - intros u p. split; reflexivity.
  - reflexivity.
  - apply (firstOccurrence_indexOf "/src/main/java" "/p" "/com/acme/Foo.java"). reflexivity.
  - reflexivity.
  - reflexivity.
  - discriminate.
  - discriminate.
  - apply (firstOccurrence_indexOf "/src/test/java" "/p" "/com/acme/FooTest.java"). reflexivity.
  - apply (firstOccurrence_indexOf "FooTest" "/p/src/test/java/com/acme/" ".java"). reflexivity.
Defined.
